(** * StudBud: a shallow embedding of [app.py]

    The Python class [StudBud] keeps a student profile, a study plan (a
    dictionary from ISO dates to daily plans) and a text classifier.  This
    file embeds its methods as state-and-exception computations and proves
    the properties of plan generation, prioritisation and persistence.

    Conventions of the embedding:
    - Python objects that end up in [self.study_plan] are values of the
      type [value] (the JSON-shaped fragment of Python: None, bool, int,
      float, str, list, dict with string keys);
    - a Python [dict] is an association list in insertion order with
      pairwise distinct keys ([Dict.set] keeps the position of a key that is
      already there, as Python does);
    - a Python [float] is the rational it denotes, in lowest terms (type
      [Q]): the quotient of two integers is the double nearest to it, or
      [OverflowError] beyond the doubles; the literal [0.5] is one half,
      and [0.7] stands for seven tenths, which no double separates from
      the double of that literal; infinities and NaN are not modelled;
    - a Python [str] is a [string] (code points below 256);
    - an attribute that an object does not have yet is [None] in the
      record of its attributes, and reading it raises [AttributeError];
    - a method is a function [state -> result A * state]: it may raise an
      exception, and what it changed before raising stays changed. *)

From Stdlib Require Import ZArith QArith Qreduction List String Ascii Bool Lia.
From Stdlib Require DecimalString DecimalZ.
Import ListNotations.

Close Scope Q_scope.

Set Implicit Arguments.
Set Warnings "-register-all".

(** ** Python dictionaries with string keys *)

Module Dict.

Definition dict (V : Type) : Type := list (string * V).

Fixpoint get {V} (k : string) (d : dict V) : option V :=
  match d with
  | [] => None
  | (k', v) :: d' => if String.eqb k k' then Some v else get k d'
  end.

(** [d[k] = v]: overwrite in place, or append a new entry at the end. *)
Fixpoint set {V} (k : string) (v : V) (d : dict V) : dict V :=
  match d with
  | [] => [(k, v)]
  | (k', v') :: d' =>
      if String.eqb k k' then (k', v) :: d' else (k', v') :: set k v d'
  end.

Definition keys {V} (d : dict V) : list string := map fst d.

(** [d.update(pairs)]: the assignments [d[k] = v] in the order of the
    pairs. *)
Definition update {V} (d : dict V) (l : list (string * V)) : dict V :=
  fold_left (fun d' kv => set (fst kv) (snd kv) d') l d.

(** [dict(pairs)] *)
Definition of_pairs {V} (l : list (string * V)) : dict V := update [] l.

End Dict.

(** ** Python values *)

Inductive value : Type :=
| VNone
| VBool (b : bool)
| VInt (z : Z)
| VFloat (q : Q)
| VStr (s : string)
| VList (l : list value)
| VDict (d : list (string * value)).

(** Induction on values that reaches into lists and dictionaries. *)
Section ValueInduction.

Variable P : value -> Prop.
Hypothesis P_none : P VNone.
Hypothesis P_bool : forall b, P (VBool b).
Hypothesis P_int : forall z, P (VInt z).
Hypothesis P_float : forall q, P (VFloat q).
Hypothesis P_str : forall s, P (VStr s).
Hypothesis P_list : forall l, Forall P l -> P (VList l).
Hypothesis P_dict : forall d, Forall (fun kx => P (snd kx)) d -> P (VDict d).

Fixpoint value_nested_ind (v : value) : P v :=
  match v with
  | VNone => P_none
  | VBool b => P_bool b
  | VInt z => P_int z
  | VFloat q => P_float q
  | VStr s => P_str s
  | VList l =>
      @P_list l
        ((fix go (l : list value) : Forall P l :=
            match l with
            | [] => @Forall_nil _ P
            | x :: l' => @Forall_cons _ P x l' (value_nested_ind x) (go l')
            end) l)
  | VDict d =>
      @P_dict d
        ((fix go (l : list (string * value)) : Forall (fun kx => P (snd kx)) l :=
            match l with
            | [] => @Forall_nil _ (fun kx => P (snd kx))
            | kx :: l' =>
                @Forall_cons _ (fun kx => P (snd kx)) kx l'
                  (value_nested_ind (snd kx)) (go l')
            end) d)
  end.

End ValueInduction.

(** ** Exceptions and results *)

Inductive exn : Type :=
| KeyError (key : string)
| AttributeError (name : string)
| IndexError
| ZeroDivisionError
| OverflowError
| TypeError
| ValueError
| EOFError
| FileNotFoundError (filename : string)
| JSONDecodeError.

Inductive result (A : Type) : Type :=
| Normal (a : A)
| Raise (e : exn).

Arguments Normal {A} a.
Arguments Raise {A} e.

(** ** Calendar dates ([datetime.date]) *)

Module Date.

Local Open Scope Z_scope.

Record date : Type := mkdate { year : Z; month : Z; day : Z }.

Definition MINYEAR : Z := 1.
Definition MAXYEAR : Z := 9999.

Definition is_leap (y : Z) : bool :=
  (y mod 4 =? 0) && (negb (y mod 100 =? 0) || (y mod 400 =? 0)).

Definition days_in_month (y m : Z) : Z :=
  if m =? 2 then (if is_leap y then 29 else 28)
  else if (m =? 4) || (m =? 6) || (m =? 9) || (m =? 11) then 30
  else 31.

(** The dates a [datetime.date] object can hold. *)
Definition valid (d : date) : Prop :=
  MINYEAR <= year d <= MAXYEAR /\ 1 <= month d <= 12 /\
  1 <= day d <= days_in_month (year d) (month d).

(** [d + datetime.timedelta(days=1)]: the next calendar day, or
    [OverflowError] after 9999-12-31. *)
Definition add_one_day (d : date) : result date :=
  if day d <? days_in_month (year d) (month d)
  then Normal (mkdate (year d) (month d) (day d + 1))
  else if month d <? 12
  then Normal (mkdate (year d) (month d + 1) 1)
  else if year d <? MAXYEAR
  then Normal (mkdate (year d + 1) 1 1)
  else Raise OverflowError.

(** [d + datetime.timedelta(days=n)] for [n] repeated single days, when
    every intermediate date exists. *)
Fixpoint add_days (n : nat) (d : date) : option date :=
  match n with
  | O => Some d
  | S n' =>
      match add_one_day d with
      | Normal d' => add_days n' d'
      | Raise _ => None
      end
  end.

(** The [n] consecutive dates from [d] on, as far as they exist. *)
Fixpoint days_from (n : nat) (d : date) : list date :=
  match n with
  | O => []
  | S n' =>
      d :: match add_one_day d with
           | Normal d' => days_from n' d'
           | Raise _ => []
           end
  end.

(** The proleptic Gregorian ordinal, [date.toordinal()]. *)
Definition days_before_year (y : Z) : Z :=
  (y - 1) * 365 + (y - 1) / 4 - (y - 1) / 100 + (y - 1) / 400.

Fixpoint days_before_month_nat (y : Z) (m : nat) : Z :=
  match m with
  | O => 0
  | S m' => days_before_month_nat y m' + days_in_month y (Z.of_nat m)
  end.

Definition days_before_month (y m : Z) : Z :=
  days_before_month_nat y (Z.to_nat (m - 1)).

Definition toordinal (d : date) : Z :=
  days_before_year (year d) + days_before_month (year d) (month d) + day d.

(** Decimal digits. *)
Definition digit (n : Z) : ascii := ascii_of_nat (48 + Z.to_nat (n mod 10)).

Definition pad2 (n : Z) : string :=
  String (digit (n / 10)) (String (digit n) EmptyString).

Definition pad4 (n : Z) : string :=
  String (digit (n / 1000)) (String (digit (n / 100)) (pad2 n)).

(** The year as [%Y] of the C library of Linux writes it: in decimal,
    without padding, so on fewer than four digits below the year 1000. *)
Definition year_digits (y : Z) : string :=
  if y <? 10 then String (digit y) EmptyString
  else if y <? 100 then pad2 y
  else if y <? 1000 then String (digit (y / 100)) (pad2 y)
  else pad4 y.

(** [strftime("%Y-%m-%d")]: the year as above, month and day on two
    digits, zero padded. *)
Definition strftime_Ymd (d : date) : string :=
  (year_digits (year d) ++ "-" ++ pad2 (month d) ++ "-" ++ pad2 (day d))%string.

(** [isoformat()], the ISO 8601 form YYYY-MM-DD: the year on four
    digits. *)
Definition isoformat (d : date) : string :=
  (pad4 (year d) ++ "-" ++ pad2 (month d) ++ "-" ++ pad2 (day d))%string.

End Date.

(** ** Floats from integers ([int / int]) *)

Module Float.

Local Open Scope Z_scope.

(** [2 ** k] as a rational. *)
Definition pow2 (k : Z) : Q :=
  if 0 <=? k then inject_Z (2 ^ k) else Qmake 1 (Z.to_pos (2 ^ (- k))).

(** The integer [k] with [2 ** k <= a / b < 2 ** (k + 1)], for positive
    [a] and [b]. *)
Definition ilog2 (a b : Z) : Z :=
  let k := Z.log2 a - Z.log2 b in
  if (if 0 <=? k then b * 2 ^ k <=? a else b <=? a * 2 ^ (- k))
  then k else k - 1.

(** [n / d] rounded to the nearest integer, a half to the even one, for
    [n >= 0] and [d > 0]. *)
Definition rne (n d : Z) : Z :=
  let q := n / d in
  let r := n mod d in
  if 2 * r <? d then q
  else if d <? 2 * r then q + 1
  else if Z.even q then q else q + 1.

(** The double nearest to [a / b] for positive [a] and [b]: 53 bits, or
    a multiple of [2 ** -1074] below the normal range; in lowest terms. *)
Definition round_pos (a b : Z) : Q :=
  let e := Z.max (ilog2 a b - 52) (- 1074) in
  let m := if 0 <=? e then rne a (b * 2 ^ e) else rne (a * 2 ^ (- e)) b in
  Qred (inject_Z m * pow2 e).

(** The float [a / b] of two integers, [b] not zero, when there is one:
    the quotient correctly rounded. *)
Definition div (a b : Z) : Q :=
  match (Z.sgn a * Z.sgn b)%Z with
  | Z0 => 0%Q
  | Zpos _ => round_pos (Z.abs a) (Z.abs b)
  | Zneg _ => Qopp (round_pos (Z.abs a) (Z.abs b))
  end.

(** There is none when the quotient rounds to a value beyond the largest
    double, [2 ** 1024 - 2 ** 971]: from half way to [2 ** 1024] on. *)
Definition overflows (a b : Z) : bool :=
  (2 ^ 1024 - 2 ^ 970) * Z.abs b <=? Z.abs a.

End Float.

(** ** The object, the outside world and the monad of methods *)

(** What [prioritize_task] sees of the classifier.  Inside the [try], the
    call [self.nlp_model(text)] followed by [result[0]["label"]] and
    [result[0]["score"]] either raises an [Exception] [e], of which only
    [str(e)] is used, or yields a label and a score: a string and a float,
    as the pipeline documents, or any two other values. *)
Inductive classification : Type :=
| Classified (label : string) (score : Q)
| ClassifierRaised (message : string)
| Answered (label score : value).

(** [self.study_preferences], a dictionary with four fixed keys. *)
Record preferences : Type := mkprefs {
  study_time : string;
  study_duration : Z;
  study_environment : string;
  study_methods : list string
}.

(** The attributes of a [StudBud] object.  [__init__] creates the first
    four.  [gather_student_info] creates [goals], [strengths],
    [weaknesses] and [study_preferences], and [analyze_student_data]
    creates [areas_to_focus]: before that they do not exist ([None]), and
    reading one raises [AttributeError]. *)
Record StudBud : Type := mkStudBud {
  student_name : string;
  study_plan : value;
  nlp_model : string -> classification;
  subjects : list string;
  goals : option string;
  strengths : option (Dict.dict string);
  weaknesses : option (Dict.dict string);
  study_preferences : option preferences;
  areas_to_focus : option (Dict.dict string)
}.

(** What the methods touch outside the object: standard output, the
    random generator behind [random.choice], the clock behind
    [datetime.date.today()] and the files. *)
Record World : Type := mkWorld {
  stdout : list string;
  rng : nat -> nat;
  rng_pos : nat;
  today : Date.date;
  files : Dict.dict string
}.

Record state : Type := mkstate { self : StudBud; world : World }.

Definition M (A : Type) : Type := state -> result A * state.

Definition ret {A} (a : A) : M A := fun st => (Normal a, st).

Definition raise {A} (e : exn) : M A := fun st => (Raise e, st).

Definition bind {A B} (m : M A) (k : A -> M B) : M B :=
  fun st =>
    match m st with
    | (Normal a, st') => k a st'
    | (Raise e, st') => (Raise e, st')
    end.

Declare Scope py_scope.
Delimit Scope py_scope with py.
Notation "x <- m ;; k" := (bind m (fun x => k))
  (at level 61, m at next level, right associativity) : py_scope.
Notation "m ;;; k" := (bind m (fun _ => k))
  (at level 61, right associativity) : py_scope.

Definition lift {A} (r : result A) : M A := fun st => (r, st).

Definition get_self : M StudBud := fun st => (Normal (self st), st).

(** [self.<name>] for an attribute that may not exist yet. *)
Definition attribute {A} (name : string) (field : StudBud -> option A) : M A :=
  fun st =>
    match field (self st) with
    | Some a => (Normal a, st)
    | None => (Raise (AttributeError name), st)
    end.

Definition set_study_plan (p : value) (s : StudBud) : StudBud :=
  mkStudBud (student_name s) p (nlp_model s) (subjects s) (goals s)
    (strengths s) (weaknesses s) (study_preferences s) (areas_to_focus s).

Definition set_areas_to_focus (a : Dict.dict string) (s : StudBud) : StudBud :=
  mkStudBud (student_name s) (study_plan s) (nlp_model s) (subjects s)
    (goals s) (strengths s) (weaknesses s) (study_preferences s) (Some a).

Definition set_stdout (o : list string) (w : World) : World :=
  mkWorld o (rng w) (rng_pos w) (today w) (files w).

Definition set_rng_pos (n : nat) (w : World) : World :=
  mkWorld (stdout w) (rng w) n (today w) (files w).

Definition set_files (f : Dict.dict string) (w : World) : World :=
  mkWorld (stdout w) (rng w) (rng_pos w) (today w) f.

Definition modify_self (f : StudBud -> StudBud) : M unit :=
  fun st => (Normal tt, mkstate (f (self st)) (world st)).

Definition modify_world (f : World -> World) : M unit :=
  fun st => (Normal tt, mkstate (self st) (f (world st))).

(** [print(line)] *)
Definition print (line : string) : M unit :=
  modify_world (fun w => set_stdout (stdout w ++ [line]) w).

(** [random.choice(seq)]: [IndexError] on an empty sequence, else the
    element at the next draw of the generator reduced below [len(seq)]. *)
Definition random_choice (seq : list string) : M string :=
  fun st =>
    match seq with
    | [] => (Raise IndexError, st)
    | x :: _ =>
        let w := world st in
        (Normal (List.nth (Nat.modulo (rng w (rng_pos w)) (List.length seq)) seq x),
         mkstate (self st) (set_rng_pos (S (rng_pos w)) w))
    end.

(** [d[k]] on a dictionary attribute. *)
Definition getitem (d : Dict.dict string) (k : string) : M string :=
  match Dict.get k d with
  | Some v => ret v
  | None => raise (KeyError k)
  end.

(** [needle in haystack] on strings. *)
Fixpoint str_in (needle haystack : string) : bool :=
  String.prefix needle haystack ||
  match haystack with
  | EmptyString => false
  | String _ rest => str_in needle rest
  end.

(** [max(a, b)]: [b] when [b > a], else [a]. *)
Definition py_max (a b : Q) : Q := if Qle_bool b a then a else b.

Definition half : Q := (1 # 2)%Q.
Definition threshold : Q := (7 # 10)%Q.

(** ** The [json] module: [json.dump(obj, f, indent=4)] and [json.load(f)] *)

Module Json.

Local Open Scope string_scope.

Definition dquote : ascii := "034"%char.
Definition backslash : ascii := "092"%char.
Definition newline : ascii := "010"%char.
Definition tab : ascii := "009"%char.
Definition creturn : ascii := "013"%char.
Definition backspace : ascii := "008"%char.
Definition formfeed : ascii := "012"%char.

Definition nl : string := String newline EmptyString.

(** *** Encoding *)

Definition hex_digit (n : nat) : ascii :=
  if Nat.ltb n 10 then ascii_of_nat (48 + n) else ascii_of_nat (87 + n).

(** [encode_basestring_ascii]: printable ASCII stays, the quote and the
    backslash get a backslash, five control characters have a short
    escape, every other character becomes [\u00xx]. *)
Definition escape_char (c : ascii) : string :=
  let n := nat_of_ascii c in
  if Ascii.eqb c dquote then String backslash (String dquote EmptyString)
  else if Ascii.eqb c backslash then String backslash (String backslash EmptyString)
  else if Ascii.eqb c newline then String backslash "n"
  else if Ascii.eqb c creturn then String backslash "r"
  else if Ascii.eqb c tab then String backslash "t"
  else if Ascii.eqb c backspace then String backslash "b"
  else if Ascii.eqb c formfeed then String backslash "f"
  else if Nat.leb 32 n && Nat.leb n 126 then String c EmptyString
  else String backslash
         (String "u" (String "0" (String "0"
            (String (hex_digit (Nat.div n 16))
               (String (hex_digit (Nat.modulo n 16)) EmptyString))))).

Fixpoint escape (s : string) : string :=
  match s with
  | EmptyString => EmptyString
  | String c s' => escape_char c ++ escape s'
  end.

Definition encode_string (s : string) : string :=
  String dquote (escape s ++ String dquote EmptyString).

(** [int.__repr__] *)
Definition int_repr (z : Z) : string :=
  DecimalString.NilZero.string_of_int (Z.to_int z).

Fixpoint spaces (n : nat) : string :=
  match n with
  | O => EmptyString
  | S n' => String " " (spaces n')
  end.

(** ['\n' + _indent * _current_indent_level], with [_indent = ' ' * 4] *)
Definition newline_indent (level : nat) : string :=
  String newline (spaces (4 * level)).

Section Encoder.

(** [float.__repr__], the shortest decimal that reads back as the same
    float; it is not modelled further. *)
Variable float_repr : Q -> string.

(** [_iterencode(o, _current_indent_level)], its chunks joined. *)
Fixpoint iterencode (level : nat) (o : value) : string :=
  match o with
  | VNone => "null"
  | VBool true => "true"
  | VBool false => "false"
  | VInt z => int_repr z
  | VFloat q => float_repr q
  | VStr s => encode_string s
  | VList [] => "[]"
  | VList (x :: xs) =>
      "[" ++ newline_indent (S level) ++ iterencode (S level) x ++
      (fix items (l : list value) : string :=
         match l with
         | [] => EmptyString
         | y :: l' =>
             "," ++ newline_indent (S level) ++ iterencode (S level) y ++
             items l'
         end) xs ++
      newline_indent level ++ "]"
  | VDict [] => "{}"
  | VDict ((k, x) :: kxs) =>
      "{" ++ newline_indent (S level) ++
      encode_string k ++ ": " ++ iterencode (S level) x ++
      (fix items (l : list (string * value)) : string :=
         match l with
         | [] => EmptyString
         | (k', y) :: l' =>
             "," ++ newline_indent (S level) ++
             encode_string k' ++ ": " ++ iterencode (S level) y ++
             items l'
         end) kxs ++
      newline_indent level ++ "}"
  end.

Definition dumps (o : value) : string := iterencode 0 o.

End Encoder.

(** *** Decoding *)

Definition is_ws (c : ascii) : bool :=
  Ascii.eqb c " " || Ascii.eqb c tab || Ascii.eqb c newline ||
  Ascii.eqb c creturn.

Fixpoint skip_ws (s : string) : string :=
  match s with
  | EmptyString => EmptyString
  | String c s' => if is_ws c then skip_ws s' else s
  end.

Definition is_digit (c : ascii) : bool :=
  Nat.leb 48 (nat_of_ascii c) && Nat.leb (nat_of_ascii c) 57.

Definition hex_value (c : ascii) : option nat :=
  let n := nat_of_ascii c in
  if Nat.leb 48 n && Nat.leb n 57 then Some (n - 48)
  else if Nat.leb 97 n && Nat.leb n 102 then Some (n - 87)
  else if Nat.leb 65 n && Nat.leb n 70 then Some (n - 55)
  else None.

(** The character behind a one-letter escape. *)
Definition unescape (c : ascii) : option ascii :=
  if Ascii.eqb c dquote then Some dquote
  else if Ascii.eqb c backslash then Some backslash
  else if Ascii.eqb c "/" then Some "/"%char
  else if Ascii.eqb c "b" then Some backspace
  else if Ascii.eqb c "f" then Some formfeed
  else if Ascii.eqb c "n" then Some newline
  else if Ascii.eqb c "r" then Some creturn
  else if Ascii.eqb c "t" then Some tab
  else None.

Definition cons_result (c : ascii) (r : option (string * string))
  : option (string * string) :=
  match r with
  | Some (s, rest) => Some (String c s, rest)
  | None => None
  end.

(** [scanstring(s, end)] in strict mode, from just after the opening
    quote: the decoded string and what follows the closing quote.  A
    [\uXXXX] escape of a code point above 255 has no counterpart in the
    strings of this model and is rejected. *)
Fixpoint scanstring (s : string) : option (string * string) :=
  match s with
  | EmptyString => None
  | String c s' =>
      if Ascii.eqb c dquote then Some (EmptyString, s')
      else if Ascii.eqb c backslash then
        match s' with
        | EmptyString => None
        | String e s'' =>
            if Ascii.eqb e "u" then
              match s'' with
              | String h1 (String h2 (String h3 (String h4 s3))) =>
                  match hex_value h1, hex_value h2, hex_value h3, hex_value h4 with
                  | Some a, Some b, Some c', Some d =>
                      if Nat.eqb a 0 && Nat.eqb b 0
                      then cons_result (ascii_of_nat (16 * c' + d)) (scanstring s3)
                      else None
                  | _, _, _, _ => None
                  end
              | _ => None
              end
            else
              match unescape e with
              | Some ch => cons_result ch (scanstring s'')
              | None => None
              end
        end
      else if Nat.ltb (nat_of_ascii c) 32 then None
      else cons_result c (scanstring s')
  end.

(** The number pattern of the scanner: an optional minus sign, then
    either a single zero or a non-zero digit followed by digits; then
    optionally a dot and at least one digit; then optionally [e] or [E],
    an optional sign and at least one digit. *)
Fixpoint span_digits (s : string) : string * string :=
  match s with
  | EmptyString => (EmptyString, EmptyString)
  | String c s' =>
      if is_digit c
      then let (ds, rest) := span_digits s' in (String c ds, rest)
      else (EmptyString, s)
  end.

Definition scan_natural (s : string) : option (string * string) :=
  match s with
  | EmptyString => None
  | String c s' =>
      if Ascii.eqb c "0" then Some ("0", s')
      else if is_digit c
      then let (ds, rest) := span_digits s' in Some (String c ds, rest)
      else None
  end.

Definition scan_integer (s : string) : option (string * string) :=
  match s with
  | EmptyString => None
  | String c s' =>
      if Ascii.eqb c "-"
      then match scan_natural s' with
           | Some (ds, rest) => Some (String c ds, rest)
           | None => None
           end
      else scan_natural s
  end.

Definition scan_frac (s : string) : string * string :=
  match s with
  | String c s' =>
      if Ascii.eqb c "."
      then match span_digits s' with
           | (EmptyString, _) => (EmptyString, s)
           | (ds, rest) => (String c ds, rest)
           end
      else (EmptyString, s)
  | EmptyString => (EmptyString, s)
  end.

Definition scan_exp (s : string) : string * string :=
  match s with
  | String c s' =>
      if Ascii.eqb c "e" || Ascii.eqb c "E"
      then
        match s' with
        | String sg s'' =>
            if Ascii.eqb sg "-" || Ascii.eqb sg "+"
            then match span_digits s'' with
                 | (EmptyString, _) => (EmptyString, s)
                 | (ds, rest) => (String c (String sg ds), rest)
                 end
            else match span_digits s' with
                 | (EmptyString, _) => (EmptyString, s)
                 | (ds, rest) => (String c ds, rest)
                 end
        | EmptyString => (EmptyString, s)
        end
      else (EmptyString, s)
  | EmptyString => (EmptyString, s)
  end.

(** [int(token)] on a token of the integer pattern. *)
Definition int_of_string (token : string) : Z :=
  match DecimalString.NilZero.int_of_string token with
  | Some d => Z.of_int d
  | None => 0%Z
  end.

(** [s[idx:idx + len(p)] == p], and what follows. *)
Fixpoint starts_with (p s : string) : option string :=
  match p, s with
  | EmptyString, _ => Some s
  | String c p', String c' s' =>
      if Ascii.eqb c c' then starts_with p' s' else None
  | String _ _, EmptyString => None
  end.

Section Decoder.

(** [float(token)] on a token of the number pattern. *)
Variable float_of_string : string -> Q.

Definition scan_number (s : string) : option (value * string) :=
  match scan_integer s with
  | None => None
  | Some (integer, s1) =>
      let (frac, s2) := scan_frac s1 in
      let (exp, s3) := scan_exp s2 in
      match frac, exp with
      | EmptyString, EmptyString => Some (VInt (int_of_string integer), s3)
      | _, _ => Some (VFloat (float_of_string (integer ++ frac ++ exp)), s3)
      end
  end.

(** [scan_once], [JSONArray] and [JSONObject].  [fuel] bounds the depth
    of the calls; a document never needs more than its length.  The
    literals [NaN], [Infinity] and [-Infinity] denote floats that are
    not rationals and are rejected. *)
Fixpoint scan_once (fuel : nat) (s : string) : option (value * string) :=
  match fuel with
  | O => None
  | S fuel' =>
      match s with
      | EmptyString => None
      | String c s' =>
          if Ascii.eqb c dquote then
            match scanstring s' with
            | Some (str, rest) => Some (VStr str, rest)
            | None => None
            end
          else if Ascii.eqb c "{" then
            match skip_ws s' with
            | String c1 s1 =>
                if Ascii.eqb c1 "}" then Some (VDict [], s1)
                else
                  match members fuel' (String c1 s1) with
                  | Some (pairs, rest) => Some (VDict (Dict.of_pairs pairs), rest)
                  | None => None
                  end
            | EmptyString => None
            end
          else if Ascii.eqb c "[" then
            match skip_ws s' with
            | String c1 s1 =>
                if Ascii.eqb c1 "]" then Some (VList [], s1)
                else
                  match elements fuel' (String c1 s1) with
                  | Some (vs, rest) => Some (VList vs, rest)
                  | None => None
                  end
            | EmptyString => None
            end
          else
            match starts_with "null" s, starts_with "true" s,
                  starts_with "false" s with
            | Some rest, _, _ => Some (VNone, rest)
            | _, Some rest, _ => Some (VBool true, rest)
            | _, _, Some rest => Some (VBool false, rest)
            | _, _, _ => scan_number s
            end
      end
  end

(** The items of a non-empty array, up to and including its [']']. *)
with elements (fuel : nat) (s : string) : option (list value * string) :=
  match fuel with
  | O => None
  | S fuel' =>
      match scan_once fuel' s with
      | None => None
      | Some (v, s1) =>
          match skip_ws s1 with
          | String c s2 =>
              if Ascii.eqb c "]" then Some ([v], s2)
              else if Ascii.eqb c "," then
                match elements fuel' (skip_ws s2) with
                | Some (vs, rest) => Some (v :: vs, rest)
                | None => None
                end
              else None
          | EmptyString => None
          end
      end
  end

(** The members of a non-empty object, up to and including its ['}']. *)
with members (fuel : nat) (s : string)
  : option (list (string * value) * string) :=
  match fuel with
  | O => None
  | S fuel' =>
      match s with
      | String q s0 =>
          if Ascii.eqb q dquote then
            match scanstring s0 with
            | None => None
            | Some (key, s1) =>
                match skip_ws s1 with
                | String c s2 =>
                    if Ascii.eqb c ":" then
                      match scan_once fuel' (skip_ws s2) with
                      | None => None
                      | Some (v, s3) =>
                          match skip_ws s3 with
                          | String c' s4 =>
                              if Ascii.eqb c' "}" then Some ([(key, v)], s4)
                              else if Ascii.eqb c' "," then
                                match members fuel' (skip_ws s4) with
                                | Some (kvs, rest) => Some ((key, v) :: kvs, rest)
                                | None => None
                                end
                              else None
                          | EmptyString => None
                          end
                      end
                    else None
                | EmptyString => None
                end
            end
          else None
      | EmptyString => None
      end
  end.

(** [json.loads(s)]: one value between optional white space, nothing
    after it. *)
Definition loads (s : string) : result value :=
  match scan_once (S (String.length s)) (skip_ws s) with
  | Some (v, rest) =>
      match skip_ws rest with
      | EmptyString => Normal v
      | String _ _ => Raise JSONDecodeError
      end
  | None => Raise JSONDecodeError
  end.

End Decoder.

(** *** Vocabulary of the round trip *)

(** What may follow a number in a document: nothing, or a character that
    cannot continue it. *)
Definition stops (rest : string) : bool :=
  match rest with
  | EmptyString => true
  | String c _ =>
      negb (is_digit c || Ascii.eqb c "." || Ascii.eqb c "e" || Ascii.eqb c "E")
  end.

(** The tokens [float.__repr__] has to produce: the whole token is a
    number of the pattern, with a fraction or an exponent. *)
Definition is_float_token (t : string) : bool :=
  match scan_integer t with
  | Some (_, r1) =>
      let (f, r2) := scan_frac r1 in
      let (e, r3) := scan_exp r2 in
      String.eqb r3 "" && negb (String.eqb f "" && String.eqb e "")
  | None => false
  end.

Definition is_integer_token (t : string) : bool :=
  match scan_integer t with
  | Some (_, r1) => String.eqb r1 ""
  | None => false
  end.

(** The items of a list after the first, as [iterencode] writes them. *)
Fixpoint items_text (float_repr : Q -> string) (level : nat) (l : list value)
  : string :=
  match l with
  | [] => EmptyString
  | y :: l' =>
      "," ++ newline_indent level ++ iterencode float_repr level y ++
      items_text float_repr level l'
  end.

Fixpoint members_text (float_repr : Q -> string) (level : nat)
    (l : list (string * value)) : string :=
  match l with
  | [] => EmptyString
  | (k, y) :: l' =>
      "," ++ newline_indent level ++ encode_string k ++ ": " ++
      iterencode float_repr level y ++ members_text float_repr level l'
  end.

(** Fuel that is enough to read a value back. *)
Fixpoint need (v : value) : nat :=
  match v with
  | VList l =>
      S ((fix items (l : list value) : nat :=
            match l with
            | [] => 0
            | x :: l' => S (need x + items l')
            end) l)
  | VDict d =>
      S ((fix items (l : list (string * value)) : nat :=
            match l with
            | [] => 0
            | (_, x) :: l' => S (need x + items l')
            end) d)
  | _ => 1
  end.

Definition items_need (l : list value) : nat :=
  fold_right (fun x n => S (need x + n)) 0 l.

Definition members_need (l : list (string * value)) : nat :=
  fold_right (fun kx n => S (need (snd kx) + n)) 0 l.

(** The values [json.dump] writes and [json.load] reads back: the keys of
    every dictionary are pairwise distinct (as in any Python dictionary)
    and every float has a token that reads back as itself. *)
Inductive storable (float_repr : Q -> string) (float_of_string : string -> Q)
  : value -> Prop :=
| storable_none : storable float_repr float_of_string VNone
| storable_bool b : storable float_repr float_of_string (VBool b)
| storable_int z : storable float_repr float_of_string (VInt z)
| storable_float q :
    is_float_token (float_repr q) = true ->
    float_of_string (float_repr q) = q ->
    storable float_repr float_of_string (VFloat q)
| storable_str s : storable float_repr float_of_string (VStr s)
| storable_list l :
    Forall (storable float_repr float_of_string) l ->
    storable float_repr float_of_string (VList l)
| storable_dict d :
    NoDup (Dict.keys d) ->
    Forall (fun kx => storable float_repr float_of_string (snd kx)) d ->
    storable float_repr float_of_string (VDict d).

(** How an encoded value starts: not with white space and not with a
    closing bracket. *)
Definition opens (s : string) : Prop :=
  exists c s', s = String c s' /\ is_ws c = false /\
               Ascii.eqb c "]" = false /\ Ascii.eqb c "}" = false.

(** [v], written at any nesting level and followed by anything that ends a
    number, reads back as [v]. *)
Definition reads_back (float_repr : Q -> string)
    (float_of_string : string -> Q) (v : value) : Prop :=
  forall level fuel rest,
    stops rest = true -> need v <= fuel ->
    scan_once float_of_string fuel (iterencode float_repr level v ++ rest) =
    Some (v, rest).

End Json.

(** ** The methods of [StudBud] *)

Local Open Scope string_scope.
Local Open Scope py_scope.

(** [self.study_plan[key] = v]: only a dictionary takes a string key. *)
Definition setitem_study_plan (key : string) (v : value) : M unit :=
  s <- get_self ;;
  match study_plan s with
  | VDict d => modify_self (set_study_plan (VDict (Dict.set key v d)))
  | _ => raise TypeError
  end.

(** [a / b] on integers: [ZeroDivisionError] for the divisor zero,
    [OverflowError] when the quotient is too large for a float, else the
    float nearest to the quotient. *)
Definition true_div (a b : Z) : M Q :=
  if Z.eqb b 0 then raise ZeroDivisionError
  else if Float.overflows a b then raise OverflowError
  else ret (Float.div a b).

(** [score > 0.7] for a score of any type: a number compares, anything
    else raises [TypeError]. *)
Definition above_threshold (score : value) : M bool :=
  match score with
  | VFloat q => ret (negb (Qle_bool q threshold))
  | VInt z => ret (Z.leb 1 z)
  | VBool b => ret b
  | _ => raise TypeError
  end.

(** [label == "NEGATIVE"] for a label of any type. *)
Definition is_NEGATIVE (label : value) : bool :=
  match label with
  | VStr s => String.eqb s "NEGATIVE"
  | _ => false
  end.

(** [try: body except <caught>: handler] *)
Definition try_except {A} (body : M A) (caught : exn -> bool) (handler : M A)
  : M A :=
  fun st =>
    match body st with
    | (Raise e, st') => if caught e then handler st' else (Raise e, st')
    | r => r
    end.

Definition is_FileNotFoundError (e : exn) : bool :=
  match e with
  | FileNotFoundError _ => true
  | _ => false
  end.

(** [analyze_student_data] *)
Fixpoint analyze_subjects (todo : list string) : M unit :=
  match todo with
  | [] => ret tt
  | subject :: rest =>
      weak <- attribute "weaknesses" weaknesses ;;
      w <- getitem weak subject ;;
      areas <- attribute "areas_to_focus" areas_to_focus ;;
      modify_self (set_areas_to_focus (Dict.set subject w areas)) ;;;
      analyze_subjects rest
  end.

Definition analyze_student_data : M unit :=
  print (Json.nl ++ "Analyzing your information..." ++ Json.nl) ;;;
  modify_self (set_areas_to_focus []) ;;;
  s <- get_self ;;
  analyze_subjects (subjects s).

(** [prioritize_task] *)
Definition prioritize_task (subject task_description : string) : M string :=
  s <- get_self ;;
  let by_weakness : M string :=
    weak <- attribute "weaknesses" weaknesses ;;
    w <- getitem weak subject ;;
    if str_in w task_description then ret "Medium" else ret "Low" in
  match nlp_model s task_description with
  | ClassifierRaised e =>
      print ("Error performing sentiment analysis: " ++ e ++
             ".  Defaulting to medium priority.") ;;;
      ret "Medium"
  | Classified sentiment score =>
      if String.eqb sentiment "NEGATIVE" && negb (Qle_bool score threshold)
      then ret "High"
      else by_weakness
  | Answered sentiment score =>
      if is_NEGATIVE sentiment
      then above <- above_threshold score ;;
           if above then ret "High" else by_weakness
      else by_weakness
  end.

(** [generate_daily_plan] *)
Definition task_of (focus method : string) : string :=
  "Review " ++ focus ++ " using " ++ method.

Definition study_block (subject : string) (time : Q) (task priority : string)
  : value :=
  VDict [("subject", VStr subject); ("time", VFloat time);
         ("task", VStr task); ("priority", VStr priority)].

Fixpoint build_blocks (time_per_subject : Q) (todo : list string)
    (study_blocks : list value) : M (list value) :=
  match todo with
  | [] => ret study_blocks
  | subject :: rest =>
      areas <- attribute "areas_to_focus" areas_to_focus ;;
      focus <- getitem areas subject ;;
      prefs <- attribute "study_preferences" study_preferences ;;
      method <- random_choice (study_methods prefs) ;;
      let task := task_of focus method in
      priority <- prioritize_task subject task ;;
      build_blocks time_per_subject rest
        (study_blocks ++ [study_block subject time_per_subject task priority])%list
  end.

Definition generate_daily_plan (d : Date.date) : M value :=
  prefs <- attribute "study_preferences" study_preferences ;;
  let available_time := study_duration prefs in
  s <- get_self ;;
  quotient <- true_div available_time (Z.of_nat (List.length (subjects s))) ;;
  let time_per_subject := py_max half quotient in
  study_blocks <- build_blocks time_per_subject (subjects s) [] ;;
  prefs' <- attribute "study_preferences" study_preferences ;;
  ret (VDict [("date", VStr (Date.strftime_Ymd d));
              ("study_blocks", VList study_blocks);
              ("environment", VStr (study_environment prefs'));
              ("preferred_time", VStr (study_time prefs'))]).

(** [generate_study_plan] *)
Fixpoint plan_days (n : nat) (current_date : Date.date) : M unit :=
  match n with
  | O => ret tt
  | S n' =>
      daily_plan <- generate_daily_plan current_date ;;
      setitem_study_plan (Date.strftime_Ymd current_date) daily_plan ;;;
      next <- lift (Date.add_one_day current_date) ;;
      plan_days n' next
  end.

Definition generate_study_plan (start_date : option Date.date) (num_days : Z)
  : M unit :=
  s <- get_self ;;
  match subjects s with
  | [] => print "No subjects defined. Please gather student info first."
  | _ :: _ =>
      start <- match start_date with
               | Some d => ret d
               | None => fun st => (Normal (today (world st)), st)
               end ;;
      plan_days (Z.to_nat num_days) start
  end.

(** [save_study_plan] and [load_study_plan] *)
Section Persistence.

Variable float_repr : Q -> string.
Variable float_of_string : string -> Q.

(** [open(filename, "r")] followed by [f.read()] *)
Definition read_file (filename : string) : M string :=
  fun st =>
    match Dict.get filename (files (world st)) with
    | Some text => (Normal text, st)
    | None => (Raise (FileNotFoundError filename), st)
    end.

(** [open(filename, "w")] followed by the writes of [json.dump] *)
Definition write_file (filename text : string) : M unit :=
  modify_world (fun w => set_files (Dict.set filename text (files w)) w).

Definition save_study_plan (filename : string) : M unit :=
  s <- get_self ;;
  write_file filename (Json.dumps float_repr (study_plan s)) ;;;
  print ("Study plan saved to " ++ filename).

Definition load_study_plan (filename : string) : M unit :=
  try_except
    (text <- read_file filename ;;
     plan <- lift (Json.loads float_of_string text) ;;
     modify_self (set_study_plan plan) ;;;
     print ("Study plan loaded from " ++ filename))
    is_FileNotFoundError
    (print ("File not found: " ++ filename)).

End Persistence.

(** [StudBud(student_name)]: [__init__] creates the name, an empty plan,
    the classifier that [pipeline] returned, and no subjects. *)
Definition init (name : string) (model : string -> classification) : StudBud :=
  mkStudBud name (VDict []) model [] None None None None None.

(** ** Vocabulary of the statements *)

(** [w] occurs in [t]: what [w in t] decides. *)
Definition substring_of (w t : string) : Prop := exists a b, t = a ++ w ++ b.

(** The state after [print(line)]. *)
Definition printed (line : string) (st : state) : state :=
  mkstate (self st) (set_stdout (stdout (world st) ++ [line])%list (world st)).

(** The test of the first rule: label [NEGATIVE] and [score > 0.7]. *)
Definition strongly_negative (label : string) (score : Q) : Prop :=
  label = "NEGATIVE" /\ (threshold < score)%Q.

(** The outcome of the weakness rule of [prioritize_task]. *)
Definition by_weakness_of (s : StudBud) (subject task : string) : result string :=
  match weaknesses s with
  | None => Raise (AttributeError "weaknesses")
  | Some weak =>
      match Dict.get subject weak with
      | Some w => Normal (if str_in w task then "Medium" else "Low")
      | None => Raise (KeyError subject)
      end
  end.

(** The value [prioritize_task] returns, as a function of the object. *)
Definition priority_of (s : StudBud) (subject task : string) : result string :=
  match nlp_model s task with
  | ClassifierRaised _ => Normal "Medium"
  | Classified label score =>
      if String.eqb label "NEGATIVE" && negb (Qle_bool score threshold)
      then Normal "High"
      else by_weakness_of s subject task
  | Answered label score =>
      if is_NEGATIVE label
      then match score with
           | VFloat q =>
               if Qle_bool q threshold then by_weakness_of s subject task
               else Normal "High"
           | VInt z =>
               if Z.leb 1 z then Normal "High" else by_weakness_of s subject task
           | VBool b =>
               if b then Normal "High" else by_weakness_of s subject task
           | _ => Raise TypeError
           end
      else by_weakness_of s subject task
  end.

(** [prioritize_task] raises on no task of [subject]. *)
Definition can_prioritize (s : StudBud) (subject : string) : Prop :=
  forall task, exists p, priority_of s subject task = Normal p.

(** [b] is a block [generate_daily_plan] may emit for [subject]. *)
Definition block_for (s : StudBud) (time : Q) (subject : string) (b : value)
  : Prop :=
  exists areas prefs focus method priority,
    areas_to_focus s = Some areas /\
    study_preferences s = Some prefs /\
    Dict.get subject areas = Some focus /\
    In method (study_methods prefs) /\
    priority_of s subject (task_of focus method) = Normal priority /\
    b = study_block subject time (task_of focus method) priority.

(** The float [study_duration / number of subjects]. *)
Definition quotient_of (prefs : preferences) (s : StudBud) : Q :=
  Float.div (study_duration prefs) (Z.of_nat (List.length (subjects s))).

(** The larger of one half and the quotient. *)
Definition time_per_subject_of (prefs : preferences) (s : StudBud) : Q :=
  if Qle_bool (quotient_of prefs s) half then half else quotient_of prefs s.

Definition daily_plan_of (prefs : preferences) (d : Date.date)
    (blocks : list value) : value :=
  VDict [("date", VStr (Date.strftime_Ymd d));
         ("study_blocks", VList blocks);
         ("environment", VStr (study_environment prefs));
         ("preferred_time", VStr (study_time prefs))].

(** What a method leaves alone when it only prints and draws random
    numbers. *)
Definition same_object (st st' : state) : Prop :=
  self st' = self st /\ files (world st') = files (world st).

(** [st'] holds the same object as [st] except for its study plan. *)
Definition same_profile (st st' : state) : Prop :=
  self st' = set_study_plan (study_plan (self st')) (self st).

(** The study duration divided by the number of subjects is a float. *)
Definition in_float_range (prefs : preferences) (s : StudBud) : Prop :=
  Float.overflows (study_duration prefs)
    (Z.of_nat (List.length (subjects s))) = false.

(** [score > 0.7] is defined: the score is a number. *)
Definition numeric (score : value) : bool :=
  match score with
  | VBool _ | VInt _ | VFloat _ => true
  | _ => false
  end.

(** Every score that [prioritize_task] compares with [0.7] is a number:
    the classifier keeps to its interface where it matters. *)
Definition comparable_scores (s : StudBud) : Prop :=
  forall task label score,
    nlp_model s task = Answered label score ->
    is_NEGATIVE label = true -> numeric score = true.

(** What plan generation relies on: the preferences, the focus areas and
    the weaknesses exist; there is some study method; a focus area and a
    weakness are recorded for every subject; the study duration divided by
    the number of subjects is not too large for a float; and the scores of
    the classifier can be compared. *)
Definition ready (s : StudBud) : Prop :=
  exists prefs areas weak,
    study_preferences s = Some prefs /\
    areas_to_focus s = Some areas /\
    weaknesses s = Some weak /\
    study_methods prefs <> [] /\
    in_float_range prefs s /\
    comparable_scores s /\
    forall subject, In subject (subjects s) ->
      In subject (Dict.keys areas) /\ In subject (Dict.keys weak).

(** The one float of a daily plan, the time per subject, is written as a
    token that reads back. *)
Definition time_storable (float_repr : Q -> string)
    (float_of_string : string -> Q) (s : StudBud) : Prop :=
  forall prefs,
    study_preferences s = Some prefs ->
    Json.storable float_repr float_of_string
      (VFloat (time_per_subject_of prefs s)).

Definition plan_get (k : string) (p : value) : option value :=
  match p with
  | VDict d => Dict.get k d
  | _ => None
  end.

Definition plan_keys (p : value) : list string :=
  match p with
  | VDict d => Dict.keys d
  | _ => []
  end.

(** [p] after the assignments [p[k] = v] of [entries], for a dictionary. *)
Definition plan_update (p : value) (entries : list (string * value)) : value :=
  match p with
  | VDict d => VDict (Dict.update d entries)
  | _ => p
  end.

(** The first date of the plan: the argument, or today. *)
Definition start_of (start_date : option Date.date) (st : state) : Date.date :=
  match start_date with
  | Some d => d
  | None => today (world st)
  end.

Definition block_time (b : value) : option Q :=
  match plan_get "time" b with
  | Some (VFloat q) => Some q
  | _ => None
  end.

Definition plan_blocks (plan : value) : list value :=
  match plan_get "study_blocks" plan with
  | Some (VList l) => l
  | _ => []
  end.

(** [sum(block["time"] for block in blocks)] *)
Definition total_time (blocks : list value) : Q :=
  fold_left (fun acc b => match block_time b with
                          | Some q => (acc + q)%Q
                          | None => acc
                          end) blocks 0%Q.

Definition block_priority (b : value) : option string :=
  match plan_get "priority" b with
  | Some (VStr p) => Some p
  | _ => None
  end.

Definition block_task (b : value) : option string :=
  match plan_get "task" b with
  | Some (VStr t) => Some t
  | _ => None
  end.

Definition block_subject (b : value) : option string :=
  match plan_get "subject" b with
  | Some (VStr t) => Some t
  | _ => None
  end.

Definition sentiment_error (message : string) : string :=
  "Error performing sentiment analysis: " ++ message ++
  ".  Defaulting to medium priority.".

Definition no_subjects_message : string :=
  "No subjects defined. Please gather student info first.".

Definition not_found_message (filename : string) : string :=
  "File not found: " ++ filename.

Definition saved_message (filename : string) : string :=
  "Study plan saved to " ++ filename.

Definition loaded_message (filename : string) : string :=
  "Study plan loaded from " ++ filename.

(** A sample object: the example profile of two subjects. *)
Module Sample.

Definition positive (text : string) : classification :=
  Classified "POSITIVE" (9 # 10)%Q.

Definition negative (text : string) : classification :=
  Classified "NEGATIVE" (85 # 100)%Q.

Definition broken (text : string) : classification :=
  ClassifierRaised "model unavailable".

(** A classifier that gives no score. *)
Definition untyped (text : string) : classification :=
  Answered (VStr "NEGATIVE") VNone.

Definition prefs : preferences := mkprefs "Morning" 1 "Library" ["Flashcards"].

Definition weak : Dict.dict string :=
  [("Math", "Calculus"); ("History", "Essays")].

Definition alice (model : string -> classification) : StudBud :=
  mkStudBud "Alice" (VDict []) model ["Math"; "History"]
    (Some "Get an A in Math")
    (Some [("Math", "Algebra"); ("History", "Dates")]) (Some weak)
    (Some prefs) (Some weak).

(** Three subjects in one hour a day. *)
Definition carol : StudBud :=
  mkStudBud "Carol" (VDict []) positive ["Math"; "History"; "Art"] (Some "")
    (Some []) (Some (weak ++ [("Art", "Perspective")])%list) (Some prefs)
    (Some (weak ++ [("Art", "Perspective")])%list).

(** Two subjects in three hours a day. *)
Definition dave : StudBud :=
  mkStudBud "Dave" (VDict []) positive ["Math"; "History"] (Some "")
    (Some []) (Some weak) (Some (mkprefs "Evening" 3 "Desk" ["Flashcards"]))
    (Some weak).

(** Three subjects in two hours a day. *)
Definition erin : StudBud :=
  mkStudBud "Erin" (VDict []) positive ["Math"; "History"; "Art"] (Some "")
    (Some []) (Some (weak ++ [("Art", "Perspective")])%list)
    (Some (mkprefs "Evening" 2 "Desk" ["Flashcards"]))
    (Some (weak ++ [("Art", "Perspective")])%list).

(** A study duration beyond the floats. *)
Definition frank : StudBud :=
  mkStudBud "Frank" (VDict []) positive ["Math"; "History"] (Some "")
    (Some []) (Some weak)
    (Some (mkprefs "Evening" (2 ^ 1025) "Desk" ["Flashcards"])) (Some weak).

(** A new object. *)
Definition nobody : StudBud := init "Student" positive.

Definition earth : World :=
  mkWorld [] (fun n => n) 0 (Date.mkdate 2024 1 1) [].

Definition st (model : string -> classification) : state :=
  mkstate (alice model) earth.

(** Stand-ins for [float.__repr__] and [float()].  The first writes a
    double in full, without exponent: "0.5", "1.0", "1.5", and all the
    digits where [float.__repr__] stops at the shortest that read back.
    The second reads a number token and rounds its value to the nearest
    double, as [float()] does where that is finite. *)
Fixpoint fixed (k : nat) (n : Z) (acc : string) : string :=
  match k with
  | O => acc
  | S k' => fixed k' (n / 10)%Z (String (Date.digit n) acc)
  end.

Definition float_repr (q : Q) : string :=
  let n := Z.abs (Qnum q) in
  let d := Z.pos (Qden q) in
  let k := Z.log2 d in
  (if Z.ltb (Qnum q) 0 then "-" else "") ++
  Json.int_repr (n / d)%Z ++ "." ++
  (if Z.eqb k 0 then "0" else fixed (Z.to_nat k) ((n mod d) * 5 ^ k)%Z "").

Definition exponent_of (e : string) : Z :=
  match e with
  | String _ (String "+" ds) => Json.int_of_string ds
  | String _ ds => Json.int_of_string ds
  | EmptyString => 0%Z
  end.

Definition float_of_string (t : string) : Q :=
  match Json.scan_integer t with
  | Some (i, r1) =>
      let (f, r2) := Json.scan_frac r1 in
      let (e, _) := Json.scan_exp r2 in
      let digits := match f with String _ ds => ds | EmptyString => "" end in
      let n := Json.int_of_string (i ++ digits) in
      let x := (exponent_of e - Z.of_nat (String.length digits))%Z in
      if Z.leb 0 x then Float.div (n * 10 ^ x) 1 else Float.div n (10 ^ (- x))
  | None => 0%Q
  end.

End Sample.

(** ** The other methods: reading the profile and showing the plan *)

(** *** Strings: [str.split] and [str.strip] *)

Module Str.

(** [s.split(sep)] for a separator of one character: the pieces between
    the separators, at least one piece. *)
Fixpoint split (sep : ascii) (s : string) : list string :=
  match s with
  | EmptyString => [EmptyString]
  | String c s' =>
      if Ascii.eqb c sep then EmptyString :: split sep s'
      else match split sep s' with
           | piece :: pieces => String c piece :: pieces
           | [] => [String c EmptyString]
           end
  end.

(** The white space [str.strip()] removes, among the code points below
    256: tab to carriage return, the four separators 28 to 31, the space,
    and the code points 133 and 160. *)
Definition is_space (c : ascii) : bool :=
  let n := nat_of_ascii c in
  (Nat.leb 9 n && Nat.leb n 13) || (Nat.leb 28 n && Nat.leb n 32) ||
  Nat.eqb n 133 || Nat.eqb n 160.

Fixpoint lstrip (s : string) : string :=
  match s with
  | EmptyString => EmptyString
  | String c s' => if is_space c then lstrip s' else s
  end.

Fixpoint rstrip (s : string) : string :=
  match s with
  | EmptyString => EmptyString
  | String c s' =>
      match rstrip s' with
      | EmptyString => if is_space c then EmptyString else String c EmptyString
      | r => String c r
      end
  end.

(** [s.strip()] *)
Definition strip (s : string) : string := lstrip (rstrip s).

End Str.

(** *** The process around the object *)

Inductive outcome (A : Type) : Type :=
| Returned (a : A)
| Raised (e : exn).

Arguments Returned {A} a.
Arguments Raised {A} e.

(** The state together with the lines still to be read from standard
    input. *)
Record process : Type := mkprocess { proc_state : state; stdin : list string }.

Definition P (A : Type) : Type := process -> outcome A * process.

Definition retP {A} (a : A) : P A := fun p => (Returned a, p).

Definition raiseP {A} (e : exn) : P A := fun p => (Raised e, p).

Definition bindP {A B} (m : P A) (k : A -> P B) : P B :=
  fun p =>
    match m p with
    | (Returned a, p') => k a p'
    | (Raised e, p') => (Raised e, p')
    end.

Declare Scope proc_scope.
Delimit Scope proc_scope with proc.
Notation "x <- m ;; k" := (bindP m (fun x => k))
  (at level 61, m at next level, right associativity) : proc_scope.
Notation "m ;;; k" := (bindP m (fun _ => k))
  (at level 61, right associativity) : proc_scope.

(** A method of the first kind, run inside the process. *)
Definition run {A} (m : M A) : P A :=
  fun p =>
    match m (proc_state p) with
    | (Normal a, st) => (Returned a, mkprocess st (stdin p))
    | (Raise e, st) => (Raised e, mkprocess st (stdin p))
    end.

(** [input(prompt)]: the prompt goes to standard output, then a line is
    read; [EOFError] when there is none. *)
Definition input (prompt : string) : P string :=
  fun p =>
    let st := printed prompt (proc_state p) in
    match stdin p with
    | [] => (Raised EOFError, mkprocess st [])
    | line :: rest => (Returned line, mkprocess st rest)
    end.

Definition set_subjects (l : list string) (s : StudBud) : StudBud :=
  mkStudBud (student_name s) (study_plan s) (nlp_model s) l (goals s)
    (strengths s) (weaknesses s) (study_preferences s) (areas_to_focus s).

Definition set_goals (g : string) (s : StudBud) : StudBud :=
  mkStudBud (student_name s) (study_plan s) (nlp_model s) (subjects s)
    (Some g) (strengths s) (weaknesses s) (study_preferences s)
    (areas_to_focus s).

Definition set_strengths (d : Dict.dict string) (s : StudBud) : StudBud :=
  mkStudBud (student_name s) (study_plan s) (nlp_model s) (subjects s)
    (goals s) (Some d) (weaknesses s) (study_preferences s) (areas_to_focus s).

Definition set_weaknesses (d : Dict.dict string) (s : StudBud) : StudBud :=
  mkStudBud (student_name s) (study_plan s) (nlp_model s) (subjects s)
    (goals s) (strengths s) (Some d) (study_preferences s) (areas_to_focus s).

Definition set_study_preferences (p : preferences) (s : StudBud) : StudBud :=
  mkStudBud (student_name s) (study_plan s) (nlp_model s) (subjects s)
    (goals s) (strengths s) (weaknesses s) (Some p) (areas_to_focus s).

Definition set_study_methods (l : list string) (p : preferences) : preferences :=
  mkprefs (study_time p) (study_duration p) (study_environment p) l.

(** *** [gather_student_info] *)

Definition hello_message (name : string) : string :=
  "Hello " ++ name ++ "!  Let's create your personalized study plan." ++ Json.nl.

Definition subjects_prompt : string :=
  "Enter the subjects you are studying (comma-separated): ".

Definition goals_prompt : string :=
  "What are your academic goals? (e.g., 'Get an A in Math', 'Improve my understanding of History'): ".

Definition strengths_prompt (subject : string) : string :=
  "What are your strengths in " ++ subject ++
  "? (e.g., 'Problem-solving', 'Memorization'): ".

Definition weaknesses_prompt (subject : string) : string :=
  "What are your weaknesses in " ++ subject ++
  "? (e.g., 'Calculus', 'Essay writing'): ".

Definition time_prompt : string :=
  "What time of day do you prefer to study? (e.g., 'Morning', 'Evening'): ".

Definition duration_prompt : string :=
  "How many hours do you want to study per day? (e.g., 2): ".

Definition environment_prompt : string :=
  "Where do you prefer to study? (e.g., 'Library', 'Quiet room'): ".

Definition methods_prompt : string :=
  "What study methods do you find effective? (e.g., 'Flashcards', 'Practice problems'): ".

Section Gathering.

(** [int(text)], [None] standing for [ValueError]; it is not modelled
    further. *)
Variable int_of_text : string -> option Z.

Definition modify_selfP (f : StudBud -> StudBud) : P unit := run (modify_self f).

Definition get_selfP : P StudBud := run get_self.

Fixpoint ask_subjects (todo : list string) : P unit :=
  (match todo with
   | [] => retP tt
   | subject :: rest =>
       strong <- input (strengths_prompt subject) ;;
       strong_points <- run (attribute "strengths" strengths) ;;
       modify_selfP (set_strengths (Dict.set subject strong strong_points)) ;;;
       weak <- input (weaknesses_prompt subject) ;;
       weak_points <- run (attribute "weaknesses" weaknesses) ;;
       modify_selfP (set_weaknesses (Dict.set subject weak weak_points)) ;;;
       ask_subjects rest
   end)%proc.

Definition gather_student_info : P unit :=
  (s <- get_selfP ;;
   run (print (hello_message (student_name s))) ;;;
   line <- input subjects_prompt ;;
   modify_selfP (set_subjects (Str.split "," line)) ;;;
   modify_selfP (fun s' => set_subjects (map Str.strip (subjects s')) s') ;;;
   goal <- input goals_prompt ;;
   modify_selfP (set_goals goal) ;;;
   modify_selfP (set_strengths []) ;;;
   modify_selfP (set_weaknesses []) ;;;
   s1 <- get_selfP ;;
   ask_subjects (subjects s1) ;;;
   time <- input time_prompt ;;
   hours <- input duration_prompt ;;
   duration <- match int_of_text hours with
               | Some z => retP z
               | None => raiseP ValueError
               end ;;
   environment <- input environment_prompt ;;
   methods <- input methods_prompt ;;
   modify_selfP (set_study_preferences
                   (mkprefs time duration environment (Str.split "," methods))) ;;;
   prefs <- run (attribute "study_preferences" study_preferences) ;;
   let stripped := map Str.strip (study_methods prefs) in
   prefs' <- run (attribute "study_preferences" study_preferences) ;;
   modify_selfP (set_study_preferences (set_study_methods stripped prefs')))%proc.

End Gathering.

(** *** [display_study_plan] and [get_resources] *)

(** [bool(v)] *)
Definition truthy (v : value) : bool :=
  match v with
  | VNone => false
  | VBool b => b
  | VInt z => negb (Z.eqb z 0)
  | VFloat q => negb (Z.eqb (Qnum q) 0)
  | VStr s => negb (String.eqb s EmptyString)
  | VList l => match l with [] => false | _ :: _ => true end
  | VDict d => match d with [] => false | _ :: _ => true end
  end.

(** [v[key]] for a string key: only a dictionary has one. *)
Definition subscript (v : value) (key : string) : P value :=
  match v with
  | VDict d =>
      match Dict.get key d with
      | Some x => retP x
      | None => raiseP (KeyError key)
      end
  | _ => raiseP TypeError
  end.

Fixpoint characters (s : string) : list value :=
  match s with
  | EmptyString => []
  | String c s' => VStr (String c EmptyString) :: characters s'
  end.

(** What [for x in v] goes through: the items of a list, the keys of a
    dictionary, the characters of a string. *)
Definition iterate (v : value) : P (list value) :=
  match v with
  | VList l => retP l
  | VDict d => retP (map (fun k => VStr k) (Dict.keys d))
  | VStr s => retP (characters s)
  | _ => raiseP TypeError
  end.

Definition no_plan_message : string :=
  "No study plan generated. Please generate a study plan first.".

Definition plan_title (name : string) : string :=
  Json.nl ++ name ++ "'s Personalized Study Plan:" ++ Json.nl.

Definition resources_message (subject topic : string) : string :=
  "Finding resources for " ++ subject ++ " - " ++ topic ++
  "... (Not Implemented)".

Section Displaying.

(** [float.__repr__], and [repr] of a list or a dictionary; they are not
    modelled further. *)
Variable float_repr : Q -> string.
Variable container_repr : value -> string.

(** [f"{v}"], that is [str(v)] *)
Definition format_value (v : value) : string :=
  match v with
  | VNone => "None"
  | VBool true => "True"
  | VBool false => "False"
  | VInt z => Json.int_repr z
  | VFloat q => float_repr q
  | VStr s => s
  | VList _ | VDict _ => container_repr v
  end.

Fixpoint display_blocks (blocks : list value) : P unit :=
  (match blocks with
   | [] => retP tt
   | block :: rest =>
       subject <- subscript block "subject" ;;
       run (print ("    Subject: " ++ format_value subject)) ;;;
       time <- subscript block "time" ;;
       run (print ("    Time: " ++ format_value time ++ " hours")) ;;;
       task <- subscript block "task" ;;
       run (print ("    Task: " ++ format_value task)) ;;;
       priority <- subscript block "priority" ;;
       run (print ("    Priority: " ++ format_value priority)) ;;;
       run (print "") ;;;
       display_blocks rest
   end)%proc.

Fixpoint display_days (items : list (string * value)) : P unit :=
  (match items with
   | [] => retP tt
   | (date, daily_plan) :: rest =>
       run (print ("--- " ++ date ++ " ---")) ;;;
       environment <- subscript daily_plan "environment" ;;
       run (print ("  Environment: " ++ format_value environment)) ;;;
       preferred <- subscript daily_plan "preferred_time" ;;
       run (print ("  Preferred Study Time: " ++ format_value preferred)) ;;;
       study_blocks <- subscript daily_plan "study_blocks" ;;
       blocks <- iterate study_blocks ;;
       display_blocks blocks ;;;
       display_days rest
   end)%proc.

Definition display_study_plan : P unit :=
  (s <- get_selfP ;;
   if negb (truthy (study_plan s))
   then run (print no_plan_message)
   else
     run (print (plan_title (student_name s))) ;;;
     match study_plan s with
     | VDict d => display_days d
     | _ => raiseP (AttributeError "items")
     end)%proc.

End Displaying.

(** [get_resources]: a message, and the empty list. *)
Definition get_resources (subject topic : string) : M (list string) :=
  (print (resources_message subject topic) ;;; ret [])%py.

(** ** Vocabulary of the further statements *)

(** The lines [prioritize_task] prints for the tasks of [blocks] on which
    the classifier raises. *)
Definition error_lines (s : StudBud) (blocks : list value) : list string :=
  flat_map (fun b =>
              match block_task b with
              | Some task =>
                  match nlp_model s task with
                  | ClassifierRaised m => [sentiment_error m]
                  | _ => []
                  end
              | None => []
              end) blocks.

Definition analyzing_message : string :=
  Json.nl ++ "Analyzing your information..." ++ Json.nl.

(** The assignments [areas_to_focus[subject] = weaknesses[subject]] for
    the subjects of [todo] that have a weakness. *)
Definition weak_pairs (weak : Dict.dict string) (todo : list string)
  : list (string * string) :=
  flat_map (fun subject =>
              match Dict.get subject weak with
              | Some w => [(subject, w)]
              | None => []
              end) todo.

(** The weaknesses recorded so far: none when the attribute does not
    exist. *)
Definition known_weaknesses (s : StudBud) : Dict.dict string :=
  match weaknesses s with
  | Some weak => weak
  | None => []
  end.

Definition focus_of (weak : Dict.dict string) (todo : list string)
  : Dict.dict string :=
  Dict.of_pairs (weak_pairs weak todo).

(** The state with another object. *)
Definition with_self (s : StudBud) (st : state) : state := mkstate s (world st).

Definition is_dict (v : value) : bool :=
  match v with
  | VDict _ => true
  | _ => false
  end.

Definition last_day : Date.date := Date.mkdate 9999 12 31.

(** The shape of the plans [generate_study_plan] builds: every entry
    carries its own key as date, and blocks of the four fields. *)
Definition priority_level (p : string) : Prop :=
  p = "High" \/ p = "Medium" \/ p = "Low".

Definition block_shaped (b : value) : Prop :=
  exists subject time task priority,
    b = study_block subject time task priority /\ priority_level priority.

Definition day_shaped (key : string) (v : value) : Prop :=
  exists blocks environment preferred,
    v = VDict [("date", VStr key); ("study_blocks", VList blocks);
               ("environment", VStr environment);
               ("preferred_time", VStr preferred)] /\
    Forall block_shaped blocks.

Definition plan_shaped (p : value) : Prop :=
  exists d, p = VDict d /\ Forall (fun kv => day_shaped (fst kv) (snd kv)) d.

(** The keys of [l] that are not among [old], in their order. *)
Definition new_keys (old l : list string) : list string :=
  filter (fun k => negb (existsb (String.eqb k) old)) l.

(** The elements of [l] without repetitions, each at its first
    occurrence: the order of the keys of a dictionary filled in the order
    of [l]. *)
Fixpoint first_occurrences (l : list string) : list string :=
  match l with
  | [] => []
  | k :: l' => k :: filter (fun x => negb (String.eqb x k)) (first_occurrences l')
  end.

(** The answers of the loop over the subjects: strengths and weaknesses
    alternate. *)
Fixpoint evens (l : list string) : list string :=
  match l with
  | x :: _ :: l' => x :: evens l'
  | _ => []
  end.

Fixpoint odds (l : list string) : list string :=
  match l with
  | _ :: y :: l' => y :: odds l'
  | _ => []
  end.

Definition subject_prompts (todo : list string) : list string :=
  flat_map (fun subject => [strengths_prompt subject; weaknesses_prompt subject])
    todo.

(** All that [gather_student_info] writes when it returns. *)
Definition gather_prompts (name : string) (todo : list string) : list string :=
  ([hello_message name; subjects_prompt; goals_prompt] ++
   subject_prompts todo ++
   [time_prompt; duration_prompt; environment_prompt; methods_prompt])%list.

(** The number of lines [gather_student_info] reads when the first is
    [line]. *)
Definition lines_needed (line : string) : nat :=
  6 + 2 * List.length (Str.split "," line).

(** What [gather_student_info] never touches: the name, the study plan,
    the classifier, the focus areas, the files and the random
    generator. *)
Definition beside_profile (st st' : state) : Prop :=
  student_name (self st') = student_name (self st) /\
  study_plan (self st') = study_plan (self st) /\
  nlp_model (self st') = nlp_model (self st) /\
  areas_to_focus (self st') = areas_to_focus (self st) /\
  files (world st') = files (world st) /\
  rng_pos (world st') = rng_pos (world st).

(** The process after more lines on standard output. *)
Definition add_lines (lines : list string) (p : process) : process :=
  mkprocess
    (mkstate (self (proc_state p))
       (set_stdout (stdout (world (proc_state p)) ++ lines)%list
          (world (proc_state p))))
    (stdin p).

(** The lines [display_study_plan] writes for a plan of the shape that
    [generate_study_plan] builds. *)
Section Rendering.

Variable float_repr : Q -> string.

Definition block_lines (b : value) : list string :=
  match block_subject b, block_time b, block_task b, block_priority b with
  | Some subject, Some time, Some task, Some priority =>
      ["    Subject: " ++ subject;
       "    Time: " ++ float_repr time ++ " hours";
       "    Task: " ++ task;
       "    Priority: " ++ priority;
       ""]
  | _, _, _, _ => []
  end.

Definition day_lines (key : string) (day : value) : list string :=
  match plan_get "environment" day, plan_get "preferred_time" day with
  | Some (VStr environment), Some (VStr preferred) =>
      ("--- " ++ key ++ " ---") ::
      ("  Environment: " ++ environment) ::
      ("  Preferred Study Time: " ++ preferred) ::
      flat_map block_lines (plan_blocks day)
  | _, _ => []
  end.

Definition plan_lines (name : string) (plan : value) : list string :=
  match plan with
  | VDict [] => [no_plan_message]
  | VDict d =>
      plan_title name :: flat_map (fun kv => day_lines (fst kv) (snd kv)) d
  | _ => []
  end.

End Rendering.

(** The number of blocks of a plan, all days together. *)
Definition count_blocks (plan : value) : nat :=
  match plan with
  | VDict d => list_sum (map (fun kv => List.length (plan_blocks (snd kv))) d)
  | _ => 0
  end.

(** The exceptions [display_study_plan] can raise, on a plan that is not
    of the shape it expects. *)
Definition display_error (e : exn) : Prop :=
  e = AttributeError "items" \/ e = TypeError \/ exists key, e = KeyError key.

(** [s.count(c)] for a character. *)
Fixpoint count_char (c : ascii) (s : string) : nat :=
  match s with
  | EmptyString => 0
  | String c' s' => (if Ascii.eqb c' c then 1 else 0) + count_char c s'
  end.

(** The characters of a file that any editor shows: printable ASCII and
    the line feed. *)
Definition plain (c : ascii) : bool :=
  let n := nat_of_ascii c in
  (Nat.leb 32 n && Nat.leb n 126) || Nat.eqb n 10.

Fixpoint all_plain (s : string) : bool :=
  match s with
  | EmptyString => true
  | String c s' => plain c && all_plain s'
  end.

(** A line of [prioritize_task] about a failure of the classifier. *)
Definition error_line_of (model : string -> classification) (line : string)
  : Prop :=
  exists task message,
    model task = ClassifierRaised message /\ line = sentiment_error message.

(** [score > 0.7], for a score of any type. *)
Definition score_above (score : value) : Prop :=
  match score with
  | VFloat q => (threshold < q)%Q
  | VInt z => (1 <= z)%Z
  | VBool b => b = true
  | _ => False
  end.

(** The classifier answered, and not with [NEGATIVE] and a score above
    [0.7]: [prioritize_task] goes on to the weakness of the subject. *)
Definition falls_through (c : classification) : Prop :=
  match c with
  | Classified label score => ~ strongly_negative label score
  | ClassifierRaised _ => False
  | Answered label score =>
      is_NEGATIVE label = false \/ (numeric score = true /\ ~ score_above score)
  end.

(** The classifier answers some task with [NEGATIVE] and a score that
    is not a number. *)
Definition incomparable_score (s : StudBud) : Prop :=
  exists task label score,
    nlp_model s task = Answered label score /\
    is_NEGATIVE label = true /\ numeric score = false.

(** Why the block of one of the subjects [todo] cannot be built: an
    attribute does not exist, there is no study method to choose from, a
    score cannot be compared, or a subject has no focus area or no
    weakness. *)
Definition block_failure (s : StudBud) (todo : list string) (e : exn) : Prop :=
  (e = AttributeError "areas_to_focus" /\ areas_to_focus s = None) \/
  (e = AttributeError "study_preferences" /\ study_preferences s = None) \/
  (e = AttributeError "weaknesses" /\ weaknesses s = None) \/
  (e = IndexError /\
   exists prefs, study_preferences s = Some prefs /\ study_methods prefs = []) \/
  (e = TypeError /\ incomparable_score s) \/
  (exists subject,
     e = KeyError subject /\ In subject todo /\
     ((exists areas,
         areas_to_focus s = Some areas /\ Dict.get subject areas = None) \/
      (exists weak,
         weaknesses s = Some weak /\ Dict.get subject weak = None))).

(** [study_duration / len(subjects)] is beyond the floats. *)
Definition quotient_overflows (s : StudBud) : Prop :=
  exists prefs,
    study_preferences s = Some prefs /\
    Float.overflows (study_duration prefs)
      (Z.of_nat (List.length (subjects s))) = true.

(** *** The example at the end of the file *)

Section Main.

Variable int_of_text : string -> option Z.
Variable float_repr : Q -> string.
Variable float_of_string : string -> Q.
Variable container_repr : value -> string.

(** The classifier that [pipeline("text-classification", ...)] returns. *)
Variable model : string -> classification.

(** [StudBud(student_name=name)]: a new object.  It takes the place of
    the previous one, which the example does not use again. *)
Definition construct (name : string) : P unit :=
  modify_selfP (fun _ => init name model).

Definition main : P unit :=
  (construct "Alice" ;;;
   gather_student_info int_of_text ;;;
   run analyze_student_data ;;;
   run (generate_study_plan None 5) ;;;
   display_study_plan float_repr container_repr ;;;
   run (save_study_plan float_repr "alice_study_plan.json") ;;;
   construct "Alice" ;;;
   run (load_study_plan float_of_string "alice_study_plan.json") ;;;
   display_study_plan float_repr container_repr)%proc.

End Main.

(** A sample session: the answers typed in, and stand-ins for [int()],
    exact on the numerals of the integer pattern of [json], and for
    [repr] of a list or a dictionary, which the session never needs. *)
Module Session.

Definition int_of_text (text : string) : option Z :=
  if Json.is_integer_token text then Some (Json.int_of_string text) else None.

Definition container_repr (v : value) : string := "".

Definition answers : list string :=
  ["Math, History"; "Get an A in Math"; "Algebra"; "Calculus"; "Dates";
   "Essays"; "Morning"; "1"; "Library"; "Flashcards"].

Definition start : process :=
  mkprocess (mkstate Sample.nobody Sample.earth) answers.

(** Three subjects in two hours a day: two thirds of an hour each. *)
Definition long_answers : list string :=
  ["Math, History, Art"; "Pass"; "Algebra"; "Calculus"; "Dates"; "Essays";
   "Colour"; "Perspective"; "Evening"; "2"; "Desk";
   "Flashcards, Practice problems"].

End Session.

(** * Properties *)

(** ** Dictionaries *)

Module DictFacts.

Import Dict.

Section WithValues.

Context {V : Type}.
Implicit Types (d : dict V) (k : string) (v : V).

Lemma get_set_eq k v d : get k (set k v d) = Some v.
Proof.
  induction d as [|[k' v'] d IH]; simpl.
  - now rewrite String.eqb_refl.
  - destruct (String.eqb k k') eqn:E; simpl; rewrite E; auto.
Qed.

Lemma get_set_ne k k' v d : k <> k' -> get k (set k' v d) = get k d.
Proof.
  intros Hne. induction d as [|[k0 v0] d IH]; simpl.
  - destruct (String.eqb_spec k k'); congruence.
  - destruct (String.eqb_spec k' k0) as [->|]; simpl.
    + destruct (String.eqb_spec k k0); congruence.
    + destruct (String.eqb_spec k k0); auto.
Qed.

Lemma get_None_keys k d : get k d = None <-> ~ In k (keys d).
Proof.
  induction d as [|[k' v'] d IH]; simpl.
  - tauto.
  - destruct (String.eqb_spec k k') as [->|Hne].
    + split; [discriminate | tauto].
    + rewrite IH. split; [intros H [E|I]; [congruence | tauto] | tauto].
Qed.

Lemma get_Some_keys k v d : get k d = Some v -> In k (keys d).
Proof.
  intros H. destruct (in_dec string_dec k (keys d)) as [I|N]; [assumption|].
  apply get_None_keys in N. congruence.
Qed.

Lemma set_fresh k v d : ~ In k (keys d) -> set k v d = (d ++ [(k, v)])%list.
Proof.
  induction d as [|[k' v'] d IH]; simpl; intros H; [reflexivity|].
  destruct (String.eqb_spec k k') as [->|Hne]; [tauto|].
  rewrite IH; tauto.
Qed.

Lemma keys_set k v d :
  keys (set k v d) = if in_dec string_dec k (keys d) then keys d
                     else (keys d ++ [k])%list.
Proof.
  induction d as [|[k' v'] d IH]; simpl; [reflexivity|].
  destruct (String.eqb_spec k k') as [->|Hne]; simpl.
  - destruct (string_dec k' k'); [reflexivity | congruence].
  - rewrite IH. destruct (string_dec k' k); [congruence|].
    destruct (in_dec string_dec k (keys d)); reflexivity.
Qed.

Lemma in_keys_set k k' v d :
  In k (keys (set k' v d)) <-> k = k' \/ In k (keys d).
Proof.
  rewrite keys_set. destruct (in_dec string_dec k' (keys d)) as [I|N].
  - split; [tauto | intros [->|H]; assumption].
  - rewrite in_app_iff. simpl. split; [intros [H|[H|[]]] | intros [H|H]]; auto.
Qed.

Lemma NoDup_keys_set k v d : NoDup (keys d) -> NoDup (keys (set k v d)).
Proof.
  intros H. rewrite keys_set.
  destruct (in_dec string_dec k (keys d)) as [I|N]; [assumption|].
  apply NoDup_app; [assumption | repeat constructor; simpl; tauto |].
  intros x Hx [<-|[]]. exact (N Hx).
Qed.

End WithValues.

End DictFacts.

(** ** Calendar dates *)

Module DateFacts.

Import Date.
Local Open Scope Z_scope.

Lemma month_cases m :
  1 <= m <= 12 ->
  m = 1 \/ m = 2 \/ m = 3 \/ m = 4 \/ m = 5 \/ m = 6 \/
  m = 7 \/ m = 8 \/ m = 9 \/ m = 10 \/ m = 11 \/ m = 12.
Proof. lia. Qed.


Lemma days_in_month_bounds y m : 28 <= days_in_month y m <= 31.
Proof.
  unfold days_in_month.
  destruct (m =? 2); [destruct (is_leap y); lia|].
  destruct ((m =? 4) || (m =? 6) || (m =? 9) || (m =? 11)); lia.
Qed.

Lemma add_one_day_valid d d' :
  valid d -> add_one_day d = Normal d' -> valid d'.
Proof.
  unfold valid, add_one_day, MINYEAR, MAXYEAR.
  destruct d as [y m dd]; simpl. intros (Hy & Hm & Hd).
  destruct (Z.ltb_spec dd (days_in_month y m)).
  - intros [= <-]; simpl. lia.
  - destruct (Z.ltb_spec m 12).
    + intros [= <-]; simpl. pose proof (days_in_month_bounds y (m + 1)). lia.
    + destruct (Z.ltb_spec y 9999); [|discriminate].
      intros [= <-]; simpl. pose proof (days_in_month_bounds (y + 1) 1). lia.
Qed.

Lemma days_before_year_succ y :
  days_before_year (y + 1) =
  days_before_year y + (if is_leap y then 366 else 365).
Proof.
  unfold days_before_year, is_leap.
  replace (y + 1 - 1) with y by lia.
  destruct (Z.eqb_spec (y mod 4) 0), (Z.eqb_spec (y mod 100) 0),
    (Z.eqb_spec (y mod 400) 0); simpl; Z.div_mod_to_equations; lia.
Qed.

Lemma days_before_month_succ y m :
  1 <= m ->
  days_before_month y (m + 1) = days_before_month y m + days_in_month y m.
Proof.
  intros Hm. unfold days_before_month.
  replace (Z.to_nat (m + 1 - 1)) with (S (Z.to_nat (m - 1))) by lia.
  cbn [days_before_month_nat]. do 2 f_equal. lia.
Qed.

Lemma days_before_month_december y :
  days_before_month y 12 = if is_leap y then 335 else 334.
Proof.
  unfold days_before_month.
  change (Z.to_nat (12 - 1)) with 11%nat.
  cbn [days_before_month_nat]. unfold days_in_month.
  destruct (is_leap y); reflexivity.
Qed.

Lemma toordinal_add_one_day d d' :
  valid d -> add_one_day d = Normal d' -> toordinal d' = toordinal d + 1.
Proof.
  unfold valid, add_one_day, toordinal.
  destruct d as [y m dd]; simpl. intros (Hy & Hm & Hd).
  destruct (Z.ltb_spec dd (days_in_month y m)).
  - intros [= <-]; simpl. lia.
  - destruct (Z.ltb_spec m 12).
    + intros [= <-]; simpl. assert (dd = days_in_month y m) as -> by lia.
      rewrite days_before_month_succ by lia. lia.
    + destruct (Z.ltb_spec y MAXYEAR); [|discriminate].
      intros [= <-]; simpl. assert (m = 12) as -> by lia.
      assert (dd = 31) as -> by (unfold days_in_month in *; simpl in *; lia).
      rewrite days_before_year_succ, days_before_month_december.
      change (days_before_month (y + 1) 1) with 0.
      destruct (is_leap y); lia.
Qed.

(** The only date without a next day is the last one, [date.max]. *)
Lemma add_one_day_overflow d :
  valid d -> (add_one_day d = Raise OverflowError <-> d = mkdate 9999 12 31).
Proof.
  unfold valid, add_one_day, MINYEAR, MAXYEAR.
  destruct d as [y m dd]; simpl. intros (Hy & Hm & Hd). split.
  - destruct (Z.ltb_spec dd (days_in_month y m)); [discriminate|].
    destruct (Z.ltb_spec m 12); [discriminate|].
    destruct (Z.ltb_spec y 9999); [discriminate|]. intros _.
    assert (y = 9999) as -> by lia. assert (m = 12) as -> by lia.
    change (days_in_month 9999 12) with 31 in *. f_equal. lia.
  - intros [= -> -> ->]. reflexivity.
Qed.

Lemma toordinal_max : toordinal (mkdate 9999 12 31) = 3652059.
Proof. reflexivity. Qed.

Lemma digit_inj a b : digit a = digit b -> a mod 10 = b mod 10.
Proof.
  unfold digit. intros H. apply (f_equal nat_of_ascii) in H.
  pose proof (Z.mod_pos_bound a 10 ltac:(lia)).
  pose proof (Z.mod_pos_bound b 10 ltac:(lia)).
  rewrite !nat_ascii_embedding in H by lia. lia.
Qed.

Lemma pad2_inj a b : 0 <= a < 100 -> 0 <= b < 100 -> pad2 a = pad2 b -> a = b.
Proof.
  unfold pad2. intros Ha Hb [= H1 H2].
  apply digit_inj in H1, H2. Z.div_mod_to_equations. lia.
Qed.

Lemma pad4_inj a b :
  0 <= a < 10000 -> 0 <= b < 10000 -> pad4 a = pad4 b -> a = b.
Proof.
  unfold pad4, pad2. intros Ha Hb [= H1 H2 H3 H4].
  apply digit_inj in H1, H2, H3, H4. Z.div_mod_to_equations. lia.
Qed.

Lemma digit_not_dash n : digit n <> "-"%char.
Proof.
  unfold digit. intros H. apply (f_equal nat_of_ascii) in H.
  pose proof (Z.mod_pos_bound n 10 ltac:(lia)).
  rewrite nat_ascii_embedding in H.
  - change (nat_of_ascii "-") with 45%nat in H. lia.
  - clear H. lia.
Qed.

(** The year has as many digits as it needs, and the dash that follows
    tells where it ends. *)
Lemma year_digits_inj y1 y2 r1 r2 :
  1 <= y1 <= 9999 -> 1 <= y2 <= 9999 ->
  (year_digits y1 ++ String "-" r1)%string = (year_digits y2 ++ String "-" r2)%string ->
  y1 = y2 /\ r1 = r2.
Proof.
  intros H1 H2. unfold year_digits, pad4, pad2.
  repeat match goal with
         | |- context [?a <? ?b] => destruct (Z.ltb_spec a b)
         end;
    cbn [append]; intros E; injection E; intros;
    try match goal with
        | H : digit _ = "-"%char |- _ => destruct (digit_not_dash _ H)
        | H : "-"%char = digit _ |- _ => symmetry in H; destruct (digit_not_dash _ H)
        end;
    (split; [|assumption]);
    repeat match goal with
           | H : digit _ = digit _ |- _ => apply digit_inj in H
           end;
    Z.div_mod_to_equations; lia.
Qed.

Lemma strftime_Ymd_inj d1 d2 :
  valid d1 -> valid d2 -> strftime_Ymd d1 = strftime_Ymd d2 -> d1 = d2.
Proof.
  unfold valid, MINYEAR, MAXYEAR.
  destruct d1 as [y1 m1 a1], d2 as [y2 m2 a2]; simpl.
  intros (Hy1 & Hm1 & Ha1) (Hy2 & Hm2 & Ha2).
  pose proof (days_in_month_bounds y1 m1). pose proof (days_in_month_bounds y2 m2).
  unfold strftime_Ymd; simpl. intros E.
  apply year_digits_inj in E as [-> E]; [|lia|lia].
  unfold pad2 in E. cbn [append] in E. injection E as M1 M2 D1 D2.
  assert (m1 = m2) by (apply pad2_inj; [lia | lia | unfold pad2; congruence]).
  assert (a1 = a2) by (apply pad2_inj; [lia | lia | unfold pad2; congruence]).
  congruence.
Qed.


Lemma add_days_valid n : forall d d',
  valid d -> add_days n d = Some d' -> valid d'.
Proof.
  induction n as [|n IH]; simpl; intros d d' Hv H.
  - congruence.
  - destruct (add_one_day d) as [d1|] eqn:E; [|discriminate].
    eauto using add_one_day_valid.
Qed.

Lemma toordinal_add_days n : forall d d',
  valid d -> add_days n d = Some d' -> toordinal d' = toordinal d + Z.of_nat n.
Proof.
  induction n as [|n IH]; intros d d' Hv H.
  - simpl in H. injection H as <-. lia.
  - cbn [add_days] in H. destruct (add_one_day d) as [d1|] eqn:E; [|discriminate].
    rewrite (IH d1 d') by eauto using add_one_day_valid.
    rewrite (toordinal_add_one_day Hv E). lia.
Qed.

(** Dates reached after different numbers of days have different keys. *)
Lemma strftime_add_days_ne i j d di dj :
  valid d -> add_days i d = Some di -> add_days j d = Some dj -> i <> j ->
  strftime_Ymd di <> strftime_Ymd dj.
Proof.
  intros Hv Hi Hj Hne Heq.
  apply strftime_Ymd_inj in Heq; eauto using add_days_valid.
  pose proof (toordinal_add_days _ Hv Hi). pose proof (toordinal_add_days _ Hv Hj).
  subst dj. lia.
Qed.

Lemma add_days_prefix n : forall d d' i,
  add_days n d = Some d' -> (i <= n)%nat -> exists di, add_days i d = Some di.
Proof.
  induction n as [|n IH]; intros d d' i H Hi.
  - assert (i = 0%nat) as -> by lia. eauto.
  - destruct i as [|i]; [simpl; eauto|].
    cbn [add_days] in *. destruct (add_one_day d) as [d1|]; [|discriminate].
    eapply IH; eauto. lia.
Qed.

End DateFacts.

(** ** Floats *)

Module FloatFacts.

Import Float.
Local Open Scope Z_scope.

Lemma round_pos_canonical a b : Qred (round_pos a b) = round_pos a b.
Proof. unfold round_pos. apply Qred_complete, Qred_correct. Qed.

(** A float is a rational in lowest terms. *)
Lemma div_canonical a b : Qred (div a b) = div a b.
Proof.
  unfold div. destruct (Z.sgn a * Z.sgn b).
  - reflexivity.
  - apply round_pos_canonical.
  - rewrite Qred_opp. now rewrite round_pos_canonical.
Qed.

Lemma rne_bounds n d : 0 <= n -> 0 < d -> n / d <= rne n d <= n / d + 1.
Proof.
  intros Hn Hd. unfold rne.
  destruct (2 * (n mod d) <? d); [lia|].
  destruct (d <? 2 * (n mod d)); [lia|].
  destruct (Z.even (n / d)); lia.
Qed.

Lemma pow2_split x y : 0 <= x -> 0 <= y -> 2 ^ (x + y) = 2 ^ x * 2 ^ y.
Proof. intros. now apply Z.pow_add_r. Qed.

Lemma pow2_positive x : 0 <= x -> 0 < 2 ^ x.
Proof. intros. now apply Z.pow_pos_nonneg. Qed.

(** [ilog2 a b] brackets the quotient: [2 ** k <= a / b < 2 ** (k + 1)],
    written without fractions. *)
Lemma ilog2_bracket a b :
  0 < a -> 0 < b ->
  b * 2 ^ Z.max 0 (ilog2 a b) <= a * 2 ^ Z.max 0 (- ilog2 a b) /\
  a * 2 ^ Z.max 0 (- ilog2 a b - 1) < b * 2 ^ Z.max 0 (ilog2 a b + 1).
Proof.
  intros Ha Hb.
  pose proof (Z.log2_spec a Ha) as [La Ua].
  pose proof (Z.log2_spec b Hb) as [Lb Ub].
  pose proof (Z.log2_nonneg a) as Na. pose proof (Z.log2_nonneg b) as Nb.
  unfold Z.succ in *.
  set (la := Z.log2 a) in *. set (lb := Z.log2 b) in *.
  assert (A : a * 2 ^ Z.max 0 (- (la - lb) - 1) < b * 2 ^ Z.max 0 (la - lb + 1)).
  { destruct (Z.le_gt_cases (-1) (la - lb)) as [H|H].
    - replace (Z.max 0 (- (la - lb) - 1)) with 0 by lia.
      replace (Z.max 0 (la - lb + 1)) with (la - lb + 1) by lia.
      replace (la + 1) with (lb + (la - lb + 1)) in Ua by lia.
      rewrite pow2_split in Ua by lia.
      pose proof (@pow2_positive (la - lb + 1) ltac:(lia)).
      pose proof (@pow2_positive lb Nb). change (2 ^ 0) with 1. nia.
    - replace (Z.max 0 (- (la - lb) - 1)) with (- (la - lb) - 1) by lia.
      replace (Z.max 0 (la - lb + 1)) with 0 by lia.
      replace lb with (la + 1 + (- (la - lb) - 1)) in Lb by lia.
      rewrite pow2_split in Lb by lia.
      pose proof (@pow2_positive (- (la - lb) - 1) ltac:(lia)).
      pose proof (@pow2_positive (la + 1) ltac:(lia)). change (2 ^ 0) with 1. nia. }
  assert (B : b * 2 ^ Z.max 0 (la - lb - 1) <= a * 2 ^ Z.max 0 (- (la - lb - 1))).
  { destruct (Z.le_gt_cases 1 (la - lb)) as [H|H].
    - replace (Z.max 0 (la - lb - 1)) with (la - lb - 1) by lia.
      replace (Z.max 0 (- (la - lb - 1))) with 0 by lia.
      replace la with (lb + 1 + (la - lb - 1)) in La by lia.
      rewrite pow2_split in La by lia.
      pose proof (@pow2_positive (la - lb - 1) ltac:(lia)).
      pose proof (@pow2_positive (lb + 1) ltac:(lia)). change (2 ^ 0) with 1. nia.
    - replace (Z.max 0 (la - lb - 1)) with 0 by lia.
      replace (Z.max 0 (- (la - lb - 1))) with (- (la - lb - 1)) by lia.
      replace (lb + 1) with (la + (- (la - lb - 1))) in Ub by lia.
      rewrite pow2_split in Ub by lia.
      pose proof (@pow2_positive (- (la - lb - 1)) ltac:(lia)).
      pose proof (@pow2_positive la Na). change (2 ^ 0) with 1. nia. }
  unfold ilog2. fold la lb.
  destruct (Z.leb_spec 0 (la - lb)) as [H|H].
  - destruct (Z.leb_spec (b * 2 ^ (la - lb)) a) as [T|T].
    + split; [|exact A].
      replace (Z.max 0 (la - lb)) with (la - lb) by lia.
      replace (Z.max 0 (- (la - lb))) with 0 by lia. change (2 ^ 0) with 1. lia.
    + split; [exact B|].
      replace (la - lb - 1 + 1) with (la - lb) by lia.
      replace (- (la - lb - 1) - 1) with (- (la - lb)) by lia.
      replace (Z.max 0 (la - lb)) with (la - lb) by lia.
      replace (Z.max 0 (- (la - lb))) with 0 by lia. change (2 ^ 0) with 1. lia.
  - destruct (Z.leb_spec b (a * 2 ^ (- (la - lb)))) as [T|T].
    + split; [|exact A].
      replace (Z.max 0 (la - lb)) with 0 by lia.
      replace (Z.max 0 (- (la - lb))) with (- (la - lb)) by lia.
      change (2 ^ 0) with 1. lia.
    + split; [exact B|].
      replace (la - lb - 1 + 1) with (la - lb) by lia.
      replace (- (la - lb - 1) - 1) with (- (la - lb)) by lia.
      replace (Z.max 0 (la - lb)) with 0 by lia.
      replace (Z.max 0 (- (la - lb))) with (- (la - lb)) by lia.
      change (2 ^ 0) with 1. lia.
Qed.

Lemma pow2_monotone x y : 0 <= x <= y -> 2 ^ x <= 2 ^ y.
Proof. intros. apply Z.pow_le_mono_r; lia. Qed.

Lemma scaled_half_le m x : 0 <= m -> 0 < x -> 2 * m <= x ->
  (Qred (inject_Z m * Qmake 1 (Z.to_pos x)) <= 1 # 2)%Q.
Proof.
  intros Hm Hx H. rewrite Qred_correct.
  unfold Qle, Qmult, inject_Z; cbn [Qnum Qden].
  rewrite Pos.mul_1_l, Z2Pos.id by lia. lia.
Qed.

Lemma scaled_half_ge m x : 0 < x -> x <= 2 * m ->
  (1 # 2 <= Qred (inject_Z m * Qmake 1 (Z.to_pos x)))%Q.
Proof.
  intros Hx H. rewrite Qred_correct.
  unfold Qle, Qmult, inject_Z; cbn [Qnum Qden].
  rewrite Pos.mul_1_l, Z2Pos.id by lia. lia.
Qed.

Lemma whole_half_ge m x : 0 < x -> 1 <= m ->
  (1 # 2 <= Qred (inject_Z m * inject_Z x))%Q.
Proof.
  intros Hx H. rewrite Qred_correct.
  unfold Qle, Qmult, inject_Z; cbn [Qnum Qden]. nia.
Qed.

Lemma round_pos_nonneg a b : 0 <= a -> 0 < b -> (0 <= round_pos a b)%Q.
Proof.
  intros Ha Hb. unfold round_pos. rewrite Qred_correct.
  set (e := Z.max (ilog2 a b - 52) (- 1074)).
  assert (Hm : 0 <= (if 0 <=? e then rne a (b * 2 ^ e) else rne (a * 2 ^ (- e)) b)).
  { destruct (Z.leb_spec 0 e) as [He|He].
    - pose proof (@pow2_positive e He).
      pose proof (@rne_bounds a (b * 2 ^ e) Ha ltac:(nia)).
      pose proof (Z.div_pos a (b * 2 ^ e) Ha ltac:(nia)). lia.
    - pose proof (@pow2_positive (- e) ltac:(lia)).
      pose proof (@rne_bounds (a * 2 ^ (- e)) b ltac:(nia) Hb).
      pose proof (Z.div_pos (a * 2 ^ (- e)) b ltac:(nia) Hb). lia. }
  apply Qmult_le_0_compat.
  - unfold Qle, inject_Z; cbn [Qnum Qden]. lia.
  - unfold pow2. destruct (0 <=? e) eqn:E.
    + apply Z.leb_le in E. pose proof (@pow2_positive e E).
      unfold Qle, inject_Z; cbn [Qnum Qden]. lia.
    + discriminate.
Qed.

(** A quotient below one half rounds to at most one half. *)
Lemma div_half_le a b : 0 < b -> 2 * a < b -> (div a b <= 1 # 2)%Q.
Proof.
  intros Hb H. destruct (Z.lt_trichotomy a 0) as [Ha|[Ha|Ha]].
  - unfold div. destruct a as [|p|p]; try lia. destruct b as [|q|q]; try lia.
    cbn [Z.sgn Z.mul Pos.mul Z.abs].
    apply Qle_trans with 0%Q; [|discriminate].
    apply (Qopp_le_compat 0). apply round_pos_nonneg; lia.
  - subst a. unfold div. cbn. discriminate.
  - unfold div. destruct a as [|p|p]; try lia. destruct b as [|q|q]; try lia.
    cbn [Z.sgn Z.mul Pos.mul Z.abs].
    destruct (@ilog2_bracket _ _ Ha Hb) as [L U].
    set (a := Z.pos p) in *. set (b := Z.pos q) in *.
    unfold round_pos. set (k := ilog2 a b) in *.
    assert (Hk : k <= -2).
    { destruct (Z.le_gt_cases k (-2)) as [|Hk]; [assumption|exfalso].
      destruct (Z.le_gt_cases 0 k) as [H0|H0].
      - replace (Z.max 0 k) with k in L by lia.
        replace (Z.max 0 (- k)) with 0 in L by lia. change (2 ^ 0) with 1 in L.
        pose proof (@pow2_positive k H0). nia.
      - assert (k = -1) by lia. replace k with (-1) in L. cbn in L. lia. }
    replace (Z.max 0 (- k - 1)) with (- k - 1) in U by lia.
    replace (Z.max 0 (k + 1)) with 0 in U by lia. change (2 ^ 0) with 1 in U.
    set (e := Z.max (k - 52) (- 1074)).
    assert (He : e <= -54) by lia.
    destruct (Z.leb_spec 0 e) as [|_]; [lia|].
    unfold pow2. destruct (Z.leb_spec 0 e) as [|_]; [lia|].
    pose proof (@pow2_positive (- e) ltac:(lia)) as Hp.
    assert (Hn : a * 2 ^ (- e) < b * 2 ^ 53).
    { assert (2 ^ (- e) <= 2 ^ (52 - k)) by (apply pow2_monotone; lia).
      replace (52 - k) with (- k - 1 + 53) in * by lia.
      rewrite pow2_split in * by lia.
      pose proof (@pow2_positive (- k - 1) ltac:(lia)).
      set (u := 2 ^ (- k - 1)) in *. set (v := 2 ^ 53) in *. 
      assert (0 < v) by (subst v; reflexivity). nia. }
    pose proof (@rne_bounds (a * 2 ^ (- e)) b ltac:(nia) Hb) as [Hl Hu].
    pose proof (Z.div_pos (a * 2 ^ (- e)) b ltac:(nia) Hb).
    pose proof (Z.div_lt_upper_bound (a * 2 ^ (- e)) b (2 ^ 53) Hb Hn).
    assert (2 ^ 54 <= 2 ^ (- e)) by (apply pow2_monotone; lia).
    apply scaled_half_le; lia.
Qed.

(** A quotient of at least one half rounds to at least one half. *)
Lemma div_half_ge a b : 0 < b -> b <= 2 * a -> (1 # 2 <= div a b)%Q.
Proof.
  intros Hb H. assert (Ha : 0 < a) by lia.
  unfold div. destruct a as [|p|p]; try lia. destruct b as [|q|q]; try lia.
  cbn [Z.sgn Z.mul Pos.mul Z.abs].
  destruct (@ilog2_bracket _ _ Ha Hb) as [L U].
  set (a := Z.pos p) in *. set (b := Z.pos q) in *.
  unfold round_pos. set (k := ilog2 a b) in *.
  assert (Hk : -1 <= k).
  { destruct (Z.le_gt_cases (-1) k) as [|Hk]; [assumption|exfalso].
    replace (Z.max 0 (- k - 1)) with (- k - 1) in U by lia.
    replace (Z.max 0 (k + 1)) with 0 in U by lia. change (2 ^ 0) with 1 in U.
    assert (2 ^ 1 <= 2 ^ (- k - 1)) by (apply pow2_monotone; lia).
    change (2 ^ 1) with 2 in *. nia. }
  replace (Z.max (k - 52) (- 1074)) with (k - 52) by lia.
  set (e := k - 52).
  unfold pow2. destruct (Z.leb_spec 0 e) as [He|He].
  - replace (Z.max 0 k) with k in L by lia.
    replace (Z.max 0 (- k)) with 0 in L by lia. change (2 ^ 0) with 1 in L.
    pose proof (@pow2_positive e He) as Hp.
    replace k with (e + 52) in L by (unfold e; lia).
    rewrite pow2_split in L by lia.
    assert (Hq : 2 ^ 52 <= a / (b * 2 ^ e)).
    { apply Z.div_le_lower_bound; [nia|]. lia. }
    pose proof (@rne_bounds a (b * 2 ^ e) ltac:(lia) ltac:(nia)) as [Hl _].
    assert (0 < 2 ^ 52) by reflexivity.
    apply whole_half_ge; lia.
  - pose proof (@pow2_positive (- e) ltac:(lia)) as Hp.
    assert (Hn : b * 2 ^ 52 <= a * 2 ^ (- e)).
    { destruct (Z.le_gt_cases 0 k) as [H0|H0].
      - replace (Z.max 0 k) with k in L by lia.
        replace (Z.max 0 (- k)) with 0 in L by lia. change (2 ^ 0) with 1 in L.
        replace 52 with (k + - e) at 1 by (unfold e; lia).
        rewrite pow2_split by lia. pose proof (@pow2_positive k H0). nia.
      - assert (Hk1 : k = -1) by lia.
        replace (- e) with 53 by (unfold e; lia).
        replace k with (-1) in L. cbn in L.
        change (2 ^ 53) with (2 * 2 ^ 52).
        assert (0 < 2 ^ 52) by reflexivity. nia. }
    assert (Hq : 2 ^ 52 <= a * 2 ^ (- e) / b).
    { apply Z.div_le_lower_bound; [lia|]. lia. }
    pose proof (@rne_bounds (a * 2 ^ (- e)) b ltac:(nia) Hb) as [Hl _].
    assert (2 ^ (- e) <= 2 ^ 53) by (apply pow2_monotone; unfold e; lia).
    apply scaled_half_ge; lia.
Qed.

End FloatFacts.

Module DictUpdateFacts.
Import Dict DictFacts.
Section WithValues.
Context {V : Type}.
Implicit Types (d : dict V) (k : string) (v : V).

Lemma update_app d l1 l2 : update d (l1 ++ l2)%list = update (update d l1) l2.
Proof. unfold update. apply fold_left_app. Qed.

Lemma update_cons d k v l : update d ((k, v) :: l) = update (set k v d) l.
Proof. reflexivity. Qed.

Lemma get_update_other k l : forall d,
  ~ In k (keys l) -> get k (update d l) = get k d.
Proof.
  induction l as [|[k' v'] l IH]; intros d H; [reflexivity|].
  rewrite update_cons, IH by (simpl in H; tauto).
  apply get_set_ne. simpl in H. intros ->. tauto.
Qed.

Lemma in_keys_update k l : forall d,
  In k (keys (update d l)) <-> In k (keys d) \/ In k (keys l).
Proof.
  induction l as [|[k' v'] l IH]; intros d.
  - simpl. tauto.
  - rewrite update_cons, IH, in_keys_set. simpl.
    split; [intros [[->|H]|H] | intros [H|[->|H]]]; auto.
Qed.

Lemma NoDup_keys_update l : forall d,
  NoDup (keys d) -> NoDup (keys (update d l)).
Proof.
  induction l as [|[k' v'] l IH]; intros d H; [assumption|].
  rewrite update_cons. apply IH. now apply NoDup_keys_set.
Qed.

(** Assigning pairwise distinct new keys appends them in order. *)
Lemma update_fresh l : forall d,
  NoDup (keys l) -> (forall k, In k (keys l) -> ~ In k (keys d)) ->
  update d l = (d ++ l)%list.
Proof.
  induction l as [|[k v] l IH]; intros d Hnd Hf.
  - now rewrite app_nil_r.
  - rewrite update_cons. simpl in Hnd. inversion Hnd as [|? ? Hk Hnd']; subst.
    rewrite IH; trivial.
    + rewrite set_fresh by (apply Hf; now left).
      now rewrite <- app_assoc.
    + intros k' Hk' Hin. apply in_keys_set in Hin as [->|Hin]; [tauto|].
      apply (Hf k'); [now right | assumption].
Qed.

Lemma of_pairs_NoDup (l : dict V) : NoDup (keys l) -> of_pairs l = l.
Proof.
  intros H. unfold of_pairs. rewrite update_fresh; auto.
Qed.
End WithValues.
End DictUpdateFacts.

Import DictFacts DictUpdateFacts.

(** ** Prioritisation and daily plans *)

Lemma prefix_app p s : String.prefix p (p ++ s) = true.
Proof.
  induction p as [|c p IH]; simpl.
  - now destruct s.
  - destruct (ascii_dec c c); [assumption | congruence].
Qed.

Lemma prefix_inv p s : String.prefix p s = true -> exists b, s = p ++ b.
Proof.
  revert s. induction p as [|c p IH]; intros s.
  - exists s. reflexivity.
  - destruct s as [|c' s]; simpl; [discriminate|].
    destruct (ascii_dec c c') as [<-|]; [|discriminate].
    intros H. destruct (IH _ H) as [b ->]. now exists b.
Qed.

Lemma str_in_spec w t : str_in w t = true <-> substring_of w t.
Proof.
  unfold substring_of. split.
  - induction t as [|c t IH]; cbn [str_in].
    + rewrite orb_false_r. intros H. apply prefix_inv in H as [b ->].
      exists "", b. reflexivity.
    + intros H. apply orb_true_iff in H as [H|H].
      * apply prefix_inv in H as [b ->]. exists "", b. reflexivity.
      * destruct (IH H) as (a & b & ->). exists (String c a), b. reflexivity.
  - intros (a & b & ->). induction a as [|c a IH].
    + pose proof (prefix_app w b) as P. simpl.
      destruct (w ++ b); cbn [str_in]; rewrite P; reflexivity.
    + cbn [append str_in]. rewrite IH. apply orb_true_r.
Qed.

Lemma strong_reflect label score :
  String.eqb label "NEGATIVE" && negb (Qle_bool score threshold) = true
  <-> strongly_negative label score.
Proof.
  unfold strongly_negative. rewrite andb_true_iff, String.eqb_eq, negb_true_iff.
  split; intros [H1 H2]; split; auto.
  - apply Qnot_le_lt. intros L. apply Qle_bool_iff in L. congruence.
  - destruct (Qle_bool score threshold) eqn:E; [|reflexivity].
    apply Qle_bool_iff in E. apply Qle_not_lt in E. contradiction.
Qed.

Lemma attribute_run {A} name (field : StudBud -> option A) st :
  attribute name field st =
  (match field (self st) with
   | Some a => Normal a
   | None => Raise (AttributeError name)
   end, st).
Proof. unfold attribute. now destruct (field (self st)). Qed.

(** The weakness rule reads the object and changes nothing. *)
Lemma by_weakness_run subject task st :
  (weak <- attribute "weaknesses" weaknesses ;;
   w <- getitem weak subject ;;
   if str_in w task then ret "Medium" else ret "Low") st =
  (by_weakness_of (self st) subject task, st).
Proof.
  unfold by_weakness_of, bind, attribute, getitem.
  destruct (weaknesses (self st)) as [weak|]; [|reflexivity].
  destruct (Dict.get subject weak) as [w|]; [|reflexivity].
  cbn. destruct (str_in w task); reflexivity.
Qed.

(** [prioritize_task], case by case: it prints when the classifier raises
    and does nothing else to the state. *)
Lemma prioritize_task_eq subject task st :
  prioritize_task subject task st =
  match nlp_model (self st) task with
  | ClassifierRaised e => (Normal "Medium", printed (sentiment_error e) st)
  | _ => (priority_of (self st) subject task, st)
  end.
Proof.
  unfold prioritize_task. unfold bind at 1, get_self. cbv beta iota zeta.
  unfold priority_of.
  destruct (nlp_model (self st) task) as [label score|msg|label score].
  - destruct (_ && _); [reflexivity | apply by_weakness_run].
  - reflexivity.
  - destruct (is_NEGATIVE label); [|apply by_weakness_run].
    unfold bind at 1, above_threshold.
    destruct score as [|b|z|q|s|l|d]; try reflexivity; cbn [ret].
    + destruct b; [reflexivity | apply by_weakness_run].
    + destruct (Z.leb 1 z); [reflexivity | apply by_weakness_run].
    + destruct (Qle_bool q threshold); [apply by_weakness_run | reflexivity].
Qed.

Lemma prioritize_task_run subject task st :
  exists st',
    prioritize_task subject task st = (priority_of (self st) subject task, st') /\
    self st' = self st /\ rng_pos (world st') = rng_pos (world st) /\
    files (world st') = files (world st).
Proof.
  rewrite prioritize_task_eq. unfold priority_of.
  destruct (nlp_model (self st) task); eexists; (split; [reflexivity|auto]).
Qed.

Lemma same_object_refl st : same_object st st.
Proof. split; reflexivity. Qed.

Lemma same_object_trans st1 st2 st3 :
  same_object st1 st2 -> same_object st2 st3 -> same_object st1 st3.
Proof. unfold same_object. intros [-> ->] [-> ->]. auto. Qed.

Lemma random_choice_inv seq st m st' :
  random_choice seq st = (Normal m, st') -> In m seq /\ same_object st st'.
Proof.
  unfold random_choice. destruct seq as [|x l]; [discriminate|].
  intros H. injection H as Hm Hst. subst m st'. split; [|split; reflexivity].
  apply (@nth_In _ (Nat.modulo (rng (world st) (rng_pos (world st)))
                      (List.length (x :: l))) (x :: l) x).
  apply Nat.mod_upper_bound. discriminate.
Qed.

Lemma random_choice_total seq st :
  seq <> [] -> exists m st', random_choice seq st = (Normal m, st').
Proof.
  unfold random_choice. destruct seq; [congruence|]. eauto.
Qed.

Lemma prioritize_task_same subject task st r st' :
  prioritize_task subject task st = (r, st') ->
  r = priority_of (self st) subject task /\ same_object st st'.
Proof.
  destruct (prioritize_task_run subject task st) as (st1 & E & Hs & _ & Hf).
  rewrite E. intros [= <- <-]. split; [reflexivity | split; assumption].
Qed.

(** One turn of the loop over the subjects. *)
Lemma build_blocks_step t subject rest acc st :
  build_blocks t (subject :: rest) acc st =
  match areas_to_focus (self st) with
  | None => (Raise (AttributeError "areas_to_focus"), st)
  | Some areas =>
      match Dict.get subject areas with
      | None => (Raise (KeyError subject), st)
      | Some focus =>
          match study_preferences (self st) with
          | None => (Raise (AttributeError "study_preferences"), st)
          | Some prefs =>
              match random_choice (study_methods prefs) st with
              | (Raise e, st1) => (Raise e, st1)
              | (Normal method, st1) =>
                  match prioritize_task subject (task_of focus method) st1 with
                  | (Raise e, st2) => (Raise e, st2)
                  | (Normal priority, st2) =>
                      build_blocks t rest
                        (acc ++ [study_block subject t (task_of focus method)
                                   priority])%list st2
                  end
              end
          end
      end
  end.
Proof.
  cbn [build_blocks]. unfold bind at 1. rewrite attribute_run.
  destruct (areas_to_focus (self st)) as [areas|]; [|reflexivity].
  unfold bind at 1, getitem.
  destruct (Dict.get subject areas) as [focus|]; [|reflexivity].
  cbn [ret]. unfold bind at 1. rewrite attribute_run.
  destruct (study_preferences (self st)) as [prefs|]; [|reflexivity].
  unfold bind at 1.
  destruct (random_choice (study_methods prefs) st) as [[method|e] st1];
    [|reflexivity].
  unfold bind at 1. reflexivity.
Qed.

Lemma build_blocks_inv t todo : forall acc st blocks st',
  build_blocks t todo acc st = (Normal blocks, st') ->
  same_object st st' /\
  exists new, blocks = (acc ++ new)%list /\
              Forall2 (block_for (self st) t) todo new.
Proof.
  induction todo as [|subject rest IH]; intros acc st blocks st'.
  - intros [= <- <-]. split; [apply same_object_refl|].
    exists []. rewrite app_nil_r. auto.
  - rewrite build_blocks_step.
    destruct (areas_to_focus (self st)) as [areas|] eqn:Ea; [|discriminate].
    destruct (Dict.get subject areas) as [focus|] eqn:Ef; [|discriminate].
    destruct (study_preferences (self st)) as [prefs|] eqn:Epr; [|discriminate].
    destruct (random_choice _ st) as [[method|e] st1] eqn:Er; [|discriminate].
    apply random_choice_inv in Er as [Hin S1].
    destruct (prioritize_task _ _ st1) as [[priority|e] st2] eqn:Ep;
      [|discriminate].
    apply prioritize_task_same in Ep as [Hp S2].
    intros H. apply IH in H as [S3 (new & -> & F)].
    assert (S12 : same_object st st2) by eauto using same_object_trans.
    split; [eauto using same_object_trans|].
    exists (study_block subject t (task_of focus method) priority :: new).
    rewrite <- app_assoc. split; [reflexivity|].
    destruct S12 as [E2 _], S1 as [E1 _]. rewrite E2 in F. rewrite E1 in Hp.
    constructor; [|assumption].
    exists areas, prefs, focus, method, priority. auto 6.
Qed.

Lemma by_weakness_of_total s weak subject task :
  weaknesses s = Some weak -> In subject (Dict.keys weak) ->
  exists p, by_weakness_of s subject task = Normal p.
Proof.
  intros Hw Hk. unfold by_weakness_of. rewrite Hw.
  destruct (Dict.get subject weak) eqn:E; [eauto|].
  apply DictFacts.get_None_keys in E. contradiction.
Qed.

Lemma priority_of_total s weak subject task :
  weaknesses s = Some weak -> In subject (Dict.keys weak) ->
  comparable_scores s ->
  exists p, priority_of s subject task = Normal p.
Proof.
  intros Hw Hk Hc. pose proof (by_weakness_of_total s subject task Hw Hk) as B.
  unfold priority_of.
  destruct (nlp_model s task) as [label score|msg|label score] eqn:E; [|eauto|].
  - destruct (_ && _); eauto.
  - destruct (is_NEGATIVE label) eqn:El; [|assumption].
    specialize (Hc _ _ _ E El).
    destruct score as [|b|z|q|x|l|d]; try discriminate.
    + destruct b; eauto.
    + destruct (Z.leb 1 z); eauto.
    + destruct (Qle_bool q threshold); eauto.
Qed.

Lemma build_blocks_total t todo : forall acc st areas prefs,
  areas_to_focus (self st) = Some areas ->
  study_preferences (self st) = Some prefs ->
  study_methods prefs <> [] ->
  (forall subject, In subject todo ->
     In subject (Dict.keys areas) /\ can_prioritize (self st) subject) ->
  exists blocks st', build_blocks t todo acc st = (Normal blocks, st').
Proof.
  induction todo as [|subject rest IH]; intros acc st areas prefs Ha Hp Hm Hk.
  - simpl. unfold ret. eauto.
  - rewrite build_blocks_step, Ha, Hp.
    destruct (Hk subject (or_introl eq_refl)) as [Ka Kw].
    destruct (Dict.get subject areas) as [focus|] eqn:Ef;
      [|apply DictFacts.get_None_keys in Ef; contradiction].
    destruct (random_choice_total st Hm) as (method & st1 & Er).
    pose proof (random_choice_inv _ _ Er) as [_ [E1 _]].
    rewrite Er.
    destruct (prioritize_task_run subject (task_of focus method) st1)
      as (st2 & Ep & E2 & _).
    rewrite Ep, E1.
    destruct (Kw (task_of focus method)) as [p ->].
    apply (IH _ _ areas prefs).
    + rewrite E2, E1. assumption.
    + rewrite E2, E1. assumption.
    + assumption.
    + intros x Hx. rewrite E2, E1. apply Hk. now right.
Qed.

Lemma py_max_half prefs s :
  py_max half (quotient_of prefs s) = time_per_subject_of prefs s.
Proof. reflexivity. Qed.

(** [generate_daily_plan], step by step. *)
Lemma generate_daily_plan_eq d st :
  generate_daily_plan d st =
  match study_preferences (self st) with
  | None => (Raise (AttributeError "study_preferences"), st)
  | Some prefs =>
      if Z.eqb (Z.of_nat (List.length (subjects (self st)))) 0
      then (Raise ZeroDivisionError, st)
      else if Float.overflows (study_duration prefs)
                (Z.of_nat (List.length (subjects (self st))))
      then (Raise OverflowError, st)
      else
        match build_blocks (time_per_subject_of prefs (self st))
                (subjects (self st)) [] st with
        | (Raise e, st1) => (Raise e, st1)
        | (Normal blocks, st1) =>
            match study_preferences (self st1) with
            | None => (Raise (AttributeError "study_preferences"), st1)
            | Some prefs' => (Normal (daily_plan_of prefs' d blocks), st1)
            end
        end
  end.
Proof.
  unfold generate_daily_plan. unfold bind at 1. rewrite attribute_run.
  destruct (study_preferences (self st)) as [prefs|]; [|reflexivity].
  unfold bind at 1, get_self. cbv beta iota zeta.
  unfold bind at 1, true_div.
  destruct (Z.eqb _ 0); [reflexivity|].
  destruct (Float.overflows _ _); [reflexivity|].
  cbn [ret]. unfold bind at 1.
  change (py_max half _) with (time_per_subject_of prefs (self st)).
  destruct (build_blocks _ _ _ st) as [[blocks|e] st1]; [|reflexivity].
  unfold bind at 1. rewrite attribute_run.
  destruct (study_preferences (self st1)); reflexivity.
Qed.

Lemma generate_daily_plan_inv d st plan st' :
  generate_daily_plan d st = (Normal plan, st') ->
  same_object st st' /\ subjects (self st) <> [] /\
  exists prefs blocks,
    study_preferences (self st) = Some prefs /\
    in_float_range prefs (self st) /\
    plan = daily_plan_of prefs d blocks /\
    Forall2 (block_for (self st) (time_per_subject_of prefs (self st)))
      (subjects (self st)) blocks.
Proof.
  rewrite generate_daily_plan_eq.
  destruct (study_preferences (self st)) as [prefs|] eqn:Epr; [|discriminate].
  destruct (Z.eqb_spec (Z.of_nat (List.length (subjects (self st)))) 0) as [E|E];
    [discriminate|].
  destruct (Float.overflows _ _) eqn:Eo; [discriminate|].
  destruct (build_blocks _ _ _ st) as [[blocks|e] st1] eqn:Eb; [|discriminate].
  apply build_blocks_inv in Eb as [S (new & -> & F)].
  destruct S as [Es Ef]. rewrite Es, Epr.
  intros [= <- <-].
  split; [split; assumption|]. split.
  - intros N. rewrite N in E. apply E. reflexivity.
  - exists prefs, new. auto.
Qed.

Lemma generate_daily_plan_runs d st prefs areas :
  subjects (self st) <> [] ->
  study_preferences (self st) = Some prefs ->
  areas_to_focus (self st) = Some areas ->
  study_methods prefs <> [] ->
  in_float_range prefs (self st) ->
  (forall subject, In subject (subjects (self st)) ->
     In subject (Dict.keys areas) /\ can_prioritize (self st) subject) ->
  exists plan st', generate_daily_plan d st = (Normal plan, st').
Proof.
  intros Hs Hp Ha Hm Hr Hk.
  rewrite generate_daily_plan_eq, Hp.
  destruct (Z.eqb_spec (Z.of_nat (List.length (subjects (self st)))) 0) as [E|E].
  - destruct (subjects (self st)); [congruence | discriminate].
  - unfold in_float_range in Hr. rewrite Hr.
    destruct (@build_blocks_total (time_per_subject_of prefs (self st))
                (subjects (self st)) [] st areas prefs Ha Hp Hm Hk)
      as (blocks & st1 & Eb).
    rewrite Eb. apply build_blocks_inv in Eb as [[Es _] _].
    rewrite Es, Hp. eauto.
Qed.

Lemma ready_can_prioritize s subject :
  ready s -> In subject (subjects s) -> can_prioritize s subject.
Proof.
  intros (prefs & areas & weak & Hp & Ha & Hw & Hm & Hr & Hc & Hk) Hin task.
  destruct (Hk subject Hin) as [_ Kw]. eapply priority_of_total; eauto.
Qed.

Lemma generate_daily_plan_total d st :
  subjects (self st) <> [] -> ready (self st) ->
  exists plan st', generate_daily_plan d st = (Normal plan, st').
Proof.
  intros Hs Hr.
  pose proof Hr as (prefs & areas & weak & Hp & Ha & Hw & Hm & Hf & Hc & Hk).
  apply (@generate_daily_plan_runs d st prefs areas); trivial.
  intros subject Hin. split; [apply Hk, Hin|].
  now apply ready_can_prioritize.
Qed.

Lemma random_choice_same seq st r st' :
  random_choice seq st = (r, st') -> same_object st st'.
Proof.
  unfold random_choice. destruct seq; intros [= <- <-]; split; reflexivity.
Qed.

Lemma build_blocks_same t todo : forall acc st r st',
  build_blocks t todo acc st = (r, st') -> same_object st st'.
Proof.
  induction todo as [|subject rest IH]; intros acc st r st'.
  - intros [= <- <-]. apply same_object_refl.
  - rewrite build_blocks_step.
    destruct (areas_to_focus (self st)) as [areas|];
      [|intros [= <- <-]; apply same_object_refl].
    destruct (Dict.get subject areas) as [focus|];
      [|intros [= <- <-]; apply same_object_refl].
    destruct (study_preferences (self st)) as [prefs|];
      [|intros [= <- <-]; apply same_object_refl].
    destruct (random_choice _ st) as [[method|e] st1] eqn:Er;
      apply random_choice_same in Er;
      [|intros [= <- <-]; assumption].
    destruct (prioritize_task _ _ st1) as [[priority|e] st2] eqn:Ep;
      apply prioritize_task_same in Ep as [_ Ep];
      [|intros [= <- <-]; eauto using same_object_trans].
    intros H. apply IH in H. eauto using same_object_trans.
Qed.

Lemma generate_daily_plan_same d st r st' :
  generate_daily_plan d st = (r, st') -> same_object st st'.
Proof.
  rewrite generate_daily_plan_eq.
  destruct (study_preferences (self st));
    [|intros [= <- <-]; apply same_object_refl].
  destruct (Z.eqb _ 0); [intros [= <- <-]; apply same_object_refl|].
  destruct (Float.overflows _ _); [intros [= <- <-]; apply same_object_refl|].
  destruct (build_blocks _ _ _ st) as [[blocks|e] st1] eqn:Eb;
    apply build_blocks_same in Eb; [|intros [= <- <-]; assumption].
  destruct (study_preferences (self st1)); intros [= <- <-]; assumption.
Qed.

(** ** The plan loop *)





Lemma same_profile_refl st : same_profile st st.
Proof. unfold same_profile. now destruct (self st). Qed.

Lemma same_profile_trans st1 st2 st3 :
  same_profile st1 st2 -> same_profile st2 st3 -> same_profile st1 st3.
Proof.
  unfold same_profile. intros H12 H23. rewrite H23 at 1. rewrite H12 at 1.
  reflexivity.
Qed.

Lemma same_object_profile st st' : same_object st st' -> same_profile st st'.
Proof. intros [E _]. unfold same_profile. rewrite E. now destruct (self st). Qed.

Lemma setitem_study_plan_run key v st :
  match study_plan (self st) with
  | VDict d =>
      setitem_study_plan key v st =
      (Normal tt, mkstate (set_study_plan (VDict (Dict.set key v d)) (self st))
                    (world st))
  | _ => setitem_study_plan key v st = (Raise TypeError, st)
  end.
Proof.
  unfold setitem_study_plan, bind, get_self.
  destruct (study_plan (self st)); reflexivity.
Qed.

Lemma plan_update_nil p : plan_update p [] = p.
Proof. now destruct p. Qed.

Lemma plan_update_cons d k v l :
  plan_update (VDict d) ((k, v) :: l) = plan_update (VDict (Dict.set k v d)) l.
Proof. reflexivity. Qed.

Lemma set_study_plan_same s : set_study_plan (study_plan s) s = s.
Proof. now destruct s. Qed.

Lemma frame_unchanged st st' l :
  same_object st st' ->
  files (world st') = files (world st) /\
  exists entries,
    self st' = set_study_plan (plan_update (study_plan (self st)) entries) (self st) /\
    incl (Dict.keys entries) l.
Proof.
  intros [Es Ef]. split; [assumption|]. exists []. split.
  - now rewrite plan_update_nil, set_study_plan_same.
  - apply incl_nil_l.
Qed.

(** Whatever the outcome, the loop only assigns entries keyed by the dates
    it walks through. *)
Lemma plan_days_frame n : forall d st r st',
  plan_days n d st = (r, st') ->
  files (world st') = files (world st) /\
  exists entries,
    self st' = set_study_plan (plan_update (study_plan (self st)) entries) (self st) /\
    incl (Dict.keys entries) (map Date.strftime_Ymd (Date.days_from n d)).
Proof.
  induction n as [|n IH]; intros d st r st'.
  - intros [= <- <-]. apply frame_unchanged, same_object_refl.
  - cbn [plan_days]. unfold bind at 1.
    destruct (generate_daily_plan d st) as [[plan|e] st1] eqn:Eg;
      apply generate_daily_plan_same in Eg;
      [|intros [= <- <-]; now apply frame_unchanged].
    unfold bind at 1.
    pose proof (setitem_study_plan_run (Date.strftime_Ymd d) plan st1) as Hs.
    destruct Eg as [Es Ef]. rewrite Es in Hs.
    remember (study_plan (self st)) as p eqn:Ep in Hs.
    destruct p as [| | | | | |d0];
      try (rewrite Hs; intros [= <- <-]; apply frame_unchanged; now split).
    rewrite Hs. cbv beta iota. unfold bind at 1, lift.
    cbn [Date.days_from].
    destruct (Date.add_one_day d) as [d1|e] eqn:Ed.
    + intros H. apply IH in H as [Hf (entries & Hself & Hincl)].
      cbn [self world] in *. split; [congruence|].
      exists ((Date.strftime_Ymd d, plan) :: entries). split.
      * rewrite Hself, <- Ep, plan_update_cons. now destruct (self st).
      * intros k [<-|Hk]; [now left | right; auto].
    + intros [= <- <-]. cbn [self world]. split; [assumption|].
      exists [(Date.strftime_Ymd d, plan)]. split.
      * rewrite <- Ep, plan_update_cons, plan_update_nil. reflexivity.
      * intros k [<-|[]]. now left.
Qed.

Module DateRangeFacts.
Import Date DateFacts.
Local Open Scope Z_scope.

Lemma days_from_length n : forall d dn,
  add_days n d = Some dn -> List.length (days_from n d) = n.
Proof.
  induction n as [|n IH]; intros d dn H; [reflexivity|].
  cbn [add_days days_from] in *.
  destruct (add_one_day d) as [d1|]; [|discriminate].
  simpl. f_equal. eauto.
Qed.

Lemma days_from_nth n : forall d i,
  (i < List.length (days_from n d))%nat ->
  nth_error (days_from n d) i = add_days i d.
Proof.
  induction n as [|n IH]; intros d i Hi; [simpl in Hi; lia|].
  cbn [days_from] in *. destruct i as [|i]; [reflexivity|].
  cbn [nth_error add_days]. simpl in Hi.
  destruct (add_one_day d) as [d1|]; [|simpl in Hi; lia].
  apply IH. lia.
Qed.

Lemma days_from_after n : forall d x,
  valid d -> In x (days_from n d) -> valid x /\ toordinal d <= toordinal x.
Proof.
  induction n as [|n IH]; intros d x Hv; [intros []|].
  cbn [days_from]. intros [<-|Hx]; [split; [assumption | lia]|].
  destruct (add_one_day d) as [d1|] eqn:E; [|destruct Hx].
  destruct (IH d1 x (add_one_day_valid Hv E) Hx) as [Hvx Hle].
  split; [assumption|]. rewrite (toordinal_add_one_day Hv E) in Hle. lia.
Qed.



(** Consecutive dates have pairwise distinct keys. *)
Lemma days_from_keys_NoDup n : forall d,
  valid d -> NoDup (map strftime_Ymd (days_from n d)).
Proof.
  induction n as [|n IH]; intros d Hv; [constructor|].
  cbn [days_from map]. constructor.
  - destruct (add_one_day d) as [d1|] eqn:E; [|intros []].
    intros Hin. apply in_map_iff in Hin as (x & Hx & Hin).
    destruct (days_from_after _ _ (add_one_day_valid Hv E) Hin) as [Hvx Hle].
    apply strftime_Ymd_inj in Hx; trivial. subst x.
    rewrite (toordinal_add_one_day Hv E) in Hle. lia.
  - destruct (add_one_day d) as [d1|] eqn:E; [|constructor].
    apply IH. eapply add_one_day_valid; eauto.
Qed.

End DateRangeFacts.

Lemma ready_set_study_plan p s : ready (set_study_plan p s) <-> ready s.
Proof. reflexivity. Qed.

(** With a complete profile and all the dates in range, the loop stores
    one daily plan per date. *)
Lemma plan_days_total n : forall d st d0 dn,
  subjects (self st) <> [] -> ready (self st) ->
  study_plan (self st) = VDict d0 -> Date.add_days n d = Some dn ->
  exists entries st',
    plan_days n d st = (Normal tt, st') /\
    self st' = set_study_plan (VDict (Dict.update d0 entries)) (self st) /\
    Forall2 (fun di kv =>
               fst kv = Date.strftime_Ymd di /\
               exists sti sti', same_profile st sti /\
                 generate_daily_plan di sti = (Normal (snd kv), sti'))
            (Date.days_from n d) entries.
Proof.
  induction n as [|n IH]; intros d st d0 dn Hs Hr Hp Hd.
  - exists [], st. simpl. repeat split; [|constructor].
    rewrite <- Hp. symmetry. apply set_study_plan_same.
  - cbn [plan_days Date.add_days Date.days_from] in *.
    destruct (Date.add_one_day d) as [d1|] eqn:Ed; [|discriminate].
    destruct (generate_daily_plan_total d st Hs Hr) as (plan & st1 & Eg).
    pose proof (generate_daily_plan_same _ _ Eg) as [Es Ef].
    unfold bind at 1. rewrite Eg. unfold bind at 1.
    pose proof (setitem_study_plan_run (Date.strftime_Ymd d) plan st1) as Hset.
    rewrite Es, Hp in Hset. rewrite Hset. cbv beta iota.
    unfold bind at 1, lift.
    set (st2 := mkstate _ (world st1)).
    destruct (IH d1 st2 (Dict.set (Date.strftime_Ymd d) plan d0) dn)
      as (entries & st' & Erun & Hself & F); trivial.
    exists ((Date.strftime_Ymd d, plan) :: entries), st'.
    split; [exact Erun|]. split.
    + rewrite Hself. reflexivity.
    + constructor.
      * split; [reflexivity|]. exists st, st1. split; [apply same_profile_refl|].
        exact Eg.
      * eapply Forall2_impl; [|exact F].
        intros di kv (Hk & sti & sti' & Hsp & Hg). split; [assumption|].
        exists sti, sti'. split; [|assumption].
        eapply same_profile_trans; [|exact Hsp]. reflexivity.
Qed.

(** ** The claims on plan generation *)

(** On an answer of the classifier [prioritize_task] changes nothing. *)
Lemma prioritize_task_answered st subject task label score :
  nlp_model (self st) task = Classified label score ->
  prioritize_task subject task st = (priority_of (self st) subject task, st).
Proof. intros Hc. rewrite prioritize_task_eq, Hc. reflexivity. Qed.

(** C1. [prioritize_task] applies three rules in a fixed order once the
    classifier has answered: label [NEGATIVE] with a score above 0.7 gives
    [High], whatever the weakness test says (the weakness is not even
    looked up); otherwise a recorded weakness that occurs in the task
    description gives [Medium]; otherwise the result is [Low].  Nothing is
    printed and nothing changes. *)
Theorem prioritize_task_three_rules st subject task label score :
  nlp_model (self st) task = Classified label score ->
  (strongly_negative label score ->
   prioritize_task subject task st = (Normal "High", st)) /\
  (~ strongly_negative label score ->
   forall weak weakness,
     weaknesses (self st) = Some weak ->
     Dict.get subject weak = Some weakness ->
     (substring_of weakness task ->
      prioritize_task subject task st = (Normal "Medium", st)) /\
     (~ substring_of weakness task ->
      prioritize_task subject task st = (Normal "Low", st))).
Proof.
  intros Hc. rewrite (@prioritize_task_answered st subject task label score Hc).
  unfold priority_of. rewrite Hc. split.
  - intros Hs. apply strong_reflect in Hs. rewrite Hs. reflexivity.
  - intros Hs weak weakness Hweak Hw.
    destruct (String.eqb label "NEGATIVE" && negb (Qle_bool score threshold))
      eqn:E; [apply strong_reflect in E; contradiction|].
    unfold by_weakness_of. rewrite Hweak, Hw. split; intros Hsub.
    + apply str_in_spec in Hsub. rewrite Hsub. reflexivity.
    + destruct (str_in weakness task) eqn:Ei; [|reflexivity].
      apply str_in_spec in Ei. contradiction.
Qed.

Lemma prioritize_task_three_rules_witness :
  prioritize_task "Math" "Review Calculus using Flashcards"
    (Sample.st Sample.negative) = (Normal "High", Sample.st Sample.negative) /\
  prioritize_task "Math" "Review Calculus using Flashcards"
    (Sample.st Sample.positive) = (Normal "Medium", Sample.st Sample.positive) /\
  prioritize_task "Math" "Practice integrals"
    (Sample.st Sample.positive) = (Normal "Low", Sample.st Sample.positive).
Proof.
  split; [|split].
  - apply (proj1 (@prioritize_task_three_rules (Sample.st Sample.negative)
             "Math" "Review Calculus using Flashcards" _ _ eq_refl)).
    split; reflexivity.
  - refine (proj1 (proj2 (@prioritize_task_three_rules (Sample.st Sample.positive)
             "Math" "Review Calculus using Flashcards" _ _ eq_refl)
             _ Sample.weak "Calculus" eq_refl eq_refl) _).
    + intros [H _]. discriminate H.
    + exists "Review ", " using Flashcards". reflexivity.
  - refine (proj2 (proj2 (@prioritize_task_three_rules (Sample.st Sample.positive)
             "Math" "Practice integrals" _ _ eq_refl)
             _ Sample.weak "Calculus" eq_refl eq_refl) _).
    + intros [H _]. discriminate H.
    + intros H. apply str_in_spec in H. discriminate H.
Defined.

Lemma plan_blocks_daily_plan_of prefs d blocks :
  plan_blocks (daily_plan_of prefs d blocks) = blocks.
Proof. reflexivity. Qed.

Lemma block_for_time s t subject b : block_for s t subject b -> block_time b = Some t.
Proof.
  intros (areas & prefs & focus & method & priority & _ & _ & _ & _ & _ & ->).
  reflexivity.
Qed.

Lemma Forall2_Forall_r {A B} (P : A -> B -> Prop) (Q : B -> Prop) l l' :
  (forall a b, P a b -> Q b) -> Forall2 P l l' -> Forall Q l'.
Proof. intros H F. induction F; constructor; eauto. Qed.

Lemma total_time_const t blocks : forall acc,
  Forall (fun b => block_time b = Some t) blocks ->
  (fold_left (fun acc b => match block_time b with
                           | Some q => acc + q
                           | None => acc
                           end) blocks acc
   == acc + inject_Z (Z.of_nat (List.length blocks)) * t)%Q.
Proof.
  induction blocks as [|b blocks IH]; intros acc F.
  - simpl. unfold inject_Z. ring.
  - inversion F as [|? ? Hb F']; subst. cbn [fold_left List.length].
    rewrite Hb, IH by assumption.
    rewrite Nat2Z.inj_succ. unfold Z.succ. rewrite inject_Z_plus. ring.
Qed.

(** The time per subject is the larger of one half and the quotient. *)
Lemma time_per_subject_of_cases prefs s :
  (half <= time_per_subject_of prefs s)%Q /\
  ((quotient_of prefs s <= half)%Q -> time_per_subject_of prefs s = half) /\
  ((half < quotient_of prefs s)%Q ->
   time_per_subject_of prefs s = quotient_of prefs s).
Proof.
  unfold time_per_subject_of.
  destruct (Qle_bool (quotient_of prefs s) half) eqn:E.
  - apply Qle_bool_iff in E. split; [apply Qle_refl|]. split; [reflexivity|].
    intros L. apply Qle_not_lt in E. contradiction.
  - assert (L : (half < quotient_of prefs s)%Q).
    { apply Qnot_le_lt. intros L. apply Qle_bool_iff in L. congruence. }
    split; [now apply Qlt_le_weak|]. split; [|reflexivity].
    intros L'. apply Qle_not_lt in L'. contradiction.
Qed.

(** An exact quotient below one half, on integers. *)
Lemma below_half_integers a b :
  (0 < b)%Z -> (inject_Z a / inject_Z b < half)%Q -> (2 * a < b)%Z.
Proof.
  intros Hb H.
  assert (Hq : (0 < inject_Z b)%Q).
  { change 0%Q with (inject_Z 0). now rewrite <- Zlt_Qlt. }
  assert (Hd : (inject_Z a == inject_Z a / inject_Z b * inject_Z b)%Q).
  { field. intros Hz. rewrite Hz in Hq. exact (Qlt_irrefl _ Hq). }
  assert (L : (inject_Z a < half * inject_Z b)%Q).
  { rewrite Hd at 1. apply Qmult_lt_r; assumption. }
  unfold Qlt, Qmult, half, inject_Z in L. cbn [Qnum Qden] in L.
  rewrite Pos.mul_1_r in L. lia.
Qed.

(** C3. In every daily plan [generate_daily_plan] returns, all blocks
    have the same time, one block per subject: the larger of 0.5 and the
    float [study_duration / len(subjects)].  It is at least half an hour;
    it is 0.5 when the quotient is at most 0.5 and the quotient itself when
    that is more than 0.5; and when [study_duration] divided by the number
    of subjects is below one half, the time is 0.5 and the times of the day
    add up to more than [study_duration]. *)
Theorem time_per_subject_floor d st plan st' :
  generate_daily_plan d st = (Normal plan, st') ->
  exists prefs time,
    study_preferences (self st) = Some prefs /\
    Forall (fun b => block_time b = Some time) (plan_blocks plan) /\
    List.length (plan_blocks plan) = List.length (subjects (self st)) /\
    (half <= time)%Q /\
    ((Float.div (study_duration prefs)
        (Z.of_nat (List.length (subjects (self st)))) <= half)%Q ->
     time = half) /\
    ((half < Float.div (study_duration prefs)
               (Z.of_nat (List.length (subjects (self st)))))%Q ->
     time = Float.div (study_duration prefs)
              (Z.of_nat (List.length (subjects (self st))))) /\
    ((inject_Z (study_duration prefs) /
      inject_Z (Z.of_nat (List.length (subjects (self st)))) < half)%Q ->
     time = half /\
     (inject_Z (study_duration prefs) < total_time (plan_blocks plan))%Q).
Proof.
  intros H.
  apply generate_daily_plan_inv in H as (_ & Hne & prefs & blocks & Hp & _ & -> & F).
  rewrite plan_blocks_daily_plan_of.
  exists prefs, (time_per_subject_of prefs (self st)).
  assert (Ft : Forall (fun b => block_time b =
                                Some (time_per_subject_of prefs (self st))) blocks).
  { eapply Forall2_Forall_r; [|exact F]. intros a b. apply block_for_time. }
  destruct (time_per_subject_of_cases prefs (self st)) as (T1 & T2 & T3).
  split; [exact Hp|]. split; [exact Ft|]. split; [|split; [|split; [|split]]].
  - symmetry. exact (Forall2_length F).
  - exact T1.
  - exact T2.
  - exact T3.
  - intros Hlt.
    assert (Hc : (0 < Z.of_nat (List.length (subjects (self st))))%Z).
    { destruct (subjects (self st)); [congruence | simpl; lia]. }
    pose proof (below_half_integers Hc Hlt) as Hz.
    assert (Hh : time_per_subject_of prefs (self st) = half).
    { apply T2. apply FloatFacts.div_half_le; assumption. }
    split; [exact Hh|].
    unfold total_time. rewrite (total_time_const _ Ft), Hh.
    rewrite <- (Forall2_length F), Qplus_0_l.
    unfold Qlt, Qmult, half, inject_Z. cbn [Qnum Qden]. lia.
Qed.

Lemma time_per_subject_floor_witness :
  (exists plan st',
     generate_daily_plan (Date.mkdate 2024 1 1)
       (mkstate Sample.carol Sample.earth) = (Normal plan, st') /\
     Forall (fun b => block_time b = Some half) (plan_blocks plan) /\
     (1 < total_time (plan_blocks plan))%Q) /\
  (exists plan st',
     generate_daily_plan (Date.mkdate 2024 1 1)
       (mkstate Sample.dave Sample.earth) = (Normal plan, st') /\
     Forall (fun b => block_time b = Some (3 # 2)%Q) (plan_blocks plan)).
Proof.
  split.
  - eexists. eexists. split; [vm_compute; reflexivity|].
    destruct (@time_per_subject_floor (Date.mkdate 2024 1 1)
                (mkstate Sample.carol Sample.earth) _ _ eq_refl)
      as (prefs & time & Hp & H1 & _ & _ & _ & _ & H3).
    injection Hp as <-.
    destruct (H3 eq_refl) as [-> Ht]. split; [exact H1 | exact Ht].
  - eexists. eexists. split; [vm_compute; reflexivity|].
    destruct (@time_per_subject_floor (Date.mkdate 2024 1 1)
                (mkstate Sample.dave Sample.earth) _ _ eq_refl)
      as (prefs & time & Hp & H1 & _ & _ & _ & H2 & _).
    injection Hp as <-.
    rewrite (H2 eq_refl) in H1. exact H1.
Defined.

(** The sample profile is ready whenever the scores of its classifier
    are numbers. *)
Lemma alice_ready model :
  comparable_scores (Sample.alice model) -> ready (Sample.alice model).
Proof.
  intros Hc. exists Sample.prefs, Sample.weak, Sample.weak.
  repeat split; trivial; try discriminate; simpl in *; tauto.
Qed.

(** C4. When the classifier raises, [prioritize_task] prints the error
    and returns [Medium] instead of raising.  On a profile that is ready
    (the preferences, focus areas and weaknesses exist, with a study
    method, a focus area and a weakness for every subject, a study
    duration that divides into a float and scores that are numbers)
    [generate_daily_plan] returns a plan with one block per subject, the
    blocks whose classification raised carrying [Medium]; and when the
    classifier raises on every text, it does so even with no weakness
    recorded, every block carrying [Medium]. *)
Theorem classifier_failure_degrades_to_medium st subject task message d :
  nlp_model (self st) task = ClassifierRaised message ->
  prioritize_task subject task st =
    (Normal "Medium", printed (sentiment_error message) st) /\
  (subjects (self st) <> [] -> ready (self st) ->
   exists plan st',
     generate_daily_plan d st = (Normal plan, st') /\
     Forall2 (fun subj b => block_subject b = Some subj)
       (subjects (self st)) (plan_blocks plan) /\
     Forall (fun b => block_task b = Some task ->
                      block_priority b = Some "Medium") (plan_blocks plan)) /\
  ((forall text, exists m, nlp_model (self st) text = ClassifierRaised m) ->
   subjects (self st) <> [] ->
   forall prefs areas,
     study_preferences (self st) = Some prefs ->
     areas_to_focus (self st) = Some areas ->
     study_methods prefs <> [] ->
     in_float_range prefs (self st) ->
     (forall subj, In subj (subjects (self st)) -> In subj (Dict.keys areas)) ->
     exists plan st',
       generate_daily_plan d st = (Normal plan, st') /\
       Forall2 (fun subj b => block_subject b = Some subj /\
                              block_priority b = Some "Medium")
         (subjects (self st)) (plan_blocks plan)).
Proof.
  intros Hc. split; [|split].
  - rewrite prioritize_task_eq, Hc. reflexivity.
  - intros Hs Hr.
    destruct (generate_daily_plan_total d st Hs Hr) as (plan & st' & Hg).
    exists plan, st'. split; [exact Hg|].
    apply generate_daily_plan_inv in Hg as (_ & _ & prefs & blocks & _ & _ & -> & F).
    rewrite plan_blocks_daily_plan_of. split.
    + eapply Forall2_impl; [|exact F].
      intros a b (? & ? & focus & method & priority & _ & _ & _ & _ & _ & ->).
      reflexivity.
    + eapply Forall2_Forall_r; [|exact F].
      intros a b (? & ? & focus & method & priority & _ & _ & _ & _ & Hp & ->).
      intros Ht. change (Some (task_of focus method) = Some task) in Ht.
      injection Ht as Ht. rewrite Ht in Hp.
      unfold priority_of in Hp. rewrite Hc in Hp.
      change (Some priority = Some "Medium"). congruence.
  - intros Hall Hs prefs areas Hp Ha Hm Hr Hk.
    assert (Hmed : forall subj text,
               priority_of (self st) subj text = Normal "Medium").
    { intros subj text. unfold priority_of.
      destruct (Hall text) as [m ->]. reflexivity. }
    destruct (@generate_daily_plan_runs d st prefs areas Hs Hp Ha Hm Hr)
      as (plan & st' & Hg).
    { intros subj Hin. split; [now apply Hk|]. intros text. eauto. }
    exists plan, st'. split; [exact Hg|].
    apply generate_daily_plan_inv in Hg as (_ & _ & ? & blocks & _ & _ & -> & F).
    rewrite plan_blocks_daily_plan_of.
    eapply Forall2_impl; [|exact F].
    intros a b (? & ? & focus & method & priority & _ & _ & _ & _ & Hpr & ->).
    rewrite Hmed in Hpr. injection Hpr as <-. split; reflexivity.
Qed.

Lemma classifier_failure_degrades_to_medium_witness :
  prioritize_task "Math" "Review Calculus using Flashcards"
    (Sample.st Sample.broken) =
  (Normal "Medium",
   printed (sentiment_error "model unavailable") (Sample.st Sample.broken)) /\
  (exists plan st',
     generate_daily_plan (Date.mkdate 2024 1 1) (Sample.st Sample.broken) =
       (Normal plan, st') /\
     Forall2 (fun subj b => block_subject b = Some subj)
       ["Math"; "History"] (plan_blocks plan) /\
     Forall (fun b => block_task b = Some "Review Calculus using Flashcards" ->
                      block_priority b = Some "Medium") (plan_blocks plan)) /\
  exists plan st',
    generate_daily_plan (Date.mkdate 2024 1 1) (Sample.st Sample.broken) =
      (Normal plan, st') /\
    Forall2 (fun subj b => block_subject b = Some subj /\
                           block_priority b = Some "Medium")
      ["Math"; "History"] (plan_blocks plan).
Proof.
  pose proof (@classifier_failure_degrades_to_medium (Sample.st Sample.broken)
                "Math" "Review Calculus using Flashcards" "model unavailable"
                (Date.mkdate 2024 1 1) eq_refl) as (H1 & H2 & H3).
  split; [exact H1|]. split.
  - apply H2; [discriminate|].
    apply alice_ready. intros task label score H. discriminate H.
  - apply (H3 (fun text => ex_intro _ "model unavailable" eq_refl)
              ltac:(discriminate) Sample.prefs Sample.weak eq_refl eq_refl).
    + discriminate.
    + reflexivity.
    + intros subj Hin. simpl in *. tauto.
Defined.

(** C6. Every daily plan [generate_daily_plan] returns is the dictionary
    of the formatted date, the list of study blocks, and the environment
    and preferred time of the preferences; the blocks are one per subject,
    in the order of the subjects, and the task of the block of a subject is
    "Review " + areas_to_focus[subject] + " using " + one of the study
    methods. *)
Theorem daily_plan_shape d st plan st' :
  generate_daily_plan d st = (Normal plan, st') ->
  exists prefs areas blocks,
    study_preferences (self st) = Some prefs /\
    areas_to_focus (self st) = Some areas /\
    plan = VDict [("date", VStr (Date.strftime_Ymd d));
                  ("study_blocks", VList blocks);
                  ("environment", VStr (study_environment prefs));
                  ("preferred_time", VStr (study_time prefs))] /\
    Forall2 (fun subject b =>
               exists focus method time priority,
                 Dict.get subject areas = Some focus /\
                 In method (study_methods prefs) /\
                 b = VDict [("subject", VStr subject);
                            ("time", VFloat time);
                            ("task", VStr ("Review " ++ focus ++ " using " ++ method));
                            ("priority", VStr priority)])
            (subjects (self st)) blocks.
Proof.
  intros Hg.
  pose proof (generate_daily_plan_inv _ _ Hg)
    as (_ & Hne & prefs & blocks & Hp & _ & -> & F).
  assert (Ha : exists areas, areas_to_focus (self st) = Some areas).
  { destruct (subjects (self st)) as [|x l]; [congruence|].
    inversion F as [|? ? ? ? (areas & _ & _ & _ & _ & Ha & _) _]; subst. eauto. }
  destruct Ha as [areas Ha].
  exists prefs, areas, blocks. repeat split; trivial.
  eapply Forall2_impl; [|exact F].
  intros subject b (areas' & prefs' & focus & method & priority
                    & Ha' & Hp' & Hf & Hm & _ & ->).
  rewrite Ha in Ha'. rewrite Hp in Hp'. injection Ha' as <-. injection Hp' as <-.
  exists focus, method, (time_per_subject_of prefs (self st)), priority. auto.
Qed.

Lemma daily_plan_shape_witness :
  exists blocks,
    fst (generate_daily_plan (Date.mkdate 2024 1 1) (Sample.st Sample.positive))
    = Normal (VDict [("date", VStr "2024-01-01");
                     ("study_blocks", VList blocks);
                     ("environment", VStr "Library");
                     ("preferred_time", VStr "Morning")]) /\
    List.length blocks = 2%nat.
Proof.
  destruct (@daily_plan_shape (Date.mkdate 2024 1 1) (Sample.st Sample.positive)
              _ _ eq_refl) as (prefs & areas & blocks & Hp & _ & E & F).
  injection Hp as <-.
  exists blocks. split.
  - vm_compute in E. injection E as <-. reflexivity.
  - apply Forall2_length in F. symmetry. exact F.
Defined.

(** [analyze_student_data] copies the weakness of every subject. *)
Lemma analyze_subjects_step subject rest st :
  analyze_subjects (subject :: rest) st =
  match weaknesses (self st) with
  | None => (Raise (AttributeError "weaknesses"), st)
  | Some weak =>
      match Dict.get subject weak with
      | None => (Raise (KeyError subject), st)
      | Some w =>
          match areas_to_focus (self st) with
          | None => (Raise (AttributeError "areas_to_focus"), st)
          | Some areas =>
              analyze_subjects rest
                (mkstate (set_areas_to_focus (Dict.set subject w areas) (self st))
                   (world st))
          end
      end
  end.
Proof.
  cbn [analyze_subjects]. unfold bind at 1. rewrite attribute_run.
  destruct (weaknesses (self st)) as [weak|]; [|reflexivity].
  unfold bind at 1, getitem.
  destruct (Dict.get subject weak) as [w|]; [|reflexivity].
  cbn [ret]. unfold bind at 1. rewrite attribute_run.
  destruct (areas_to_focus (self st)) as [areas|]; reflexivity.
Qed.

Lemma analyze_subjects_spec todo : forall st st' areas,
  areas_to_focus (self st) = Some areas ->
  analyze_subjects todo st = (Normal tt, st') ->
  exists areas',
    self st' = set_areas_to_focus areas' (self st) /\
    forall k,
      (In k todo ->
       exists weak w, weaknesses (self st) = Some weak /\
                      Dict.get k weak = Some w /\ Dict.get k areas' = Some w) /\
      (~ In k todo -> Dict.get k areas' = Dict.get k areas).
Proof.
  induction todo as [|subject rest IH]; intros st st' areas Ha.
  - intros [= <-]. exists areas. split.
    + unfold set_areas_to_focus. rewrite <- Ha. now destruct (self st).
    + intros k. split; [intros []|auto].
  - rewrite analyze_subjects_step, Ha.
    destruct (weaknesses (self st)) as [weak|] eqn:Eweak; [|discriminate].
    destruct (Dict.get subject weak) as [w|] eqn:Ew; [|discriminate].
    intros H. apply IH with (areas := Dict.set subject w areas) in H;
      [|reflexivity].
    destruct H as (areas' & Hself & Hk).
    cbn [self weaknesses set_areas_to_focus] in *.
    exists areas'. split; [rewrite Hself; reflexivity|].
    rewrite <- Eweak.
    intros k. destruct (Hk k) as [Hin Hout]. split.
    + intros [<-|Hr]; [|exact (Hin Hr)].
      destruct (in_dec string_dec subject rest) as [Hr|Hr]; [exact (Hin Hr)|].
      exists weak, w. split; [assumption|]. split; [assumption|].
      rewrite (Hout Hr). apply get_set_eq.
    + intros Hn. simpl in Hn. rewrite Hout by tauto.
      apply get_set_ne. intros ->. tauto.
Qed.

Lemma analyze_student_data_spec st st' :
  analyze_student_data st = (Normal tt, st') ->
  weaknesses (self st') = weaknesses (self st) /\
  nlp_model (self st') = nlp_model (self st) /\
  subjects (self st') = subjects (self st) /\
  study_preferences (self st') = study_preferences (self st) /\
  study_plan (self st') = study_plan (self st) /\
  exists areas,
    areas_to_focus (self st') = Some areas /\
    forall subject, In subject (subjects (self st)) ->
      exists weak w, weaknesses (self st) = Some weak /\
                     Dict.get subject weak = Some w /\
                     Dict.get subject areas = Some w.
Proof.
  unfold analyze_student_data, bind, print, modify_world, modify_self, get_self.
  cbn [self world]. intros H.
  apply analyze_subjects_spec with (areas := []) in H; [|reflexivity].
  destruct H as (areas & Hself & Hk).
  cbn [self] in *. rewrite Hself. repeat split.
  exists areas. split; [reflexivity|].
  intros subject Hin. exact (proj1 (Hk subject) Hin).
Qed.

Lemma Forall2_Forall_r_in {A B} (P : A -> B -> Prop) (Q : B -> Prop) l l' :
  (forall a b, In a l -> P a b -> Q b) -> Forall2 P l l' -> Forall Q l'.
Proof.
  intros H F. induction F as [|a b l l' Hab F IH]; constructor.
  - apply (H a b); [now left | assumption].
  - apply IH. intros a' b' Hin. apply H. now right.
Qed.

(** With a weakness that occurs in the task, no outcome is [Low]. *)
Lemma priority_of_not_low s weak subject w task p :
  weaknesses s = Some weak -> Dict.get subject weak = Some w ->
  substring_of w task ->
  priority_of s subject task = Normal p -> p = "High" \/ p = "Medium".
Proof.
  intros Hw Hg Hsub. apply str_in_spec in Hsub.
  assert (B : by_weakness_of s subject task = Normal "Medium").
  { unfold by_weakness_of. now rewrite Hw, Hg, Hsub. }
  unfold priority_of. rewrite B.
  destruct (nlp_model s task) as [label score|msg|label score].
  - destruct (_ && _); intros [= <-]; auto.
  - intros [= <-]; auto.
  - destruct (is_NEGATIVE label); [|intros [= <-]; auto].
    destruct score as [|b|z|q|x|l|d]; try discriminate.
    + destruct b; intros [= <-]; auto.
    + destruct (Z.leb 1 z); intros [= <-]; auto.
    + destruct (Qle_bool q threshold); intros [= <-]; auto.
Qed.

(** C9. After [analyze_student_data], the focus area of a subject is its
    weakness, so the task "Review {weakness} using {method}" contains the
    weakness: whenever the classifier answers, [prioritize_task] returns
    [High] or [Medium] for it, never [Low]; and no block of a daily plan
    generated afterwards has priority [Low]. *)
Theorem default_focus_never_low st st1 :
  analyze_student_data st = (Normal tt, st1) ->
  (forall subject, In subject (subjects (self st)) ->
   exists weak areas weakness,
     weaknesses (self st1) = Some weak /\
     areas_to_focus (self st1) = Some areas /\
     Dict.get subject weak = Some weakness /\
     Dict.get subject areas = Some weakness /\
     (forall method label score,
        nlp_model (self st1) (task_of weakness method) = Classified label score ->
        prioritize_task subject (task_of weakness method) st1 = (Normal "High", st1) \/
        prioritize_task subject (task_of weakness method) st1 = (Normal "Medium", st1)) /\
     (forall method,
        fst (prioritize_task subject (task_of weakness method) st1) <>
        Normal "Low")) /\
  (forall d plan st2,
     generate_daily_plan d st1 = (Normal plan, st2) ->
     Forall (fun b => block_priority b = Some "High" \/
                      block_priority b = Some "Medium") (plan_blocks plan)).
Proof.
  intros Ha.
  destruct (@analyze_student_data_spec _ _ Ha)
    as (Hw & _ & Hsubj & _ & _ & areas & Hareas & Hk).
  assert (Hin_task : forall w method, substring_of w (task_of w method)).
  { intros w method. exists "Review ", (" using " ++ method). reflexivity. }
  split.
  - intros subject Hin. destruct (Hk subject Hin) as (weak & w & Eweak & Ew & Ef).
    rewrite <- Hw in Eweak.
    exists weak, areas, w. repeat split; trivial.
    + intros method label score Hc.
      rewrite (@prioritize_task_answered st1 subject _ label score Hc).
      destruct (priority_of (self st1) subject (task_of w method)) as [p|e] eqn:Ep.
      * destruct (priority_of_not_low _ _ Eweak Ew (Hin_task w method) Ep)
          as [->| ->]; auto.
      * exfalso. unfold priority_of, by_weakness_of in Ep.
        rewrite Hc, Eweak, Ew in Ep. destruct (_ && _); discriminate.
    + intros method.
      destruct (prioritize_task_run subject (task_of w method) st1)
        as (st2 & E & _). rewrite E. cbn [fst]. intros Ep.
      destruct (priority_of_not_low _ _ Eweak Ew (Hin_task w method) Ep);
        discriminate.
  - intros d plan st2 Hg.
    apply generate_daily_plan_inv in Hg as (_ & _ & prefs & blocks & _ & _ & -> & F).
    rewrite plan_blocks_daily_plan_of.
    eapply Forall2_Forall_r_in; [|exact F].
    intros subject b Hin
           (areas' & prefs' & focus & method & priority & Ha' & _ & Hf & _ & Hp & ->).
    rewrite Hsubj in Hin. destruct (Hk subject Hin) as (weak & w & Eweak & Ew & Ef).
    rewrite <- Hw in Eweak.
    assert (focus = w) as -> by congruence.
    destruct (priority_of_not_low _ _ Eweak Ew (Hin_task w method) Hp)
      as [->| ->]; [now left | now right].
Qed.

Lemma default_focus_never_low_witness :
  exists weakness,
    Dict.get "History" Sample.weak = Some weakness /\
    prioritize_task "History" (task_of weakness "Flashcards")
      (snd (analyze_student_data (Sample.st Sample.positive))) =
    (Normal "Medium", snd (analyze_student_data (Sample.st Sample.positive))).
Proof.
  destruct (proj1 (@default_focus_never_low (Sample.st Sample.positive)
              (snd (analyze_student_data (Sample.st Sample.positive))) eq_refl)
              "History" (or_intror (or_introl eq_refl)))
    as (weak & areas & w & Hweak & _ & Hw & _ & Hp & _).
  injection Hweak as <-.
  exists w. split; [exact Hw|].
  destruct (Hp "Flashcards" "POSITIVE" (9 # 10)%Q eq_refl) as [H|H]; [|exact H].
  vm_compute in Hw. injection Hw as <-. vm_compute in H. discriminate H.
Defined.

(** C5, as the code has it.  With no subjects, [generate_study_plan]
    raises nothing: it prints "No subjects defined. Please gather student
    info first." and returns; the object, and so its study plan, is
    unchanged. *)
Theorem no_subjects_prints_and_returns st start_date num_days :
  subjects (self st) = [] ->
  generate_study_plan start_date num_days st =
    (Normal tt, printed no_subjects_message st) /\
  study_plan (self (snd (generate_study_plan start_date num_days st))) =
    study_plan (self st).
Proof.
  intros H. unfold generate_study_plan, bind, get_self. rewrite H.
  split; reflexivity.
Qed.

Lemma no_subjects_prints_and_returns_witness :
  generate_study_plan None 7 (mkstate Sample.nobody Sample.earth) =
  (Normal tt, printed no_subjects_message (mkstate Sample.nobody Sample.earth)).
Proof.
  apply (@no_subjects_prints_and_returns (mkstate Sample.nobody Sample.earth)
           None 7 eq_refl).
Defined.

(** C5 as stated fails: with no subjects the call returns normally, no
    exception reaches the caller. *)
Lemma no_subjects_raises_nothing :
  subjects Sample.nobody = [] /\
  ~ exists e,
      fst (generate_study_plan None 7 (mkstate Sample.nobody Sample.earth)) =
      Raise e.
Proof.
  split; [reflexivity|]. intros [e H]. discriminate H.
Qed.

Section Loading.

Variable float_of_string : string -> Q.

(** C8. When the file does not exist, [load_study_plan] returns normally,
    having printed "File not found: {filename}" and nothing else; the
    object is untouched, so its study plan is what it was before the call
    (the empty dictionary on a fresh object). *)
Theorem load_missing_file_keeps_plan st filename :
  Dict.get filename (files (world st)) = None ->
  load_study_plan float_of_string filename st =
    (Normal tt, printed (not_found_message filename) st) /\
  self (snd (load_study_plan float_of_string filename st)) = self st /\
  (forall plan,
     study_plan (self st) = plan ->
     study_plan (self (snd (load_study_plan float_of_string filename st))) =
     plan) /\
  (forall name model,
     self st = init name model ->
     study_plan (self (snd (load_study_plan float_of_string filename st))) =
     VDict []).
Proof.
  intros H.
  assert (E : load_study_plan float_of_string filename st =
              (Normal tt, printed (not_found_message filename) st)).
  { unfold load_study_plan, try_except, bind, read_file. rewrite H. reflexivity. }
  rewrite E. split; [reflexivity|]. split; [reflexivity|]. split.
  - intros plan Hp. exact Hp.
  - intros name model Hi. cbn [snd printed self]. rewrite Hi. reflexivity.
Qed.

End Loading.

Lemma load_missing_file_keeps_plan_witness :
  load_study_plan (fun _ => 0%Q) "alice_study_plan.json"
    (mkstate Sample.nobody Sample.earth) =
  (Normal tt,
   printed (not_found_message "alice_study_plan.json")
     (mkstate Sample.nobody Sample.earth)) /\
  study_plan
    (self (snd (load_study_plan (fun _ => 0%Q) "alice_study_plan.json"
                  (mkstate Sample.nobody Sample.earth)))) = VDict [].
Proof.
  destruct (@load_missing_file_keeps_plan (fun _ => 0%Q)
              (mkstate Sample.nobody Sample.earth)
              "alice_study_plan.json" eq_refl) as (H1 & _ & _ & H4).
  split; [exact H1|]. exact (H4 "Student" Sample.positive eq_refl).
Defined.

Lemma plan_get_update_other k p entries :
  ~ In k (Dict.keys entries) -> plan_get k (plan_update p entries) = plan_get k p.
Proof.
  destruct p; try reflexivity. simpl. apply get_update_other.
Qed.

Lemma plan_keys_update p entries :
  incl (plan_keys p) (plan_keys (plan_update p entries)).
Proof.
  destruct p; try apply incl_refl. simpl. intros k Hk.
  apply in_keys_update. now left.
Qed.

(** C10. [generate_study_plan] only assigns entries of the existing plan:
    whatever the outcome, an entry whose key is not the formatted date of
    one of the [num_days] days from the start date is unchanged, no key
    disappears, and with [num_days <= 0] the plan is unchanged. *)
Theorem generate_study_plan_frame st start_date num_days r st' :
  generate_study_plan start_date num_days st = (r, st') ->
  (forall k,
     ~ In k (map Date.strftime_Ymd
               (Date.days_from (Z.to_nat num_days) (start_of start_date st))) ->
     plan_get k (study_plan (self st')) = plan_get k (study_plan (self st))) /\
  incl (plan_keys (study_plan (self st))) (plan_keys (study_plan (self st'))) /\
  ((num_days <= 0)%Z -> study_plan (self st') = study_plan (self st)).
Proof.
  unfold generate_study_plan, bind, get_self.
  destruct (subjects (self st)) as [|subject rest].
  - intros [= <- <-]. repeat split; auto using incl_refl.
  - assert (Hstart : (match start_date with
                      | Some d => ret d
                      | None => fun st0 => (Normal (today (world st0)), st0)
                      end) st = (Normal (start_of start_date st), st))
      by (destruct start_date; reflexivity).
    rewrite Hstart. intros H.
    pose proof (plan_days_frame _ _ _ H) as (_ & entries & Hself & Hincl).
    split; [|split].
    + rewrite Hself. cbn [study_plan set_study_plan].
      intros k Hk. apply plan_get_update_other. intros Hin. apply Hk, Hincl, Hin.
    + rewrite Hself. cbn [study_plan set_study_plan]. apply plan_keys_update.
    + intros Hle. replace (Z.to_nat num_days) with 0%nat in H by lia.
      injection H as _ <-. reflexivity.
Qed.

Lemma generate_study_plan_frame_witness :
  let st := mkstate (set_study_plan (VDict [("2023-12-31", VStr "kept")])
                       (Sample.alice Sample.positive)) Sample.earth in
  plan_get "2023-12-31"
    (study_plan (self (snd (generate_study_plan None 2 st)))) =
  Some (VStr "kept").
Proof.
  intros st.
  destruct (generate_study_plan None 2 st) as [r st'] eqn:E.
  destruct (generate_study_plan_frame _ _ _ E) as (H & _ & _).
  cbn [snd]. rewrite H; [reflexivity|].
  vm_compute. intros [H1|[H1|[]]]; discriminate H1.
Defined.







(** The example of the specification: two subjects, one hour a day, one
    study method, two days from 2024-01-01. *)
Example two_days_of_alice :
  study_plan (self (snd (generate_study_plan (Some (Date.mkdate 2024 1 1)) 2
                           (Sample.st Sample.positive)))) =
  let day iso :=
    VDict [("date", VStr iso);
           ("study_blocks",
            VList [study_block "Math" half
                     "Review Calculus using Flashcards" "Medium";
                   study_block "History" half
                     "Review Essays using Flashcards" "Medium"]);
           ("environment", VStr "Library");
           ("preferred_time", VStr "Morning")] in
  VDict [("2024-01-01", day "2024-01-01"); ("2024-01-02", day "2024-01-02")].
Proof. reflexivity. Qed.

(** Below the year 1000 the key is not the ISO 8601 string. *)
Example key_of_an_early_year :
  Date.strftime_Ymd (Date.mkdate 999 12 31) = "999-12-31" /\
  Date.isoformat (Date.mkdate 999 12 31) = "0999-12-31".
Proof. split; reflexivity. Qed.

(** ** The [json] round trip *)

Module JsonFacts.

Import Json.

Unset Implicit Arguments.

Lemma append_assoc (a b c : string) : (a ++ b) ++ c = a ++ (b ++ c).
Proof. induction a as [|x a IH]; simpl; [reflexivity | now rewrite IH]. Qed.

Lemma append_nil_r (a : string) : a ++ "" = a.
Proof. induction a as [|x a IH]; simpl; [reflexivity | now rewrite IH]. Qed.

Lemma length_append (a b : string) :
  String.length (a ++ b) = (String.length a + String.length b)%nat.
Proof. induction a as [|x a IH]; simpl; [reflexivity | now rewrite IH]. Qed.

(** *** Strings *)

Lemma scanstring_escape_char c rest :
  scanstring (escape_char c ++ rest) = cons_result c (scanstring rest).
Proof.
  destruct c as [[] [] [] [] [] [] [] []]; reflexivity.
Qed.

Lemma scanstring_escape s rest :
  scanstring (escape s ++ String dquote rest) = Some (s, rest).
Proof.
  induction s as [|c s IH]; [reflexivity|].
  cbn [escape]. rewrite append_assoc, scanstring_escape_char, IH. reflexivity.
Qed.

Lemma scan_once_string fos fuel s rest :
  scan_once fos (S fuel) (encode_string s ++ rest) = Some (VStr s, rest).
Proof.
  unfold encode_string. cbn [append scan_once]. 
  change (Ascii.eqb dquote dquote) with true. cbv iota.
  rewrite append_assoc. cbn [append]. now rewrite scanstring_escape.
Qed.

(** *** Numbers *)

Lemma stops_no_digit rest :
  stops rest = true -> span_digits rest = ("", rest).
Proof.
  destruct rest as [|c rest]; [reflexivity|]. simpl.
  destruct (is_digit c); [discriminate | reflexivity].
Qed.

Lemma span_digits_app rest : stops rest = true -> forall s ds r,
  span_digits s = (ds, r) -> span_digits (s ++ rest) = (ds, r ++ rest).
Proof.
  intros Hr. induction s as [|c s IH]; intros ds r.
  - intros [= <- <-]. now apply stops_no_digit.
  - cbn [span_digits append]. destruct (is_digit c).
    + destruct (span_digits s) as [ds' r'] eqn:E. intros [= <- <-].
      now rewrite (IH _ _ eq_refl).
    + intros [= <- <-]. reflexivity.
Qed.

Lemma span_digits_concat s : forall ds r, span_digits s = (ds, r) -> s = ds ++ r.
Proof.
  induction s as [|c s IH]; intros ds r.
  - intros [= <- <-]. reflexivity.
  - cbn [span_digits]. destruct (is_digit c).
    + destruct (span_digits s) as [ds' r'] eqn:E. intros [= <- <-].
      cbn. f_equal. now apply IH.
    + intros [= <- <-]. reflexivity.
Qed.

Lemma scan_natural_app rest s n r :
  stops rest = true -> scan_natural s = Some (n, r) ->
  scan_natural (s ++ rest) = Some (n, r ++ rest) /\ s = n ++ r.
Proof.
  intros Hr. destruct s as [|c s]; [discriminate|]. cbn [scan_natural append].
  destruct (Ascii.eqb c "0") eqn:E0.
  - apply Ascii.eqb_eq in E0 as ->. intros [= <- <-]. auto.
  - destruct (is_digit c); [|discriminate].
    destruct (span_digits s) as [ds r'] eqn:E. intros [= <- <-].
    rewrite (span_digits_app rest Hr _ _ _ E). split; [reflexivity|].
    cbn. f_equal. now apply span_digits_concat.
Qed.

Lemma scan_integer_app rest s n r :
  stops rest = true -> scan_integer s = Some (n, r) ->
  scan_integer (s ++ rest) = Some (n, r ++ rest) /\ s = n ++ r.
Proof.
  intros Hr. destruct s as [|c s]; [discriminate|]. unfold scan_integer.
  cbn [append]. destruct (Ascii.eqb c "-").
  - destruct (scan_natural s) as [[ds r']|] eqn:E; [|discriminate].
    intros [= <- <-]. destruct (scan_natural_app rest _ _ _ Hr E) as [-> ->].
    auto.
  - intros H. change (String c (s ++ rest)) with (String c s ++ rest).
    now apply scan_natural_app.
Qed.

Lemma scan_frac_app rest s f r :
  stops rest = true -> scan_frac s = (f, r) ->
  scan_frac (s ++ rest) = (f, r ++ rest) /\ s = f ++ r.
Proof.
  intros Hr. destruct s as [|c s].
  - intros [= <- <-]. split; [|reflexivity]. cbn [append].
    destruct rest as [|c rest]; [reflexivity|]. cbn [scan_frac].
    destruct (Ascii.eqb c ".") eqn:Ed; [|reflexivity].
    exfalso. unfold stops in Hr. rewrite Ed in Hr.
    destruct (is_digit c); discriminate Hr.
  - cbn [scan_frac append]. destruct (Ascii.eqb c ".").
    + destruct (span_digits s) as [ds r'] eqn:E.
      rewrite (span_digits_app rest Hr _ _ _ E).
      pose proof (span_digits_concat _ _ _ E) as ->.
      destruct ds; intros [= <- <-]; auto.
    + intros [= <- <-]. auto.
Qed.

Lemma scan_exp_app rest s e :
  stops rest = true -> scan_exp s = (e, "") ->
  scan_exp (s ++ rest) = (e, rest) /\ s = e.
Proof.
  intros Hr. destruct s as [|c s].
  - intros [= <-]. split; [|reflexivity]. cbn [append].
    destruct rest as [|c rest]; [reflexivity|]. cbn [scan_exp].
    destruct (Ascii.eqb c "e" || Ascii.eqb c "E") eqn:Ee; [|reflexivity].
    exfalso. unfold stops in Hr.
    destruct (is_digit c), (Ascii.eqb c "."), (Ascii.eqb c "e"), (Ascii.eqb c "E");
      discriminate.
  - cbn [scan_exp append]. destruct (Ascii.eqb c "e" || Ascii.eqb c "E");
      [|discriminate].
    destruct s as [|sg s]; [discriminate|].
    cbn [append]. destruct (Ascii.eqb sg "-" || Ascii.eqb sg "+").
    + destruct (span_digits s) as [ds r'] eqn:E.
      rewrite (span_digits_app rest Hr _ _ _ E).
      pose proof (span_digits_concat _ _ _ E) as ->.
      destruct ds; intros [= <- ->]; rewrite append_nil_r; auto.
    + destruct (span_digits (String sg s)) as [ds r'] eqn:E.
      change (String sg (s ++ rest)) with (String sg s ++ rest).
      rewrite (span_digits_app rest Hr _ _ _ E).
      pose proof (span_digits_concat _ _ _ E) as Hc. rewrite Hc.
      destruct ds; intros [= <- ->]; rewrite append_nil_r; auto.
Qed.


Lemma scan_number_float fos t rest :
  is_float_token t = true -> stops rest = true ->
  scan_number fos (t ++ rest) = Some (VFloat (fos t), rest).
Proof.
  unfold is_float_token, scan_number. intros Ht Hr.
  destruct (scan_integer t) as [[i r1]|] eqn:Ei; [|discriminate].
  destruct (scan_frac r1) as [f r2] eqn:Ef.
  destruct (scan_exp r2) as [e r3] eqn:Ee.
  apply andb_true_iff in Ht as [H3 Hfe]. apply String.eqb_eq in H3. subst r3.
  destruct (scan_integer_app rest _ _ _ Hr Ei) as [-> ->].
  destruct (scan_frac_app rest _ _ _ Hr Ef) as [-> ->].
  destruct (scan_exp_app rest _ _ Hr Ee) as [-> ->].
  destruct f, e; try discriminate Hfe; rewrite ?append_nil_r; reflexivity.
Qed.

Lemma stops_scan_frac rest : stops rest = true -> scan_frac rest = ("", rest).
Proof. intros Hr. exact (proj1 (scan_frac_app rest "" "" "" Hr eq_refl)). Qed.

Lemma stops_scan_exp rest : stops rest = true -> scan_exp rest = ("", rest).
Proof. intros Hr. exact (proj1 (scan_exp_app rest "" "" Hr eq_refl)). Qed.

Lemma scan_number_int fos t rest :
  is_integer_token t = true -> stops rest = true ->
  scan_number fos (t ++ rest) = Some (VInt (int_of_string t), rest).
Proof.
  unfold is_integer_token, scan_number. intros Ht Hr.
  destruct (scan_integer t) as [[i r1]|] eqn:Ei; [|discriminate].
  apply String.eqb_eq in Ht. subst r1.
  destruct (scan_integer_app rest _ _ _ Hr Ei) as [-> ->].
  cbn [append]. rewrite (stops_scan_frac rest Hr), (stops_scan_exp rest Hr).
  now rewrite append_nil_r.
Qed.

(** A number token starts with a digit or a minus sign, so [scan_once]
    hands it to the number scanner. *)
Lemma scan_integer_head t i r :
  scan_integer t = Some (i, r) ->
  exists c t', t = String c t' /\ (is_digit c || Ascii.eqb c "-") = true.
Proof.
  destruct t as [|c t]; [discriminate|]. intros H. exists c, t.
  split; [reflexivity|]. unfold scan_integer, scan_natural in H.
  destruct (Ascii.eqb c "-"); [apply orb_true_r|].
  destruct (Ascii.eqb c "0") eqn:E0;
    [apply Ascii.eqb_eq in E0; subst c; reflexivity|].
  destruct (is_digit c); [reflexivity | discriminate].
Qed.

Lemma scan_once_number fos fuel c t :
  (is_digit c || Ascii.eqb c "-") = true ->
  scan_once fos (S fuel) (String c t) = scan_number fos (String c t).
Proof.
  destruct c as [[] [] [] [] [] [] [] []]; try discriminate; intros _; reflexivity.
Qed.

Lemma scan_once_float fos fuel t rest :
  is_float_token t = true -> stops rest = true ->
  scan_once fos (S fuel) (t ++ rest) = Some (VFloat (fos t), rest).
Proof.
  intros Ht Hr. rewrite <- (scan_number_float fos t rest Ht Hr).
  unfold is_float_token in Ht.
  destruct (scan_integer t) as [[i r1]|] eqn:Ei; [|discriminate].
  destruct (scan_integer_head _ _ _ Ei) as (c & t' & -> & Hc).
  cbn [append]. now apply scan_once_number.
Qed.

Lemma scan_once_int fos fuel t rest :
  is_integer_token t = true -> stops rest = true ->
  scan_once fos (S fuel) (t ++ rest) = Some (VInt (int_of_string t), rest).
Proof.
  intros Ht Hr. rewrite <- (scan_number_int fos t rest Ht Hr).
  unfold is_integer_token in Ht.
  destruct (scan_integer t) as [[i r1]|] eqn:Ei; [|discriminate].
  destruct (scan_integer_head _ _ _ Ei) as (c & t' & -> & Hc).
  cbn [append]. now apply scan_once_number.
Qed.

(** *** Integers *)

Lemma span_digits_uint u :
  span_digits (DecimalString.NilEmpty.string_of_uint u) =
  (DecimalString.NilEmpty.string_of_uint u, "").
Proof.
  induction u; cbn [DecimalString.NilEmpty.string_of_uint span_digits];
    try reflexivity;
    match goal with
    | |- context [is_digit ?c] => change (is_digit c) with true
    end; cbv iota; now rewrite IHu.
Qed.

Lemma to_uint_normal p : Decimal.unorm (Pos.to_uint p) = Pos.to_uint p.
Proof.
  rewrite <- DecimalPos.Unsigned.to_of, DecimalPos.Unsigned.of_to. reflexivity.
Qed.

Lemma scan_natural_to_uint p :
  scan_natural (DecimalString.NilZero.string_of_uint (Pos.to_uint p)) =
  Some (DecimalString.NilZero.string_of_uint (Pos.to_uint p), "").
Proof.
  pose proof (to_uint_normal p) as Hn.
  pose proof (DecimalPos.Unsigned.to_uint_nonzero p) as Hz.
  pose proof (DecimalPos.Unsigned.to_uint_nonnil p) as Hnil.
  destruct (Pos.to_uint p) as [|u|u|u|u|u|u|u|u|u|u]; try congruence;
    cbn [DecimalString.NilZero.string_of_uint
         DecimalString.NilEmpty.string_of_uint scan_natural];
    try (match goal with
         | |- context [is_digit ?c] => change (is_digit c) with true
         end;
         match goal with
         | |- context [Ascii.eqb ?c "0"] => change (Ascii.eqb c "0") with false
         end; cbv iota; now rewrite span_digits_uint).
  exfalso. unfold Decimal.unorm in Hn. cbn [Decimal.nzhead] in Hn.
  destruct (Decimal.nzhead u) eqn:E; try discriminate Hn.
  - apply Hz. exact (eq_sym Hn).
  - injection Hn as Hn. subst u. exact (DecimalFacts.nzhead_nonzero _ _ E).
Qed.

Lemma int_repr_token z : is_integer_token (int_repr z) = true.
Proof.
  unfold is_integer_token, int_repr, scan_integer.
  destruct z as [|p|p]; [reflexivity| |].
  - cbn [Z.to_int DecimalString.NilZero.string_of_int].
    pose proof (scan_natural_to_uint p) as H.
    destruct (DecimalString.NilZero.string_of_uint (Pos.to_uint p)) as [|c s] eqn:E;
      [discriminate H|].
    destruct (Ascii.eqb c "-") eqn:Ec; [|rewrite H; reflexivity].
    apply Ascii.eqb_eq in Ec. subst c. discriminate H.
  - cbn [Z.to_int DecimalString.NilZero.string_of_int].
    change (Ascii.eqb "-" "-") with true. cbv iota.
    rewrite scan_natural_to_uint. reflexivity.
Qed.

Lemma int_of_string_repr z : int_of_string (int_repr z) = z.
Proof.
  unfold int_of_string, int_repr.
  rewrite DecimalString.NilZero.isi.
  - apply DecimalZ.of_to.
  - destruct z as [|p|p]; try discriminate. cbn. intros [= H].
    exact (DecimalPos.Unsigned.to_uint_nonnil p H).
  - destruct z as [|p|p]; try discriminate. cbn. intros [= H].
    exact (DecimalPos.Unsigned.to_uint_nonnil p H).
Qed.


(** *** Documents *)


Lemma iterencode_list frepr level x xs :
  iterencode frepr level (VList (x :: xs)) =
  "[" ++ newline_indent (S level) ++ iterencode frepr (S level) x ++
  items_text frepr (S level) xs ++ newline_indent level ++ "]".
Proof.
  cbn [iterencode]. do 4 f_equal.
  induction xs as [|y xs IH]; [reflexivity|]. cbn [items_text].
  do 3 f_equal. exact IH.
Qed.

Lemma iterencode_dict frepr level k x kxs :
  iterencode frepr level (VDict ((k, x) :: kxs)) =
  "{" ++ newline_indent (S level) ++ encode_string k ++ ": " ++
  iterencode frepr (S level) x ++
  members_text frepr (S level) kxs ++ newline_indent level ++ "}".
Proof.
  cbn [iterencode]. do 6 f_equal.
  induction kxs as [|[k' y] kxs IH]; [reflexivity|]. cbn [members_text].
  do 5 f_equal. exact IH.
Qed.


Lemma need_list l : need (VList l) = S (items_need l).
Proof.
  reflexivity.
Qed.

Lemma need_dict d : need (VDict d) = S (members_need d).
Proof.
  cbn [need]. f_equal. induction d as [|[k x] d IH]; [reflexivity|].
  cbn [members_need fold_right snd]. now rewrite IH.
Qed.

Lemma skip_ws_spaces n s : skip_ws (spaces n ++ s) = skip_ws s.
Proof. induction n as [|n IH]; [reflexivity | exact IH]. Qed.

Lemma skip_ws_newline_indent level s :
  skip_ws (newline_indent level ++ s) = skip_ws s.
Proof. unfold newline_indent. cbn. apply skip_ws_spaces. Qed.

Lemma opens_number c s :
  (is_digit c || Ascii.eqb c "-") = true -> opens (String c s).
Proof.
  intros H. exists c, s. split; [reflexivity|]. revert H.
  destruct c as [[] [] [] [] [] [] [] []]; try discriminate; intros _; auto.
Qed.

Lemma opens_app s rest : opens s -> opens (s ++ rest).
Proof. intros (c & s' & -> & H). now exists c, (s' ++ rest). Qed.

Lemma skip_ws_opens s : opens s -> skip_ws s = s.
Proof. intros (c & s' & -> & H & _). cbn. now rewrite H. Qed.

Section ReadBack.

Variable float_repr : Q -> string.
Variable float_of_string : string -> Q.

Lemma iterencode_opens level v :
  storable float_repr float_of_string v ->
  opens (iterencode float_repr level v).
Proof.
  intros Hs. destruct v as [| [] | z | q | s | [|x xs] | [|[k x] kxs]];
    try (eexists; eexists; split; [reflexivity | auto]).
  - pose proof (int_repr_token z) as H. unfold is_integer_token in H.
    cbn [iterencode].
    destruct (scan_integer (int_repr z)) as [[i r]|] eqn:E; [|discriminate].
    destruct (scan_integer_head _ _ _ E) as (c & t & -> & Hc).
    now apply opens_number.
  - inversion Hs as [| | |? H _| | |]; subst. unfold is_float_token in H.
    cbn [iterencode].
    destruct (scan_integer (float_repr q)) as [[i r]|] eqn:E; [|discriminate].
    destruct (scan_integer_head _ _ _ E) as (c & t & -> & Hc).
    now apply opens_number.
Qed.

Lemma stops_items level l rest :
  stops (items_text float_repr (S level) l ++ newline_indent level ++ rest) = true.
Proof. destruct l; reflexivity. Qed.

Lemma stops_members level l rest :
  stops (members_text float_repr (S level) l ++ newline_indent level ++ rest) = true.
Proof. destruct l as [|[k x] l]; reflexivity. Qed.

Lemma elements_items xs : forall x level fuel rest,
  Forall (reads_back float_repr float_of_string) (x :: xs) ->
  Forall (storable float_repr float_of_string) (x :: xs) ->
  items_need (x :: xs) <= fuel ->
  elements float_of_string fuel
    (iterencode float_repr (S level) x ++ items_text float_repr (S level) xs ++
     newline_indent level ++ String "]" rest) = Some (x :: xs, rest).
Proof.
  induction xs as [|y ys IH]; intros x level fuel rest Hr Hs Hn;
    inversion Hr as [|? ? Hx Hr']; inversion Hs as [|? ? Sx Hs']; subst;
    cbn [items_need fold_right] in Hn;
    (destruct fuel as [|fuel]; [lia|]); cbn [elements].
  all: rewrite (Hx (S level) fuel _ (stops_items level _ _)); [|lia].
  - cbn [items_text append]. rewrite skip_ws_newline_indent. reflexivity.
  - cbn [items_text]. rewrite !append_assoc. cbn [append skip_ws].
    change (is_ws ",") with false. cbv iota.
    change (Ascii.eqb "," "]") with false. change (Ascii.eqb "," ",") with true.
    cbv iota. rewrite skip_ws_newline_indent.
    inversion Hs' as [|? ? Sy _]; subst.
    rewrite skip_ws_opens by (apply opens_app, iterencode_opens, Sy).
    rewrite (IH y level fuel rest Hr' Hs'); [reflexivity|].
    cbn [items_need fold_right]. lia.
Qed.

Lemma opens_encode_string k rest : opens (encode_string k ++ rest).
Proof. eexists; eexists; split; [reflexivity | auto]. Qed.

Lemma members_items kxs : forall k x level fuel rest,
  Forall (fun kx => (reads_back float_repr float_of_string) (snd kx)) ((k, x) :: kxs) ->
  Forall (fun kx => storable float_repr float_of_string (snd kx)) ((k, x) :: kxs) ->
  members_need ((k, x) :: kxs) <= fuel ->
  members float_of_string fuel
    (encode_string k ++ ": " ++ iterencode float_repr (S level) x ++
     members_text float_repr (S level) kxs ++
     newline_indent level ++ String "}" rest) = Some ((k, x) :: kxs, rest).
Proof.
  induction kxs as [|[k' y] kxs IH]; intros k x level fuel rest Hr Hs Hn;
    inversion Hr as [|? ? Hx Hr']; inversion Hs as [|? ? Sx Hs']; subst;
    cbn [members_need fold_right snd] in *;
    (destruct fuel as [|fuel]; [lia|]);
    unfold encode_string; cbn [append members];
    change (Ascii.eqb dquote dquote) with true; cbv iota;
    rewrite append_assoc; cbn [append]; rewrite scanstring_escape;
    cbn [skip_ws]; change (is_ws ":") with false; cbv iota;
    change (Ascii.eqb ":" ":") with true; cbv iota;
    cbn [skip_ws]; change (is_ws " ") with true; cbv iota;
    rewrite skip_ws_opens by (apply opens_app, iterencode_opens, Sx);
    (rewrite (Hx (S level) fuel _ (stops_members level _ _)); [|lia]).
  - cbn [members_text append]. rewrite skip_ws_newline_indent. reflexivity.
  - cbn [members_text]. rewrite !append_assoc. cbn [append skip_ws].
    change (is_ws ",") with false. cbv iota.
    change (Ascii.eqb "," "}") with false. change (Ascii.eqb "," ",") with true.
    cbv iota. rewrite skip_ws_newline_indent.
    rewrite skip_ws_opens by apply opens_encode_string.
    change (String ":" (String " " ?r)) with (": " ++ r).
    rewrite (IH k' y level fuel rest Hr' Hs'); [reflexivity|].
    cbn [members_need fold_right snd]. lia.
Qed.

(** Every storable value reads back from its encoding. *)
Lemma storable_reads_back v :
  storable float_repr float_of_string v -> (reads_back float_repr float_of_string) v.
Proof.
  induction v as [| b | z | q | s | l IH | d IH] using value_nested_ind;
    intros Hs level fuel rest Hr Hn;
    (destruct fuel as [|fuel]; [cbn in Hn; lia|]).
  - reflexivity.
  - destruct b; reflexivity.
  - cbn [iterencode].
    rewrite (scan_once_int float_of_string fuel _ rest (int_repr_token z) Hr).
    now rewrite int_of_string_repr.
  - inversion Hs as [| | |? Ht Hq| | |]; subst. cbn [iterencode].
    rewrite (scan_once_float float_of_string fuel _ rest Ht Hr).
    now rewrite Hq.
  - apply scan_once_string.
  - inversion Hs as [| | | | |? Hl|]; subst.
    destruct l as [|x xs]; [reflexivity|].
    rewrite need_list in Hn.
    assert (IH' : Forall (reads_back float_repr float_of_string) (x :: xs)).
    { clear - IH Hl. induction IH as [|y l Hy _ IHl]; [constructor|].
      inversion Hl; subst. constructor; auto. }
    rewrite iterencode_list, !append_assoc. cbn [append scan_once].
    change (Ascii.eqb "[" dquote) with false. change (Ascii.eqb "[" "{") with false.
    change (Ascii.eqb "[" "[") with true. cbv iota.
    rewrite skip_ws_newline_indent.
    inversion Hl as [|? ? Sx _]; subst.
    destruct (iterencode_opens (S level) x Sx) as (c & s' & Ec & Hw & Hb & _).
    rewrite Ec. cbn [append skip_ws]. rewrite Hw, Hb.
    change (String c (s' ++ ?r)) with (String c s' ++ r).
    rewrite <- Ec.
    rewrite (elements_items xs x level fuel rest IH' Hl); [reflexivity | lia].
  - inversion Hs as [| | | | | |? Hk Hd]; subst.
    destruct d as [|[k x] kxs]; [reflexivity|].
    rewrite need_dict in Hn.
    assert (IH' : Forall (fun kx => (reads_back float_repr float_of_string) (snd kx)) ((k, x) :: kxs)).
    { clear - IH Hd. induction IH as [|y l Hy _ IHl]; [constructor|].
      inversion Hd; subst. constructor; auto. }
    rewrite iterencode_dict, !append_assoc. cbn [append scan_once].
    change (Ascii.eqb "{" dquote) with false. change (Ascii.eqb "{" "{") with true.
    cbv iota. rewrite skip_ws_newline_indent.
    rewrite skip_ws_opens by apply opens_encode_string.
    unfold encode_string at 1. cbn [append].
    change (Ascii.eqb dquote "}") with false. cbv iota.
    change (String dquote ((escape k ++ String dquote "") ++ ?r))
      with (encode_string k ++ r).
    change (String ":" (String " " ?r)) with (": " ++ r).
    rewrite (members_items kxs k x level fuel rest IH' Hd); [|lia].
    now rewrite (of_pairs_NoDup _ Hk).
Qed.

Lemma float_token_nonempty t : is_float_token t = true -> 1 <= String.length t.
Proof.
  unfold is_float_token. destruct t; [discriminate|]. cbn. lia.
Qed.

Lemma integer_token_nonempty t : is_integer_token t = true -> 1 <= String.length t.
Proof.
  unfold is_integer_token. destruct t; [discriminate|]. cbn. lia.
Qed.

Lemma newline_indent_length level : 1 <= String.length (newline_indent level).
Proof. cbn. lia. Qed.

(** The fuel [loads] starts with is enough for what [dumps] wrote. *)
Lemma need_le_length v :
  storable float_repr float_of_string v ->
  forall level, need v <= String.length (iterencode float_repr level v).
Proof.
  induction v as [| b | z | q | s | l IH | d IH] using value_nested_ind;
    intros Hs level.
  - cbn. lia.
  - destruct b; cbn; lia.
  - apply (integer_token_nonempty _ (int_repr_token z)).
  - inversion Hs as [| | |? Ht _| | |]; subst. now apply float_token_nonempty.
  - cbn. lia.
  - inversion Hs as [| | | | |? Hl|]; subst.
    destruct l as [|x xs]; [cbn; lia|].
    rewrite need_list, iterencode_list. rewrite !length_append.
    pose proof (newline_indent_length (S level)).
    assert (Hi : items_need xs <=
                 String.length (items_text float_repr (S level) xs)).
    { inversion IH as [|? ? _ IHxs]; inversion Hl as [|? ? _ Hxs]; subst.
      clear - IHxs Hxs. induction IHxs as [|y l Hy _ IHl]; [cbn; lia|].
      inversion Hxs; subst. cbn [items_need fold_right items_text].
      rewrite !length_append. pose proof (newline_indent_length (S level)).
      specialize (Hy ltac:(assumption) (S level)).
      specialize (IHl ltac:(assumption)). unfold items_need in IHl.
      cbn [String.length]. lia. }
    inversion IH as [|? ? Hx _]; inversion Hl as [|? ? Sx _]; subst.
    specialize (Hx Sx (S level)). cbn [items_need fold_right].
    unfold items_need in Hi. cbn [String.length]. lia.
  - inversion Hs as [| | | | | |? Hk Hd]; subst.
    destruct d as [|[k x] kxs]; [cbn; lia|].
    rewrite need_dict, iterencode_dict. rewrite !length_append.
    pose proof (newline_indent_length (S level)).
    assert (Hi : members_need kxs <=
                 String.length (members_text float_repr (S level) kxs)).
    { inversion IH as [|? ? _ IHxs]; inversion Hd as [|? ? _ Hxs]; subst.
      clear - IHxs Hxs. induction IHxs as [|[k' y] l Hy _ IHl]; [cbn; lia|].
      inversion Hxs; subst. cbn [members_need fold_right members_text snd] in *.
      rewrite !length_append. pose proof (newline_indent_length (S level)).
      specialize (Hy ltac:(assumption) (S level)).
      specialize (IHl ltac:(assumption)). unfold members_need in IHl.
      cbn [String.length]. lia. }
    inversion IH as [|? ? Hx _]; inversion Hd as [|? ? Sx _]; subst.
    cbn [snd] in *. specialize (Hx Sx (S level)).
    cbn [members_need fold_right snd].
    unfold members_need in Hi. cbn [String.length]. lia.
Qed.

(** [json.loads(json.dumps(v, indent=4)) == v] *)
Lemma loads_dumps v :
  storable float_repr float_of_string v ->
  loads float_of_string (dumps float_repr v) = Normal v.
Proof.
  intros Hs. unfold loads, dumps.
  rewrite skip_ws_opens by now apply iterencode_opens.
  rewrite <- (append_nil_r (iterencode float_repr 0 v)) at 2.
  rewrite (storable_reads_back v Hs 0 _ "" eq_refl); [reflexivity|].
  pose proof (need_le_length v Hs 0). lia.
Qed.

End ReadBack.

End JsonFacts.

Set Implicit Arguments.

Import Json JsonFacts.

(** ** Persistence *)

Section SaveLoad.

Variable float_repr : Q -> string.
Variable float_of_string : string -> Q.

Lemma storable_set k v d :
  storable float_repr float_of_string (VDict d) ->
  storable float_repr float_of_string v ->
  storable float_repr float_of_string (VDict (Dict.set k v d)).
Proof.
  intros Hd Hv. inversion Hd as [| | | | | |? Hk Hf]; subst.
  constructor; [now apply NoDup_keys_set|].
  clear Hk Hd. induction Hf as [|[k' v'] d Hx Hf IH]; cbn [Dict.set].
  - repeat constructor. exact Hv.
  - destruct (String.eqb k k'); constructor; auto.
Qed.

Lemma storable_update entries : forall d,
  storable float_repr float_of_string (VDict d) ->
  Forall (fun kx => storable float_repr float_of_string (snd kx)) entries ->
  storable float_repr float_of_string (VDict (Dict.update d entries)).
Proof.
  induction entries as [|[k v] entries IH]; intros d Hd He; [exact Hd|].
  inversion He; subst. rewrite update_cons. apply IH; [|assumption].
  now apply storable_set.
Qed.

Lemma NoDup_four (a b c d : string) :
  a <> b -> a <> c -> a <> d -> b <> c -> b <> d -> c <> d -> NoDup [a; b; c; d].
Proof.
  intros. repeat constructor; simpl; intuition congruence.
Qed.

(** The daily plans of an object whose time per subject has a token that
    reads back can be stored. *)
Lemma generate_daily_plan_storable d st plan st' :
  time_storable float_repr float_of_string (self st) ->
  generate_daily_plan d st = (Normal plan, st') ->
  storable float_repr float_of_string plan.
Proof.
  intros Ht Hg.
  apply generate_daily_plan_inv in Hg as (_ & _ & prefs & blocks & Hp & _ & -> & F).
  specialize (Ht prefs Hp).
  constructor; [apply NoDup_four; discriminate|].
  repeat constructor.
  eapply Forall2_Forall_r; [|exact F].
  intros subject b (? & ? & focus & method & priority & _ & _ & _ & _ & _ & ->).
  constructor; [apply NoDup_four; discriminate|].
  repeat first [exact Ht | constructor].
Qed.

Lemma plan_days_storable n : forall d st r st',
  time_storable float_repr float_of_string (self st) ->
  storable float_repr float_of_string (study_plan (self st)) ->
  plan_days n d st = (r, st') ->
  storable float_repr float_of_string (study_plan (self st')).
Proof.
  induction n as [|n IH]; intros d st r st' Ht Hp.
  - intros [= <- <-]. exact Hp.
  - cbn [plan_days]. unfold bind at 1.
    destruct (generate_daily_plan d st) as [[plan|e] st1] eqn:Eg.
    2:{ apply generate_daily_plan_same in Eg as [Es _].
        intros [= <- <-]. now rewrite Es. }
    pose proof (@generate_daily_plan_storable _ _ _ _ Ht Eg) as Hplan.
    apply generate_daily_plan_same in Eg as [Es _].
    unfold bind at 1.
    pose proof (setitem_study_plan_run (Date.strftime_Ymd d) plan st1) as Hset.
    rewrite Es in Hset.
    destruct (study_plan (self st)) as [| | | | | |d0] eqn:Ep;
      try (rewrite Hset; intros [= <- <-]; rewrite Es, Ep; exact Hp).
    rewrite Hset. cbv beta iota. unfold bind at 1, lift.
    destruct (Date.add_one_day d) as [d1|e].
    + apply IH; cbn [self]; [exact Ht | now apply storable_set].
    + intros [= <- <-]. cbn [self study_plan set_study_plan].
      now apply storable_set.
Qed.

(** What [generate_study_plan] adds to a storable plan keeps it storable. *)
Lemma generate_study_plan_storable start_date num_days st r st' :
  time_storable float_repr float_of_string (self st) ->
  storable float_repr float_of_string (study_plan (self st)) ->
  generate_study_plan start_date num_days st = (r, st') ->
  storable float_repr float_of_string (study_plan (self st')).
Proof.
  intros Ht Hp. unfold generate_study_plan, bind, get_self.
  destruct (subjects (self st)).
  - intros [= <- <-]. exact Hp.
  - destruct start_date; cbn [ret]; now apply plan_days_storable.
Qed.

(** C7. Saving a study plan and loading the file back, into the same or
    any other object, gives that object an equal study plan: the same keys
    in the same order, the same blocks and fields.  The plan is any value
    of this model (None, booleans, integers, floats that are numbers,
    strings of code points below 256, lists, dictionaries with string
    keys) whose dictionaries have distinct keys and whose floats are
    written by [float.__repr__] as number tokens that [float()] reads
    back.  The plans that [generate_study_plan] builds are of this kind:
    from such a plan, the empty one for instance, every call leaves such a
    plan, provided the one float it stores, the time per subject, is
    written as a token that reads back. *)
Theorem save_then_load_round_trip st filename :
  (storable float_repr float_of_string (study_plan (self st)) ->
   Json.loads float_of_string (Json.dumps float_repr (study_plan (self st))) =
     Normal (study_plan (self st)) /\
   fst (save_study_plan float_repr filename st) = Normal tt /\
   self (snd (save_study_plan float_repr filename st)) = self st /\
   forall other,
     load_study_plan float_of_string filename
       (mkstate other (world (snd (save_study_plan float_repr filename st)))) =
     (Normal tt,
      printed (loaded_message filename)
        (mkstate (set_study_plan (study_plan (self st)) other)
           (world (snd (save_study_plan float_repr filename st)))))) /\
  (forall st0 start_date num_days r,
     storable float_repr float_of_string (study_plan (self st0)) ->
     (forall prefs,
        study_preferences (self st0) = Some prefs ->
        storable float_repr float_of_string
          (VFloat (time_per_subject_of prefs (self st0)))) ->
     generate_study_plan start_date num_days st0 = (r, st) ->
     storable float_repr float_of_string (study_plan (self st))).
Proof.
  split.
  - intros Hs.
    pose proof (loads_dumps float_repr float_of_string _ Hs) as Hl.
    split; [exact Hl|]. split; [reflexivity|]. split; [reflexivity|].
    intros other.
    unfold load_study_plan, try_except, bind, read_file.
    cbn [save_study_plan snd world files set_files set_stdout printed
         bind get_self write_file modify_world print self fst].
    rewrite get_set_eq. unfold lift. rewrite Hl. reflexivity.
  - intros st0 start_date num_days r Hp Ht Hg.
    exact (@generate_study_plan_storable _ _ _ _ _ Ht Hp Hg).
Qed.

End SaveLoad.

Lemma save_then_load_round_trip_witness :
  (* two subjects, three hours: 1.5 hours each *)
  (let st := snd (generate_study_plan (Some (Date.mkdate 2024 1 1)) 2
                    (mkstate Sample.dave Sample.earth)) in
   let saved := save_study_plan Sample.float_repr "alice_study_plan.json" st in
   plan_keys (study_plan (self st)) = ["2024-01-01"; "2024-01-02"] /\
   load_study_plan Sample.float_of_string "alice_study_plan.json"
     (mkstate Sample.nobody (world (snd saved))) =
   (Normal tt,
    printed (loaded_message "alice_study_plan.json")
      (mkstate (set_study_plan (study_plan (self st)) Sample.nobody)
         (world (snd saved))))) /\
  (* three subjects, two hours: two thirds of an hour each, as a float *)
  (let st := snd (generate_study_plan (Some (Date.mkdate 2024 1 1)) 2
                    (mkstate Sample.erin Sample.earth)) in
   let saved := save_study_plan Sample.float_repr "alice_study_plan.json" st in
   Forall (fun b => block_time b = Some (6004799503160661 # 9007199254740992)%Q)
     (match plan_get "2024-01-01" (study_plan (self st)) with
      | Some day => plan_blocks day
      | None => []
      end) /\
   load_study_plan Sample.float_of_string "alice_study_plan.json"
     (mkstate Sample.nobody (world (snd saved))) =
   (Normal tt,
    printed (loaded_message "alice_study_plan.json")
      (mkstate (set_study_plan (study_plan (self st)) Sample.nobody)
         (world (snd saved))))).
Proof.
  split.
  - intros st saved. split; [reflexivity|].
    destruct (@save_then_load_round_trip Sample.float_repr
                Sample.float_of_string st "alice_study_plan.json") as [H1 H2].
    refine (proj2 (proj2 (proj2 (H1 _))) _).
    apply (H2 (mkstate Sample.dave Sample.earth) (Some (Date.mkdate 2024 1 1)) 2%Z
              (fst (generate_study_plan (Some (Date.mkdate 2024 1 1)) 2
                      (mkstate Sample.dave Sample.earth)))).
    + constructor; constructor.
    + intros prefs [= <-]. constructor; vm_compute; reflexivity.
    + unfold st. now destruct (generate_study_plan _ _ _).
  - intros st saved. split; [vm_compute; repeat constructor|].
    destruct (@save_then_load_round_trip Sample.float_repr
                Sample.float_of_string st "alice_study_plan.json") as [H1 H2].
    refine (proj2 (proj2 (proj2 (H1 _))) _).
    apply (H2 (mkstate Sample.erin Sample.earth) (Some (Date.mkdate 2024 1 1)) 2%Z
              (fst (generate_study_plan (Some (Date.mkdate 2024 1 1)) 2
                      (mkstate Sample.erin Sample.earth)))).
    + constructor; constructor.
    + intros prefs [= <-]. constructor; vm_compute; reflexivity.
    + unfold st. now destruct (generate_study_plan _ _ _).
Defined.

(** * Further properties *)

(** ** Priorities and daily plans *)

Lemma above_threshold_spec score :
  match score with
  | VBool _ | VInt _ | VFloat _ =>
      exists b, (forall st, above_threshold score st = (Normal b, st)) /\
                (b = true <-> score_above score)
  | _ => forall st, above_threshold score st = (Raise TypeError, st)
  end.
Proof.
  destruct score as [|b|z|q|s|l|d]; try reflexivity; cbn [above_threshold score_above].
  - exists b. split; [reflexivity | tauto].
  - exists (Z.leb 1 z). split; [reflexivity | apply Z.leb_le].
  - exists (negb (Qle_bool q threshold)). split; [reflexivity|].
    rewrite negb_true_iff. split.
    + intros E. apply Qnot_le_lt. intros L. apply Qle_bool_iff in L. congruence.
    + intros L. destruct (Qle_bool q threshold) eqn:E; [|reflexivity].
      apply Qle_bool_iff in E. apply Qle_not_lt in E. contradiction.
Qed.

(** The value of [prioritize_task] by cases on the classifier. *)
Lemma priority_of_cases s subject task :
  (falls_through (nlp_model s task) /\
   priority_of s subject task = by_weakness_of s subject task) \/
  (~ falls_through (nlp_model s task) /\
   ((incomparable_score s /\ priority_of s subject task = Raise TypeError) \/
    priority_of s subject task = Normal "High" \/
    priority_of s subject task = Normal "Medium")).
Proof.
  unfold priority_of, incomparable_score.
  destruct (nlp_model s task) as [label score|msg|label score] eqn:E;
    cbn [falls_through].
  - destruct (String.eqb label "NEGATIVE" && negb (Qle_bool score threshold))
      eqn:Es.
    + right. apply strong_reflect in Es. split; [tauto | auto].
    + left. split; [|reflexivity]. intros Hn. apply strong_reflect in Hn.
      congruence.
  - right. split; [tauto | auto].
  - destruct (is_NEGATIVE label) eqn:El; [|left; auto].
    destruct score as [|b|z|q|x|l|d];
      try (right; split;
           [intros [H|[H _]]; discriminate H
           |left; split; [exists task; eauto | reflexivity]]).
    + destruct b.
      * right. split; [|auto]. intros [H|[_ H]]; [discriminate | now apply H].
      * left. split; [|reflexivity]. right. split; [reflexivity | discriminate].
    + destruct (Z.leb_spec 1 z) as [L|L].
      * right. split; [|auto]. intros [H|[_ H]]; [discriminate | now apply H].
      * left. split; [|reflexivity]. right. split; [reflexivity|].
        cbn [score_above]. lia.
    + destruct (Qle_bool q threshold) eqn:Eq.
      * left. split; [|reflexivity]. right. split; [reflexivity|].
        cbn [score_above]. apply Qle_bool_iff in Eq. now apply Qle_not_lt.
      * right. split; [|auto]. intros [H|[_ H]]; [discriminate|]. apply H.
        cbn [score_above]. apply Qnot_le_lt. intros L.
        apply Qle_bool_iff in L. congruence.
Qed.

Lemma by_weakness_of_cases s subject task :
  by_weakness_of s subject task = Normal "Medium" \/
  by_weakness_of s subject task = Normal "Low" \/
  (by_weakness_of s subject task = Raise (AttributeError "weaknesses") /\
   weaknesses s = None) \/
  (by_weakness_of s subject task = Raise (KeyError subject) /\
   exists weak, weaknesses s = Some weak /\ Dict.get subject weak = None).
Proof.
  unfold by_weakness_of. destruct (weaknesses s) as [weak|]; [|auto].
  destruct (Dict.get subject weak) as [w|] eqn:E.
  - destruct (str_in w task); auto.
  - right. right. right. eauto.
Qed.

Lemma by_weakness_of_typed s subject task :
  by_weakness_of s subject task <> Raise TypeError.
Proof.
  destruct (by_weakness_of_cases s subject task) as [B|[B|[[B _]|[B _]]]];
    rewrite B; discriminate.
Qed.

Lemma priority_of_TypeError s subject task :
  priority_of s subject task = Raise TypeError <->
  exists label score,
    nlp_model s task = Answered label score /\
    is_NEGATIVE label = true /\ numeric score = false.
Proof.
  pose proof (@by_weakness_of_typed s subject task) as B.
  unfold priority_of.
  destruct (nlp_model s task) as [label score|msg|label score].
  - split; [|intros (? & ? & H & _); discriminate H].
    destruct (_ && _); [discriminate | contradiction].
  - split; [discriminate | intros (? & ? & H & _); discriminate H].
  - destruct (is_NEGATIVE label) eqn:El.
    + destruct score as [|b|z|q|x|l|d];
        try (split; [intros _; exists label; eauto | reflexivity]).
      * split; [destruct b; [discriminate | contradiction]|].
        intros (? & ? & [= <- <-] & _ & Hn). discriminate Hn.
      * split; [destruct (Z.leb 1 z); [discriminate | contradiction]|].
        intros (? & ? & [= <- <-] & _ & Hn). discriminate Hn.
      * split; [destruct (Qle_bool q threshold); [contradiction | discriminate]|].
        intros (? & ? & [= <- <-] & _ & Hn). discriminate Hn.
    + split; [contradiction|].
      intros (? & ? & [= <- <-] & El' & _). congruence.
Qed.

(** X1. [prioritize_task] returns one of the three priorities or raises
    one of three exceptions, and nothing else.  It raises [TypeError]
    exactly when the classifier answers the task with [NEGATIVE] and a
    score that is not a number.  When the classifier answered, and not
    with [NEGATIVE] and a score above 0.7, the weakness of the subject is
    looked up: the call raises [AttributeError] exactly when this happens
    and [self.weaknesses] does not exist, and [KeyError(subject)] exactly
    when it happens and [self.weaknesses] has no entry for the subject.
    It never touches the object, the files or the random generator. *)
Theorem prioritize_task_outcomes subject task st :
  self (snd (prioritize_task subject task st)) = self st /\
  files (world (snd (prioritize_task subject task st))) = files (world st) /\
  rng_pos (world (snd (prioritize_task subject task st))) = rng_pos (world st) /\
  (fst (prioritize_task subject task st) = Normal "High" \/
   fst (prioritize_task subject task st) = Normal "Medium" \/
   fst (prioritize_task subject task st) = Normal "Low" \/
   fst (prioritize_task subject task st) = Raise TypeError \/
   fst (prioritize_task subject task st) = Raise (AttributeError "weaknesses") \/
   fst (prioritize_task subject task st) = Raise (KeyError subject)) /\
  (fst (prioritize_task subject task st) = Raise TypeError <->
   exists label score,
     nlp_model (self st) task = Answered label score /\
     is_NEGATIVE label = true /\ numeric score = false) /\
  (fst (prioritize_task subject task st) = Raise (AttributeError "weaknesses") <->
   falls_through (nlp_model (self st) task) /\ weaknesses (self st) = None) /\
  (fst (prioritize_task subject task st) = Raise (KeyError subject) <->
   falls_through (nlp_model (self st) task) /\
   exists weak,
     weaknesses (self st) = Some weak /\ Dict.get subject weak = None).
Proof.
  destruct (prioritize_task_run subject task st) as (st1 & E & Hs & Hr & Hf).
  rewrite E. cbn [fst snd]. split; [assumption|]. split; [assumption|].
  split; [assumption|]. clear E Hs Hr Hf st1.
  pose proof (priority_of_TypeError (self st) subject task) as HT.
  destruct (priority_of_cases (self st) subject task)
    as [[Hft Hp]|[Hft Hp]].
  - rewrite Hp.
    destruct (by_weakness_of_cases (self st) subject task)
      as [B|[B|[[B Hw]|[B (weak & Hw & Hg)]]]]; rewrite B.
    + split; [auto|]. rewrite <- HT, Hp, B.
      repeat split; try discriminate; intros [_ H];
        [|destruct H as (? & H & ?)]; unfold by_weakness_of in B;
        rewrite H in B; try discriminate B.
      destruct (Dict.get subject x); discriminate.
    + split; [auto|]. rewrite <- HT, Hp, B.
      repeat split; try discriminate; intros [_ H];
        [|destruct H as (? & H & ?)]; unfold by_weakness_of in B;
        rewrite H in B; try discriminate B.
      destruct (Dict.get subject x); discriminate.
    + split; [auto 6|]. rewrite <- HT, Hp, B.
      repeat split; try discriminate; auto.
      intros [_ (? & H & _)]. congruence.
    + split; [auto 7|]. rewrite <- HT, Hp, B.
      repeat split; try discriminate; eauto.
      intros [_ H]. congruence.
  - destruct Hp as [[Hi Hp]|[Hp|Hp]]; rewrite <- HT, ?Hp;
      (split; [auto 6|]); repeat split; try discriminate; tauto.
Qed.

Lemma prioritize_task_outcomes_witness :
  fst (prioritize_task "Math" "Practice integrals"
         (mkstate Sample.nobody Sample.earth)) =
    Raise (AttributeError "weaknesses") /\
  fst (prioritize_task "Art" "Practice drawing" (Sample.st Sample.positive)) =
    Raise (KeyError "Art") /\
  fst (prioritize_task "Math" "Practice integrals" (Sample.st Sample.untyped)) =
    Raise TypeError.
Proof.
  split; [|split].
  - apply (proj2 (proj1 (proj2 (proj2 (proj2 (proj2 (proj2
             (prioritize_task_outcomes "Math" "Practice integrals"
                (mkstate Sample.nobody Sample.earth))))))))).
    split; [|reflexivity]. intros [H _]. discriminate H.
  - apply (proj2 (proj2 (proj2 (proj2 (proj2 (proj2 (proj2
             (prioritize_task_outcomes "Art" "Practice drawing"
                (Sample.st Sample.positive))))))))).
    split; [intros [H _]; discriminate H|].
    exists Sample.weak. split; reflexivity.
  - apply (proj2 (proj1 (proj2 (proj2 (proj2 (proj2
             (prioritize_task_outcomes "Math" "Practice integrals"
                (Sample.st Sample.untyped)))))))).
    exists (VStr "NEGATIVE"), VNone. repeat split.
Defined.

Lemma error_lines_app s l1 l2 :
  error_lines s (l1 ++ l2) = (error_lines s l1 ++ error_lines s l2)%list.
Proof. unfold error_lines. apply flat_map_app. Qed.

Lemma error_lines_block s subject t task priority :
  error_lines s [study_block subject t task priority] =
  match nlp_model s task with
  | ClassifierRaised m => [sentiment_error m]
  | _ => []
  end.
Proof.
  unfold error_lines. cbn [flat_map]. rewrite app_nil_r.
  change (block_task (study_block subject t task priority)) with (Some task).
  reflexivity.
Qed.

(** What [prioritize_task] does to the world: a line on standard output
    when the classifier raises, nothing otherwise. *)
Lemma prioritize_task_world subject task st r st' :
  prioritize_task subject task st = (r, st') ->
  self st' = self st /\
  st' = mkstate (self st)
          (set_stdout (stdout (world st) ++
                       match nlp_model (self st) task with
                       | ClassifierRaised m => [sentiment_error m]
                       | _ => []
                       end)%list (world st)).
Proof.
  rewrite prioritize_task_eq.
  assert (E : mkstate (self st)
                (set_stdout (stdout (world st) ++ []) (world st)) = st).
  { rewrite app_nil_r. destruct st as [s [o g n t f]]. reflexivity. }
  destruct (nlp_model (self st) task) as [label score|m|label score];
    intros [= <- <-]; rewrite ?E; split; reflexivity.
Qed.

Lemma random_choice_run prefs st method st1 :
  random_choice (study_methods prefs) st = (Normal method, st1) ->
  st1 = mkstate (self st) (set_rng_pos (S (rng_pos (world st))) (world st)).
Proof.
  unfold random_choice. destruct (study_methods prefs); [discriminate|].
  now intros [= _ <-].
Qed.

Lemma build_blocks_world t todo : forall acc st blocks st',
  build_blocks t todo acc st = (Normal blocks, st') ->
  exists new,
    blocks = (acc ++ new)%list /\
    self st' = self st /\
    rng_pos (world st') = (rng_pos (world st) + List.length todo)%nat /\
    stdout (world st') = (stdout (world st) ++ error_lines (self st) new)%list /\
    rng (world st') = rng (world st) /\ today (world st') = today (world st).
Proof.
  induction todo as [|subject rest IH]; intros acc st blocks st'.
  - intros [= <- <-]. exists []. rewrite !app_nil_r, Nat.add_0_r. auto 6.
  - rewrite build_blocks_step.
    destruct (areas_to_focus (self st)) as [areas|]; [|discriminate].
    destruct (Dict.get subject areas) as [focus|] eqn:Ef; [|discriminate].
    destruct (study_preferences (self st)) as [prefs|]; [|discriminate].
    destruct (random_choice _ st) as [[method|e] st1] eqn:Er; [|discriminate].
    apply random_choice_run in Er as H1.
    destruct (prioritize_task _ _ st1) as [[priority|e] st2] eqn:Ep;
      [|discriminate].
    apply prioritize_task_world in Ep as [E2 H2].
    intros H. apply IH in H as (new & -> & Hs & Hr & Ho & Hg & Ht).
    exists (study_block subject t (task_of focus method) priority :: new).
    rewrite <- app_assoc. split; [reflexivity|].
    subst st1. cbn [self world] in *. subst st2. cbn [self world] in *.
    split; [assumption|]. split; [rewrite Hr; cbn; lia|].
    split; [|split; assumption].
    rewrite Ho. cbn [set_stdout set_rng_pos stdout].
    change (study_block subject t (task_of focus method) priority :: new)
      with ([study_block subject t (task_of focus method) priority] ++ new)%list.
    rewrite error_lines_app, error_lines_block, app_assoc. reflexivity.
Qed.

Lemma generate_daily_plan_world d st plan st' :
  generate_daily_plan d st = (Normal plan, st') ->
  exists prefs blocks,
    study_preferences (self st) = Some prefs /\
    plan = daily_plan_of prefs d blocks /\
    rng_pos (world st') =
      (rng_pos (world st) + List.length (subjects (self st)))%nat /\
    stdout (world st') = (stdout (world st) ++ error_lines (self st) blocks)%list /\
    rng (world st') = rng (world st) /\ today (world st') = today (world st).
Proof.
  rewrite generate_daily_plan_eq.
  destruct (study_preferences (self st)) as [prefs|] eqn:Epr; [|discriminate].
  destruct (Z.eqb _ 0); [discriminate|].
  destruct (Float.overflows _ _); [discriminate|].
  destruct (build_blocks _ _ _ st) as [[blocks|e] st1] eqn:Eb; [|discriminate].
  apply build_blocks_world in Eb as (new & -> & Es & Hr & Ho & Hg & Ht).
  rewrite Es, Epr. intros [= <- <-].
  exists prefs, new. auto 7.
Qed.

(** X2. What a successful [generate_daily_plan] does outside the object:
    it draws exactly one random number per subject and prints exactly one
    line per block on whose task the classifier raised, in the order of
    the blocks; the generator itself and the clock are untouched. *)
Theorem generate_daily_plan_draws_and_prints d st plan st' :
  generate_daily_plan d st = (Normal plan, st') ->
  rng_pos (world st') =
    (rng_pos (world st) + List.length (subjects (self st)))%nat /\
  stdout (world st') =
    (stdout (world st) ++ error_lines (self st) (plan_blocks plan))%list /\
  rng (world st') = rng (world st) /\ today (world st') = today (world st).
Proof.
  intros H. apply generate_daily_plan_world in H as (prefs & blocks & _ & -> & H).
  rewrite plan_blocks_daily_plan_of. exact H.
Qed.

Lemma generate_daily_plan_draws_and_prints_witness :
  stdout (world (snd (generate_daily_plan (Date.mkdate 2024 1 1)
                        (Sample.st Sample.broken)))) =
  [sentiment_error "model unavailable"; sentiment_error "model unavailable"] /\
  rng_pos (world (snd (generate_daily_plan (Date.mkdate 2024 1 1)
                         (Sample.st Sample.broken)))) = 2%nat.
Proof.
  destruct (generate_daily_plan (Date.mkdate 2024 1 1) (Sample.st Sample.broken))
    as [r st'] eqn:E.
  assert (Hr : exists plan, r = Normal plan).
  { vm_compute in E. injection E as <- _. eexists. reflexivity. }
  destruct Hr as [plan ->].
  destruct (generate_daily_plan_draws_and_prints _ _ E) as (Hr & Ho & _).
  cbn [snd]. split; [|exact Hr].
  rewrite Ho. vm_compute in E. injection E as <- _. reflexivity.
Defined.

(** ** What can go wrong *)

Lemma block_failure_cons s subject rest e :
  block_failure s rest e -> block_failure s (subject :: rest) e.
Proof.
  unfold block_failure.
  intros [H|[H|[H|[H|[H|(x & He & Hin & H)]]]]]; auto 6.
  do 5 right. exists x. simpl. auto.
Qed.

(** The ways a block can fail. *)
Lemma build_blocks_failures t todo : forall acc st e st',
  build_blocks t todo acc st = (Raise e, st') ->
  block_failure (self st) todo e.
Proof.
  induction todo as [|subject rest IH]; intros acc st e st'; [discriminate|].
  rewrite build_blocks_step.
  destruct (areas_to_focus (self st)) as [areas|] eqn:Ea.
  2:{ intros [= <- <-]. left. auto. }
  destruct (Dict.get subject areas) as [focus|] eqn:Ef.
  2:{ intros [= <- <-]. do 5 right. exists subject. simpl. eauto 7. }
  destruct (study_preferences (self st)) as [prefs|] eqn:Epr.
  2:{ intros [= <- <-]. right. left. auto. }
  destruct (random_choice _ st) as [[method|e1] st1] eqn:Er.
  2:{ intros [= <- <-]. do 3 right. left. unfold random_choice in Er.
      destruct (study_methods prefs) eqn:Em; [|discriminate].
      injection Er as <- _. eauto. }
  pose proof (random_choice_same _ _ Er) as [E1 _].
  destruct (prioritize_task _ _ st1) as [[priority|e2] st2] eqn:Ep.
  - pose proof (prioritize_task_same _ _ _ Ep) as [_ [E2 _]].
    intros H. apply IH in H. rewrite E2, E1 in H.
    now apply block_failure_cons.
  - intros [= <- <-].
    apply prioritize_task_same in Ep as [Hp _]. rewrite E1 in Hp.
    destruct (priority_of_cases (self st) subject (task_of focus method))
      as [[_ Hc]|[_ [[Hi Hc]|[Hc|Hc]]]]; rewrite Hc in Hp; try discriminate Hp.
    + destruct (by_weakness_of_cases (self st) subject (task_of focus method))
        as [B|[B|[[B Hw]|[B (weak & Hw & Hg)]]]]; rewrite B in Hp;
        try discriminate Hp; injection Hp as ->.
      * right. right. left. auto.
      * do 5 right. exists subject. simpl. eauto 7.
    + injection Hp as ->. do 4 right. left. auto.
Qed.

Lemma generate_daily_plan_raises d st e st' :
  generate_daily_plan d st = (Raise e, st') ->
  (e = AttributeError "study_preferences" /\ study_preferences (self st) = None) \/
  (e = ZeroDivisionError /\ subjects (self st) = [] /\
   exists prefs, study_preferences (self st) = Some prefs) \/
  (e = OverflowError /\ subjects (self st) <> [] /\
   quotient_overflows (self st)) \/
  (subjects (self st) <> [] /\
   block_failure (self st) (subjects (self st)) e).
Proof.
  rewrite generate_daily_plan_eq.
  destruct (study_preferences (self st)) as [prefs|] eqn:Epr.
  2:{ intros [= <- <-]. left. auto. }
  destruct (Z.eqb_spec (Z.of_nat (List.length (subjects (self st)))) 0)
    as [E|E].
  - intros [= <- <-]. right. left. split; [reflexivity|]. split; [|eauto].
    destruct (subjects (self st)); [reflexivity | discriminate].
  - assert (Hne : subjects (self st) <> []).
    { intros N. rewrite N in E. now apply E. }
    destruct (Float.overflows _ _) eqn:Eo.
    + intros [= <- <-]. right. right. left. split; [reflexivity|].
      split; [assumption|]. exists prefs. auto.
    + destruct (build_blocks _ _ _ st) as [[blocks|e1] st1] eqn:Eb.
      * apply build_blocks_same in Eb as [Es _]. rewrite Es, Epr. discriminate.
      * intros [= <- <-]. do 3 right. split; [assumption|].
        exact (build_blocks_failures _ _ _ _ Eb).
Qed.

(** X3. The failures of [generate_daily_plan].  It raises
    [AttributeError] for [study_preferences] exactly when that attribute
    does not exist; [ZeroDivisionError] exactly when it exists and there is
    no subject; [OverflowError] exactly when there are subjects and the
    study duration divided by their number is beyond the floats.  Beyond
    these it can only fail on a block: [AttributeError] for a missing
    [areas_to_focus] or [weaknesses], [IndexError] with no study method to
    choose from, [TypeError] for a score that is not a number, or
    [KeyError] for a subject that lacks a focus area or a weakness.
    Whatever it raises, the object and the files are as before. *)
Theorem generate_daily_plan_failures d st :
  (study_preferences (self st) = None <->
   fst (generate_daily_plan d st) = Raise (AttributeError "study_preferences")) /\
  ((subjects (self st) = [] /\
    exists prefs, study_preferences (self st) = Some prefs) <->
   fst (generate_daily_plan d st) = Raise ZeroDivisionError) /\
  ((subjects (self st) <> [] /\ quotient_overflows (self st)) <->
   fst (generate_daily_plan d st) = Raise OverflowError) /\
  forall e st',
    generate_daily_plan d st = (Raise e, st') ->
    same_object st st' /\
    (e = AttributeError "study_preferences" \/
     e = ZeroDivisionError \/
     e = OverflowError \/
     (subjects (self st) <> [] /\
      block_failure (self st) (subjects (self st)) e)).
Proof.
  assert (R : forall e,
             fst (generate_daily_plan d st) = Raise e ->
             exists st', generate_daily_plan d st = (Raise e, st')).
  { intros e. destruct (generate_daily_plan d st) as [r st']. cbn [fst].
    intros ->. eauto. }
  split; [|split; [|split]].
  - split.
    + intros H. rewrite generate_daily_plan_eq, H. reflexivity.
    + intros H. destruct (R _ H) as [st' E].
      destruct (generate_daily_plan_raises _ _ E)
        as [[_ Hn]|[[He _]|[[He _]|[_ Hb]]]];
        [assumption | discriminate | discriminate |].
      unfold block_failure in Hb.
      destruct Hb as [[He _]|[[_ Hn]|[[He _]|[[He _]|[[He _]|(? & He & _)]]]]];
        try discriminate He. assumption.
  - split.
    + intros [H (prefs & Hp)]. rewrite generate_daily_plan_eq, Hp, H. reflexivity.
    + intros H. destruct (R _ H) as [st' E].
      destruct (generate_daily_plan_raises _ _ E)
        as [[He _]|[[_ Hn]|[[He _]|[_ Hb]]]];
        [discriminate | assumption | discriminate |].
      unfold block_failure in Hb.
      destruct Hb as [[He _]|[[He _]|[[He _]|[[He _]|[[He _]|(? & He & _)]]]]];
        discriminate He.
  - split.
    + intros [H (prefs & Hp & Ho)]. rewrite generate_daily_plan_eq, Hp, Ho.
      destruct (Z.eqb_spec (Z.of_nat (List.length (subjects (self st)))) 0)
        as [E|E]; [|reflexivity].
      destruct (subjects (self st)); [congruence | discriminate].
    + intros H. destruct (R _ H) as [st' E].
      destruct (generate_daily_plan_raises _ _ E)
        as [[He _]|[[He _]|[[_ Hn]|[_ Hb]]]];
        [discriminate | discriminate | assumption |].
      unfold block_failure in Hb.
      destruct Hb as [[He _]|[[He _]|[[He _]|[[He _]|[[He _]|(? & He & _)]]]]];
        discriminate He.
  - intros e st' H. split; [exact (generate_daily_plan_same _ _ H)|].
    destruct (generate_daily_plan_raises _ _ H)
      as [[He _]|[[He _]|[[He _]|Hb]]]; auto.
Qed.

Lemma generate_daily_plan_failures_witness :
  fst (generate_daily_plan (Date.mkdate 2024 1 1)
         (mkstate Sample.nobody Sample.earth)) =
    Raise (AttributeError "study_preferences") /\
  fst (generate_daily_plan (Date.mkdate 2024 1 1)
         (mkstate (set_subjects [] (Sample.alice Sample.positive)) Sample.earth)) =
    Raise ZeroDivisionError /\
  fst (generate_daily_plan (Date.mkdate 2024 1 1)
         (mkstate Sample.frank Sample.earth)) = Raise OverflowError.
Proof.
  split; [|split].
  - apply (proj1 (generate_daily_plan_failures (Date.mkdate 2024 1 1)
                    (mkstate Sample.nobody Sample.earth))).
    reflexivity.
  - apply (proj1 (proj2 (generate_daily_plan_failures (Date.mkdate 2024 1 1)
                    (mkstate (set_subjects [] (Sample.alice Sample.positive))
                       Sample.earth)))).
    split; [reflexivity|]. exists Sample.prefs. reflexivity.
  - apply (proj1 (proj2 (proj2 (generate_daily_plan_failures (Date.mkdate 2024 1 1)
                    (mkstate Sample.frank Sample.earth))))).
    split; [discriminate|]. eexists. split; [reflexivity|].
    vm_compute. reflexivity.
Defined.

(** The loop keeps the profile, and the plan stays a dictionary once it
    is one. *)
Lemma plan_days_failures n : forall d st e st',
  subjects (self st) <> [] ->
  plan_days n d st = (Raise e, st') ->
  (e = AttributeError "study_preferences" /\
   study_preferences (self st) = None) \/
  (e = OverflowError /\ quotient_overflows (self st)) \/
  block_failure (self st) (subjects (self st)) e \/
  (e = TypeError /\ is_dict (study_plan (self st)) = false) \/
  (e = OverflowError /\ Date.add_days n d = None).
Proof.
  induction n as [|n IH]; intros d st e st' Hs; [discriminate|].
  cbn [plan_days]. unfold bind at 1.
  destruct (generate_daily_plan d st) as [[plan|e1] st1] eqn:Eg.
  2:{ intros [= <- <-].
      destruct (generate_daily_plan_raises _ _ Eg)
        as [H|[[_ [H _]]|[[-> [_ H]]|[_ H]]]]; [auto | contradiction | auto | auto]. }
  pose proof (generate_daily_plan_same _ _ Eg) as [Es Ef].
  unfold bind at 1.
  pose proof (setitem_study_plan_run (Date.strftime_Ymd d) plan st1) as Hset.
  rewrite Es in Hset.
  destruct (study_plan (self st)) as [| | | | | |d0] eqn:Ep;
    try (rewrite Hset; intros [= <- <-]; do 3 right; left; split; reflexivity).
  rewrite Hset. cbv beta iota. unfold bind at 1, lift. cbn [Date.add_days].
  destruct (Date.add_one_day d) as [d1|e1] eqn:Ed.
  - intros H. apply IH in H; [|assumption].
    cbn [self set_study_plan subjects study_preferences areas_to_focus
           weaknesses study_plan is_dict] in H.
    destruct H as [H|[H|[H|[[_ H]|H]]]]; auto. discriminate.
  - intros [= <- <-]. do 4 right.
    unfold Date.add_one_day in Ed.
    repeat (destruct (_ <? _)%Z in Ed; try discriminate Ed).
    injection Ed as <-. auto.
Qed.

(** X4. The failures of [generate_study_plan].  It never raises
    [ZeroDivisionError]: the test for subjects comes first.  It raises
    only for [num_days > 0] on an object with subjects, and then only:
    [AttributeError] when [study_preferences] does not exist;
    [OverflowError] when the study duration divided by the number of
    subjects is beyond the floats, or when the day after one of the
    [num_days] days does not exist; [TypeError] when the study plan is not
    a dictionary; or what fails on a block, namely [AttributeError] for a
    missing [areas_to_focus] or [weaknesses], [IndexError] with no study
    method, [TypeError] for a score that is not a number, [KeyError] for a
    subject that lacks a focus area or a weakness. *)
Theorem generate_study_plan_failures start_date num_days st e st' :
  generate_study_plan start_date num_days st = (Raise e, st') ->
  subjects (self st) <> [] /\ (0 < num_days)%Z /\
  e <> ZeroDivisionError /\
  ((e = AttributeError "study_preferences" /\
    study_preferences (self st) = None) \/
   (e = OverflowError /\ quotient_overflows (self st)) \/
   block_failure (self st) (subjects (self st)) e \/
   (e = TypeError /\ is_dict (study_plan (self st)) = false) \/
   (e = OverflowError /\
    Date.add_days (Z.to_nat num_days) (start_of start_date st) = None)).
Proof.
  unfold generate_study_plan, bind, get_self.
  destruct (subjects (self st)) as [|subject rest] eqn:Hs; [discriminate|].
  assert (Hstart : (match start_date with
                    | Some d => ret d
                    | None => fun st0 => (Normal (today (world st0)), st0)
                    end) st = (Normal (start_of start_date st), st))
    by (destruct start_date; reflexivity).
  rewrite Hstart. intros H. split; [discriminate|]. split.
  - destruct (Z.to_nat num_days) eqn:En; [discriminate H | lia].
  - apply plan_days_failures in H; [|rewrite Hs; discriminate].
    rewrite Hs in H. split; [|exact H].
    unfold block_failure in H.
    destruct H as [[-> _]|[[-> _]|[H|[[-> _]|[-> _]]]]]; try discriminate.
    destruct H as [[-> _]|[[-> _]|[[-> _]|[[-> _]|[[-> _]|(? & -> & _)]]]]];
      discriminate.
Qed.

Lemma generate_study_plan_failures_witness :
  (exists st',
     generate_study_plan None 7
       (with_self (set_study_plan (VList []) (Sample.alice Sample.positive))
          (Sample.st Sample.positive)) = (Raise TypeError, st')) /\
  (exists st',
     generate_study_plan None 7 (mkstate Sample.frank Sample.earth) =
     (Raise OverflowError, st') /\
     Date.add_days 7 (today Sample.earth) <> None).
Proof.
  split.
  - destruct (generate_study_plan None 7
        (with_self (set_study_plan (VList []) (Sample.alice Sample.positive))
           (Sample.st Sample.positive))) as [r st'] eqn:E.
    assert (Hr : exists e, r = Raise e)
      by (vm_compute in E; injection E as <- _; eexists; reflexivity).
    destruct Hr as [e ->]. exists st'.
    destruct (generate_study_plan_failures _ _ _ E)
      as (_ & _ & _ & [[_ H]|[[_ (? & H & Ho)]|[H|[[-> _]|[_ H]]]]]);
      [discriminate H | | | reflexivity | discriminate H].
    + exfalso. injection H as <-. vm_compute in Ho. discriminate Ho.
    + exfalso. unfold block_failure, incomparable_score in H.
      destruct H as [[_ H]|[[_ H]|[[_ H]|[[_ (? & H & Hm)]|[[_ (? & ? & ? & H & _)]
                    |(s & _ & Hin & [(? & H & Hg)|(? & H & Hg)])]]]]];
        try discriminate H; injection H as <-; try discriminate Hm;
        simpl in Hin; destruct Hin as [<-|[<-|[]]]; discriminate Hg.
  - destruct (generate_study_plan None 7 (mkstate Sample.frank Sample.earth))
      as [r st'] eqn:E.
    assert (Hr : exists e, r = Raise e)
      by (vm_compute in E; injection E as <- _; eexists; reflexivity).
    destruct Hr as [e ->]. exists st'. split; [|discriminate].
    destruct (generate_study_plan_failures _ _ _ E)
      as (_ & _ & _ & [[_ H]|[[-> _]|[H|[[_ H]|[-> _]]]]]);
      [discriminate H | reflexivity | | discriminate H | reflexivity].
    exfalso. unfold block_failure, incomparable_score in H.
    destruct H as [[_ H]|[[_ H]|[[_ H]|[[_ (? & H & Hm)]|[[_ (? & ? & ? & H & _)]
                  |(s & _ & Hin & [(? & H & Hg)|(? & H & Hg)])]]]]];
      try discriminate H; injection H as <-; try discriminate Hm;
      simpl in Hin; destruct Hin as [<-|[<-|[]]]; discriminate Hg.
Defined.

(** ** The plan loop at its edges *)

Lemma start_date_run start_date st :
  (match start_date with
   | Some d => ret d
   | None => fun st0 => (Normal (today (world st0)), st0)
   end) st = (Normal (start_of start_date st), st).
Proof. destruct start_date; reflexivity. Qed.

Lemma generate_study_plan_run start_date num_days st :
  subjects (self st) <> [] ->
  generate_study_plan start_date num_days st =
  plan_days (Z.to_nat num_days) (start_of start_date st) st.
Proof.
  intros Hs. unfold generate_study_plan, bind, get_self.
  destruct (subjects (self st)); [congruence|].
  now rewrite start_date_run.
Qed.

(** X5. On an object whose study plan is not a dictionary (a file that
    holds a list, a number or a string loads as such),
    [generate_study_plan] raises [TypeError] at the first assignment: the
    first daily plan has been computed, one random number per subject is
    drawn, and the object is as before.  The profile is ready, so that
    the daily plan itself does not fail: its attributes exist, the study
    duration divides into a float, the scores are numbers. *)
Theorem generate_study_plan_needs_dict start_date num_days st :
  subjects (self st) <> [] -> ready (self st) ->
  is_dict (study_plan (self st)) = false -> (0 < num_days)%Z ->
  exists st',
    generate_study_plan start_date num_days st = (Raise TypeError, st') /\
    self st' = self st /\ files (world st') = files (world st) /\
    rng_pos (world st') =
      (rng_pos (world st) + List.length (subjects (self st)))%nat.
Proof.
  intros Hs Hr Hd Hn. rewrite generate_study_plan_run by assumption.
  destruct (Z.to_nat num_days) as [|n] eqn:En; [lia|].
  cbn [plan_days]. unfold bind at 1.
  destruct (generate_daily_plan_total (start_of start_date st) st Hs Hr)
    as (plan & st1 & Eg).
  rewrite Eg.
  pose proof (generate_daily_plan_same _ _ Eg) as [Es Ef].
  destruct (generate_daily_plan_world _ _ Eg) as (prefs & blocks & _ & _ & Hp & _).
  unfold bind at 1.
  pose proof (setitem_study_plan_run
                (Date.strftime_Ymd (start_of start_date st)) plan st1) as Hset.
  rewrite Es in Hset.
  destruct (study_plan (self st)); try discriminate Hd;
    rewrite Hset; exists st1; auto.
Qed.

Lemma generate_study_plan_needs_dict_witness :
  exists st',
    generate_study_plan None 7
      (with_self (set_study_plan (VList []) (Sample.alice Sample.positive))
         (Sample.st Sample.positive)) = (Raise TypeError, st') /\
    study_plan (self st') = VList [].
Proof.
  destruct (@generate_study_plan_needs_dict None 7
              (with_self (set_study_plan (VList []) (Sample.alice Sample.positive))
                 (Sample.st Sample.positive)))
    as (st' & E & Hs & _).
  - discriminate.
  - apply alice_ready. intros task label score H. discriminate H.
  - reflexivity.
  - lia.
  - exists st'. split; [exact E|]. rewrite Hs. reflexivity.
Defined.

Lemma days_from_succ_length n : forall d dn,
  Date.add_days n d = Some dn -> List.length (Date.days_from (S n) d) = S n.
Proof.
  induction n as [|n IH]; intros d dn H.
  - cbn. destruct (Date.add_one_day d); reflexivity.
  - cbn [Date.add_days] in H. cbn [Date.days_from].
    destruct (Date.add_one_day d) as [d1|] eqn:E; [|discriminate].
    cbn [List.length]. f_equal. rewrite <- (IH d1 dn H). reflexivity.
Qed.

(** The loop running into the end of the calendar: every day is stored,
    then the step past the last one raises. *)
Lemma plan_days_last_day n : forall d st d0 dl,
  subjects (self st) <> [] -> ready (self st) ->
  study_plan (self st) = VDict d0 ->
  Date.add_days n d = Some dl ->
  Date.add_one_day dl = Raise OverflowError ->
  exists entries st',
    plan_days (S n) d st = (Raise OverflowError, st') /\
    self st' = set_study_plan (VDict (Dict.update d0 entries)) (self st) /\
    Dict.keys entries = map Date.strftime_Ymd (Date.days_from (S n) d).
Proof.
  induction n as [|n IH]; intros d st d0 dl Hs Hr Hp Hd Hl.
  - injection Hd as ->. cbn [plan_days Date.days_from].
    destruct (generate_daily_plan_total dl st Hs Hr) as (plan & st1 & Eg).
    pose proof (generate_daily_plan_same _ _ Eg) as [Es Ef].
    unfold bind at 1. rewrite Eg. unfold bind at 1.
    pose proof (setitem_study_plan_run (Date.strftime_Ymd dl) plan st1) as Hset.
    rewrite Es, Hp in Hset. rewrite Hset. cbv beta iota.
    unfold bind at 1, lift. rewrite Hl.
    exists [(Date.strftime_Ymd dl, plan)]. eexists. split; [reflexivity|].
    split; reflexivity.
  - cbn [Date.add_days] in Hd.
    destruct (Date.add_one_day d) as [d1|] eqn:Ed; [|discriminate].
    change (plan_days (S (S n)) d)
      with (bind (generate_daily_plan d) (fun daily_plan =>
              bind (setitem_study_plan (Date.strftime_Ymd d) daily_plan)
                (fun _ => bind (lift (Date.add_one_day d))
                            (fun next => plan_days (S n) next)))).
    destruct (generate_daily_plan_total d st Hs Hr) as (plan & st1 & Eg).
    pose proof (generate_daily_plan_same _ _ Eg) as [Es Ef].
    unfold bind at 1. rewrite Eg. unfold bind at 1.
    pose proof (setitem_study_plan_run (Date.strftime_Ymd d) plan st1) as Hset.
    rewrite Es, Hp in Hset. rewrite Hset. cbv beta iota.
    unfold bind at 1, lift. rewrite Ed.
    set (st2 := mkstate _ (world st1)).
    destruct (IH d1 st2 (Dict.set (Date.strftime_Ymd d) plan d0) dl)
      as (entries & st' & Erun & Hself & Hk); trivial.
    exists ((Date.strftime_Ymd d, plan) :: entries), st'.
    split; [exact Erun|]. split; [rewrite Hself; reflexivity|].
    change (Date.days_from (S (S n)) d)
      with (d :: match Date.add_one_day d with
                 | Normal d' => Date.days_from (S n) d'
                 | Raise _ => []
                 end).
    rewrite Ed. cbn [map Dict.keys fst]. f_equal. exact Hk.
Qed.

(** X6. A plan that ends exactly on 9999-12-31, on a profile that is
    ready (its attributes exist, the study duration divides into a float,
    the scores are numbers).  All [num_days] days exist and all
    [num_days] daily plans are stored, under pairwise distinct keys; but
    the loop also steps past the last day, so the call raises
    [OverflowError] instead of returning. *)
Theorem generate_study_plan_until_last_day start_date num_days st d0 :
  subjects (self st) <> [] -> ready (self st) ->
  study_plan (self st) = VDict d0 ->
  Date.valid (start_of start_date st) -> (0 < num_days)%Z ->
  Date.add_days (Z.to_nat num_days - 1) (start_of start_date st) =
    Some last_day ->
  exists entries st',
    generate_study_plan start_date num_days st = (Raise OverflowError, st') /\
    study_plan (self st') = VDict (Dict.update d0 entries) /\
    Dict.keys entries =
      map Date.strftime_Ymd
        (Date.days_from (Z.to_nat num_days) (start_of start_date st)) /\
    List.length entries = Z.to_nat num_days /\
    NoDup (Dict.keys entries).
Proof.
  intros Hs Hr Hp Hv Hn Hd. rewrite generate_study_plan_run by assumption.
  destruct (Z.to_nat num_days) as [|n] eqn:En; [lia|].
  replace (S n - 1)%nat with n in Hd by lia.
  destruct (@plan_days_last_day n (start_of start_date st) st d0 last_day)
    as (entries & st' & E & Hself & Hk); trivial.
  exists entries, st'. split; [exact E|]. split; [rewrite Hself; reflexivity|].
  split; [exact Hk|]. split.
  - rewrite <- (days_from_succ_length _ _ Hd), <- (length_map Date.strftime_Ymd),
      <- Hk.
    unfold Dict.keys. now rewrite length_map.
  - rewrite Hk. now apply DateRangeFacts.days_from_keys_NoDup.
Qed.

Lemma generate_study_plan_until_last_day_witness :
  exists st',
    generate_study_plan (Some (Date.mkdate 9999 12 30)) 2
      (Sample.st Sample.positive) = (Raise OverflowError, st') /\
    plan_keys (study_plan (self st')) = ["9999-12-30"; "9999-12-31"].
Proof.
  destruct (@generate_study_plan_until_last_day (Some (Date.mkdate 9999 12 30)) 2
              (Sample.st Sample.positive) [])
    as (entries & st' & E & Hp & Hk & _).
  - discriminate.
  - apply alice_ready. intros task label score H. discriminate H.
  - reflexivity.
  - unfold Date.valid, Date.MINYEAR, Date.MAXYEAR. simpl.
    change (Date.days_in_month 9999 12) with 31%Z. lia.
  - lia.
  - reflexivity.
  - exists st'. split; [exact E|].
    vm_compute in E. injection E as <-. reflexivity.
Defined.

(** ** The shape of the stored plans *)

Lemma priority_of_level s subject task p :
  priority_of s subject task = Normal p -> priority_level p.
Proof.
  unfold priority_level.
  destruct (priority_of_cases s subject task)
    as [[_ Hc]|[_ [[_ Hc]|[Hc|Hc]]]]; rewrite Hc; try (intros [= <-]; auto).
  destruct (by_weakness_of_cases s subject task)
    as [B|[B|[[B _]|[B _]]]]; rewrite B; try discriminate;
    intros [= <-]; auto.
Qed.

Lemma generate_daily_plan_shaped d st plan st' :
  generate_daily_plan d st = (Normal plan, st') ->
  day_shaped (Date.strftime_Ymd d) plan.
Proof.
  intros H.
  apply generate_daily_plan_inv in H as (_ & _ & prefs & blocks & _ & _ & -> & F).
  exists blocks. do 2 eexists. split; [reflexivity|].
  eapply Forall2_Forall_r; [|exact F].
  intros subject b (? & ? & focus & method & priority & _ & _ & _ & _ & Hp & ->).
  do 4 eexists. split; [reflexivity|]. eapply priority_of_level; eauto.
Qed.

Lemma Forall_set {V} (Q : string * V -> Prop) k v (d : Dict.dict V) :
  Forall Q d -> Q (k, v) -> Forall Q (Dict.set k v d).
Proof.
  intros F Hq. induction F as [|[k' v'] d Hx F IH]; simpl.
  - repeat constructor. assumption.
  - destruct (String.eqb_spec k k') as [<-|]; constructor; auto.
Qed.

Lemma plan_days_shaped n : forall d st r st',
  plan_days n d st = (r, st') ->
  plan_shaped (study_plan (self st)) -> plan_shaped (study_plan (self st')).
Proof.
  induction n as [|n IH]; intros d st r st'.
  - intros [= <- <-]. trivial.
  - cbn [plan_days]. unfold bind at 1.
    destruct (generate_daily_plan d st) as [[plan|e] st1] eqn:Eg.
    2:{ apply generate_daily_plan_same in Eg as [Es _].
        intros [= <- <-]. now rewrite Es. }
    pose proof (generate_daily_plan_same _ _ Eg) as [Es Ef].
    apply generate_daily_plan_shaped in Eg.
    unfold bind at 1.
    pose proof (setitem_study_plan_run (Date.strftime_Ymd d) plan st1) as Hset.
    rewrite Es in Hset. intros H (d0 & Hp & F). rewrite Hp in Hset.
    rewrite Hset in H. cbv beta iota in H. unfold bind at 1, lift in H.
    assert (Hsh : plan_shaped (VDict (Dict.set (Date.strftime_Ymd d) plan d0))).
    { eexists. split; [reflexivity|]. now apply Forall_set. }
    destruct (Date.add_one_day d) as [d1|e].
    + apply IH in H; [assumption|]. exact Hsh.
    + injection H as _ <-. exact Hsh.
Qed.

(** X7. The shape of the plan is an invariant of [generate_study_plan]:
    if every entry of the study plan is a daily plan whose [date] is its
    own key, with blocks of the four fields and a priority among [High],
    [Medium] and [Low], then so it is after the call, whether it returns
    or raises part of the way. *)
Theorem generate_study_plan_keeps_shape start_date num_days st r st' :
  generate_study_plan start_date num_days st = (r, st') ->
  plan_shaped (study_plan (self st)) -> plan_shaped (study_plan (self st')).
Proof.
  unfold generate_study_plan, bind, get_self.
  destruct (subjects (self st)) as [|subject rest].
  - intros [= <- <-]. trivial.
  - rewrite start_date_run. apply plan_days_shaped.
Qed.

Lemma generate_study_plan_keeps_shape_witness :
  plan_shaped
    (study_plan (self (snd (generate_study_plan (Some (Date.mkdate 9999 12 31)) 2
                              (Sample.st Sample.broken))))).
Proof.
  apply (@generate_study_plan_keeps_shape (Some (Date.mkdate 9999 12 31)) 2
           (Sample.st Sample.broken)
           (fst (generate_study_plan (Some (Date.mkdate 9999 12 31)) 2
                   (Sample.st Sample.broken)))).
  - apply surjective_pairing.
  - exists []. split; [reflexivity | constructor].
Defined.

(** ** The order of the keys *)

Lemma new_keys_cons_in old k l :
  In k old -> new_keys old (k :: l) = new_keys old l.
Proof.
  intros H. unfold new_keys. cbn [filter].
  replace (existsb (String.eqb k) old) with true; [reflexivity|].
  symmetry. apply existsb_exists. exists k. split; [assumption|].
  apply String.eqb_refl.
Qed.

Lemma new_keys_cons_out old k l :
  ~ In k old -> ~ In k l ->
  new_keys old (k :: l) = k :: new_keys (old ++ [k]) l.
Proof.
  intros Ho Hl. unfold new_keys. cbn [filter].
  replace (existsb (String.eqb k) old) with false.
  - cbn [negb]. f_equal. apply filter_ext_in. intros x Hx. f_equal.
    rewrite existsb_app. cbn [existsb].
    destruct (String.eqb_spec x k) as [->|]; [contradiction|].
    now rewrite !orb_false_r.
  - symmetry. apply not_true_is_false. intros E.
    apply existsb_exists in E as (x & Hx & E). apply String.eqb_eq in E.
    now subst x.
Qed.

(** Assigning entries keeps the old keys in place and appends the new
    ones in the order of their assignment. *)
Lemma keys_update_order {V} (l : Dict.dict V) : forall d : Dict.dict V,
  NoDup (Dict.keys l) ->
  Dict.keys (Dict.update d l) = (Dict.keys d ++ new_keys (Dict.keys d) (Dict.keys l))%list.
Proof.
  induction l as [|[k v] l IH]; intros d Hnd.
  - cbn. now rewrite app_nil_r.
  - rewrite update_cons. cbn [Dict.keys map fst] in *.
    inversion Hnd as [|? ? Hk Hnd']; subst.
    fold (Dict.keys l) in *. rewrite (IH _ Hnd'), keys_set.
    destruct (in_dec string_dec k (Dict.keys d)) as [I|N].
    + now rewrite new_keys_cons_in.
    + rewrite new_keys_cons_out by assumption. now rewrite <- app_assoc.
Qed.

(** X8. The order of the plan after [generate_study_plan], on a profile
    that is ready (its attributes exist, the study duration divides into a
    float, the scores are numbers) and with the dates in range: the keys
    that were there keep their places, regenerated days are overwritten
    where they stand, and the dates that are new follow in calendar order.
    So generating the same days again leaves the list of keys as it is. *)
Theorem generate_study_plan_key_order st start_date num_days d0 dN :
  subjects (self st) <> [] -> ready (self st) ->
  study_plan (self st) = VDict d0 ->
  Date.valid (start_of start_date st) ->
  Date.add_days (Z.to_nat num_days) (start_of start_date st) = Some dN ->
  exists st',
    generate_study_plan start_date num_days st = (Normal tt, st') /\
    plan_keys (study_plan (self st')) =
      (Dict.keys d0 ++
       new_keys (Dict.keys d0)
         (map Date.strftime_Ymd
            (Date.days_from (Z.to_nat num_days) (start_of start_date st))))%list /\
    (incl (map Date.strftime_Ymd
             (Date.days_from (Z.to_nat num_days) (start_of start_date st)))
          (Dict.keys d0) ->
     plan_keys (study_plan (self st')) = Dict.keys d0).
Proof.
  intros Hs Hr Hp Hv Hd. rewrite generate_study_plan_run by assumption.
  destruct (plan_days_total (Z.to_nat num_days) (start_of start_date st) st
              Hs Hr Hp Hd) as (entries & st' & Erun & Hself & F).
  exists st'. split; [exact Erun|].
  assert (Hkeys : Dict.keys entries =
                  map Date.strftime_Ymd
                    (Date.days_from (Z.to_nat num_days) (start_of start_date st))).
  { clear - F. induction F as [|di kv ds l [Hk _] F' IH]; [reflexivity|].
    cbn [map Dict.keys] in *. unfold Dict.keys in IH. now rewrite Hk, IH. }
  assert (Hnd : NoDup (Dict.keys entries)).
  { rewrite Hkeys. now apply DateRangeFacts.days_from_keys_NoDup. }
  assert (Ho : plan_keys (study_plan (self st')) =
               (Dict.keys d0 ++ new_keys (Dict.keys d0) (Dict.keys entries))%list).
  { rewrite Hself. cbn [study_plan set_study_plan plan_keys].
    now apply keys_update_order. }
  rewrite <- Hkeys. split; [exact Ho|].
  intros Hin. rewrite Ho.
  replace (new_keys (Dict.keys d0) (Dict.keys entries)) with (@nil string);
    [apply app_nil_r|].
  symmetry. unfold new_keys. clear - Hin. revert Hin.
  generalize (Dict.keys entries) as l.
  induction l as [|k l IH]; intros Hin; [reflexivity|].
  cbn [filter].
  replace (existsb (String.eqb k) (Dict.keys d0)) with true.
  - apply IH. intros x Hx. apply Hin. now right.
  - symmetry. apply existsb_exists. exists k. split; [apply Hin; now left|].
    apply String.eqb_refl.
Qed.

Lemma generate_study_plan_key_order_witness :
  plan_keys
    (study_plan
       (self (snd (generate_study_plan (Some (Date.mkdate 2024 1 1)) 3
                     (with_self
                        (set_study_plan
                           (VDict [("2024-01-02", VNone); ("2023-12-31", VNone)])
                           (Sample.alice Sample.positive))
                        (Sample.st Sample.positive)))))) =
  ["2024-01-02"; "2023-12-31"; "2024-01-01"; "2024-01-03"].
Proof.
  destruct (@generate_study_plan_key_order
              (with_self
                 (set_study_plan
                    (VDict [("2024-01-02", VNone); ("2023-12-31", VNone)])
                    (Sample.alice Sample.positive))
                 (Sample.st Sample.positive))
              (Some (Date.mkdate 2024 1 1)) 3
              [("2024-01-02", VNone); ("2023-12-31", VNone)]
              (Date.mkdate 2024 1 4))
    as (st' & E & Hk & _).
  - discriminate.
  - apply alice_ready. intros task label score H. discriminate H.
  - reflexivity.
  - unfold Date.valid, Date.MINYEAR, Date.MAXYEAR. simpl.
    change (Date.days_in_month 2024 1) with 31%Z. lia.
  - reflexivity.
  - rewrite E. cbn [snd]. rewrite Hk. reflexivity.
Defined.

(** ** The focus areas *)

Lemma weak_pairs_app weak l1 l2 :
  weak_pairs weak (l1 ++ l2) = (weak_pairs weak l1 ++ weak_pairs weak l2)%list.
Proof. unfold weak_pairs. apply flat_map_app. Qed.

Lemma weak_pairs_keys weak todo k :
  In k (Dict.keys (weak_pairs weak todo)) -> In k todo.
Proof.
  induction todo as [|subject rest IH]; [intros []|].
  unfold weak_pairs. cbn [flat_map]. fold (weak_pairs weak rest).
  unfold Dict.keys. rewrite map_app, in_app_iff. intros [H|H].
  - left. destruct (Dict.get subject weak); [|destruct H].
    destruct H as [<-|[]]. reflexivity.
  - right. apply IH, H.
Qed.

(** The loop of [analyze_student_data] as far as the weaknesses reach. *)
Lemma analyze_subjects_run todo : forall st weak areas,
  weaknesses (self st) = Some weak ->
  areas_to_focus (self st) = Some areas ->
  (forall subject, In subject todo -> In subject (Dict.keys weak)) ->
  analyze_subjects todo st =
  (Normal tt,
   with_self (set_areas_to_focus
                (Dict.update areas (weak_pairs weak todo)) (self st)) st).
Proof.
  induction todo as [|subject rest IH]; intros st weak areas Hw Ha Hk.
  - cbn. unfold ret, with_self, set_areas_to_focus. rewrite <- Ha.
    destruct st as [s w]. now destruct s.
  - rewrite analyze_subjects_step, Hw, Ha.
    unfold weak_pairs. cbn [flat_map]. fold (weak_pairs weak rest).
    destruct (Dict.get subject weak) as [w|] eqn:Ew.
    2:{ apply get_None_keys in Ew. exfalso. apply Ew, Hk. now left. }
    rewrite (IH _ weak (Dict.set subject w areas)); trivial.
    intros x Hx. apply Hk. now right.
Qed.

Lemma analyze_subjects_stop pre subject post : forall st weak areas,
  weaknesses (self st) = Some weak ->
  areas_to_focus (self st) = Some areas ->
  (forall x, In x pre -> In x (Dict.keys weak)) ->
  Dict.get subject weak = None ->
  analyze_subjects (pre ++ subject :: post) st =
  (Raise (KeyError subject),
   with_self (set_areas_to_focus
                (Dict.update areas (weak_pairs weak pre)) (self st)) st).
Proof.
  induction pre as [|x pre IH]; intros st weak areas Hw Ha Hk Hn.
  - cbn [app]. rewrite analyze_subjects_step, Hw, Hn.
    cbn. unfold with_self, set_areas_to_focus. rewrite <- Ha.
    destruct st as [s w]. now destruct s.
  - cbn [app]. rewrite analyze_subjects_step, Hw, Ha.
    unfold weak_pairs. cbn [flat_map]. fold (weak_pairs weak pre).
    destruct (Dict.get x weak) as [w|] eqn:Ew.
    2:{ apply get_None_keys in Ew. exfalso. apply Ew, Hk. now left. }
    rewrite (IH _ weak (Dict.set x w areas)); trivial.
    intros y Hy. apply Hk. now right.
Qed.

Lemma analyze_student_data_run st :
  (forall subject, In subject (subjects (self st)) ->
     In subject (Dict.keys (known_weaknesses (self st)))) ->
  analyze_student_data st =
  (Normal tt,
   printed analyzing_message
     (with_self (set_areas_to_focus
                   (focus_of (known_weaknesses (self st)) (subjects (self st)))
                   (self st)) st)).
Proof.
  intros Hk. unfold analyze_student_data.
  unfold bind at 1, print, modify_world. unfold bind at 1, modify_self.
  unfold bind at 1, get_self. cbn [self world].
  change (subjects (set_areas_to_focus [] (self st))) with (subjects (self st)).
  unfold known_weaknesses in *.
  destruct (weaknesses (self st)) as [weak|] eqn:Hw.
  - rewrite (@analyze_subjects_run _ _ weak []); trivial.
  - destruct (subjects (self st)) as [|x l] eqn:Hs; [reflexivity|].
    destruct (Hk x (or_introl eq_refl)).
Qed.

Lemma analyze_student_data_covers st st' :
  analyze_student_data st = (Normal tt, st') ->
  forall subject, In subject (subjects (self st)) ->
    In subject (Dict.keys (known_weaknesses (self st))).
Proof.
  intros H subject Hin.
  destruct (@analyze_student_data_spec _ _ H)
    as (_ & _ & _ & _ & _ & areas & _ & Hk).
  destruct (Hk subject Hin) as (weak & w & Hw & Hg & _).
  unfold known_weaknesses. rewrite Hw.
  eapply get_Some_keys; eauto.
Qed.

Lemma new_keys_without_old old k l :
  In k old ->
  new_keys old (filter (fun x => negb (String.eqb x k)) l) = new_keys old l.
Proof.
  intros Hk. unfold new_keys. induction l as [|x l IH]; [reflexivity|].
  cbn [filter]. destruct (String.eqb_spec x k) as [->|Hne]; cbn [negb].
  - replace (existsb (String.eqb k) old) with true; [exact IH|].
    symmetry. apply existsb_exists. exists k. split; [assumption|].
    apply String.eqb_refl.
  - cbn [filter]. now rewrite IH.
Qed.

Lemma new_keys_snoc old k l :
  new_keys (old ++ [k]) l =
  new_keys old (filter (fun x => negb (String.eqb x k)) l).
Proof.
  unfold new_keys. induction l as [|x l IH]; [reflexivity|].
  cbn [filter]. rewrite existsb_app. cbn [existsb]. rewrite orb_false_r.
  destruct (String.eqb x k); cbn [negb].
  - rewrite orb_true_r. exact IH.
  - rewrite orb_false_r. cbn [filter]. now rewrite IH.
Qed.

Lemma new_keys_nil l : new_keys [] l = l.
Proof.
  unfold new_keys. induction l as [|x l IH]; [reflexivity|].
  cbn [filter existsb negb] in *. now rewrite IH.
Qed.

(** The keys after a series of assignments: the old ones in place, then
    the new ones at their first assignment. *)
Lemma keys_update_first {V} (l : Dict.dict V) : forall d : Dict.dict V,
  Dict.keys (Dict.update d l) =
  (Dict.keys d ++ new_keys (Dict.keys d) (first_occurrences (Dict.keys l)))%list.
Proof.
  induction l as [|[k v] l IH]; intros d.
  - cbn. now rewrite app_nil_r.
  - rewrite update_cons, IH, keys_set.
    cbn [Dict.keys map fst first_occurrences]. fold (Dict.keys l).
    destruct (in_dec string_dec k (Dict.keys d)) as [I|N].
    + rewrite new_keys_cons_in by assumption.
      now rewrite new_keys_without_old.
    + rewrite new_keys_snoc, <- app_assoc. f_equal.
      unfold new_keys at 2. cbn [filter].
      replace (existsb (String.eqb k) (Dict.keys d)) with false; [reflexivity|].
      symmetry. apply not_true_is_false. intros E.
      apply existsb_exists in E as (x & Hx & E). apply String.eqb_eq in E.
      now subst x.
Qed.

Lemma weak_pairs_all_keys weak todo :
  (forall subject, In subject todo -> In subject (Dict.keys weak)) ->
  Dict.keys (weak_pairs weak todo) = todo.
Proof.
  induction todo as [|subject rest IH]; intros Hk; [reflexivity|].
  unfold weak_pairs. cbn [flat_map]. fold (weak_pairs weak rest).
  destruct (Dict.get subject weak) as [w|] eqn:Ew.
  - cbn. f_equal. apply IH. intros x Hx. apply Hk. now right.
  - apply get_None_keys in Ew. exfalso. apply Ew, Hk. now left.
Qed.

(** X9. What [analyze_student_data] leaves behind when it returns.  The
    focus areas are rebuilt from nothing: a subject has its weakness as
    focus area, whatever is not a subject has none (earlier focus areas
    are gone), and the keys are the subjects in the order of their first
    occurrence.  Only this attribute and standard output change, and
    calling the method again gives the same object again. *)
Theorem analyze_student_data_result st st' :
  analyze_student_data st = (Normal tt, st') ->
  st' = printed analyzing_message
          (with_self (set_areas_to_focus
                        (focus_of (known_weaknesses (self st)) (subjects (self st)))
                        (self st)) st) /\
  (subjects (self st) <> [] -> exists weak, weaknesses (self st) = Some weak) /\
  exists areas,
    areas_to_focus (self st') = Some areas /\
    (forall k,
       Dict.get k areas =
       if in_dec string_dec k (subjects (self st))
       then Dict.get k (known_weaknesses (self st)) else None) /\
    Dict.keys areas = first_occurrences (subjects (self st)) /\
    analyze_student_data st' = (Normal tt, printed analyzing_message st').
Proof.
  intros H. pose proof (@analyze_student_data_covers _ _ H) as Hk.
  pose proof (@analyze_student_data_spec _ _ H)
    as (_ & _ & _ & _ & _ & areas & Ha & Hw).
  rewrite (analyze_student_data_run _ Hk) in H. injection H as <-.
  split; [reflexivity|]. split.
  { intros Hne. destruct (subjects (self st)) as [|x l]; [congruence|].
    destruct (Hw x (or_introl eq_refl)) as (weak & _ & E & _). eauto. }
  cbn [printed with_self self set_areas_to_focus areas_to_focus] in Ha.
  injection Ha as <-.
  eexists. split; [reflexivity|]. split; [|split].
  - intros k.
    destruct (in_dec string_dec k (subjects (self st))) as [I|N].
    + destruct (Hw k I) as (weak & w & E0 & E1 & E2).
      unfold known_weaknesses at 2. rewrite E0. congruence.
    + unfold focus_of, Dict.of_pairs. rewrite get_update_other; [reflexivity|].
      intros Hin. apply N. eapply weak_pairs_keys; eauto.
  - unfold focus_of, Dict.of_pairs. rewrite keys_update_first.
    cbn [Dict.keys map app]. rewrite new_keys_nil.
    fold (Dict.keys (weak_pairs (known_weaknesses (self st)) (subjects (self st)))).
    now rewrite weak_pairs_all_keys.
  - rewrite analyze_student_data_run; [reflexivity|]. exact Hk.
Qed.

Lemma analyze_student_data_result_witness :
  areas_to_focus
    (self (snd (analyze_student_data
                  (with_self
                     (set_areas_to_focus [("Art", "Perspective")]
                        (set_subjects ["History"; "Math"; "History"]
                           (Sample.alice Sample.positive)))
                     (Sample.st Sample.positive))))) =
  Some [("History", "Essays"); ("Math", "Calculus")].
Proof.
  destruct (@analyze_student_data_result
              (with_self
                 (set_areas_to_focus [("Art", "Perspective")]
                    (set_subjects ["History"; "Math"; "History"]
                       (Sample.alice Sample.positive)))
                 (Sample.st Sample.positive))
              (snd (analyze_student_data
                      (with_self
                         (set_areas_to_focus [("Art", "Perspective")]
                            (set_subjects ["History"; "Math"; "History"]
                               (Sample.alice Sample.positive)))
                         (Sample.st Sample.positive)))) eq_refl)
    as (E & _).
  rewrite E. reflexivity.
Defined.

(** X10. [analyze_student_data] on a subject without recorded weakness:
    it raises [KeyError] for the first such subject, after the message;
    by then the earlier focus areas are gone and only the subjects before
    that one have theirs. *)
Theorem analyze_student_data_missing_weakness st weak pre subject post :
  weaknesses (self st) = Some weak ->
  subjects (self st) = (pre ++ subject :: post)%list ->
  (forall x, In x pre -> In x (Dict.keys weak)) ->
  Dict.get subject weak = None ->
  analyze_student_data st =
  (Raise (KeyError subject),
   printed analyzing_message
     (with_self (set_areas_to_focus (focus_of weak pre) (self st)) st)) /\
  Dict.keys (focus_of weak pre) = first_occurrences pre.
Proof.
  intros Hw Hs Hk Hn. split.
  - unfold analyze_student_data.
    unfold bind at 1, print, modify_world. unfold bind at 1, modify_self.
    unfold bind at 1, get_self. cbn [self world subjects set_areas_to_focus].
    rewrite Hs, (@analyze_subjects_stop _ _ _ _ weak []); trivial.
  - unfold focus_of, Dict.of_pairs. rewrite keys_update_first.
    cbn [Dict.keys map app]. rewrite new_keys_nil.
    fold (Dict.keys (weak_pairs weak pre)).
    now rewrite weak_pairs_all_keys.
Qed.

Lemma analyze_student_data_missing_weakness_witness :
  analyze_student_data
    (with_self (set_subjects ["Math"; "Art"; "History"]
                  (Sample.alice Sample.positive))
       (Sample.st Sample.positive)) =
  (Raise (KeyError "Art"),
   printed analyzing_message
     (with_self (set_areas_to_focus [("Math", "Calculus")]
                   (set_subjects ["Math"; "Art"; "History"]
                      (Sample.alice Sample.positive)))
        (Sample.st Sample.positive))).
Proof.
  apply (@analyze_student_data_missing_weakness
           (with_self (set_subjects ["Math"; "Art"; "History"]
                         (Sample.alice Sample.positive))
              (Sample.st Sample.positive))
           Sample.weak ["Math"] "Art" ["History"]).
  - reflexivity.
  - reflexivity.
  - intros x [<-|[]]. simpl. auto.
  - reflexivity.
Defined.

(** After a returned analysis a profile with subjects is ready as soon
    as the preferences hold a study method, the quotient is a float and
    the scores are numbers. *)
Lemma analyze_student_data_ready st st1 prefs :
  analyze_student_data st = (Normal tt, st1) ->
  subjects (self st) <> [] ->
  study_preferences (self st) = Some prefs ->
  study_methods prefs <> [] ->
  in_float_range prefs (self st) ->
  comparable_scores (self st) ->
  ready (self st1).
Proof.
  intros Ha Hne Hp Hm Hr Hc.
  pose proof (@analyze_student_data_spec _ _ Ha)
    as (Hw & Hn & Hs & Hpr & _ & areas & Hareas & Hk).
  assert (Hweak : exists weak, weaknesses (self st) = Some weak).
  { destruct (subjects (self st)) as [|x l]; [congruence|].
    destruct (Hk x (or_introl eq_refl)) as (weak & _ & E & _). eauto. }
  destruct Hweak as [weak Hweak].
  exists prefs, areas, weak.
  split; [congruence|]. split; [assumption|]. split; [congruence|].
  split; [assumption|]. split.
  { unfold in_float_range in *. now rewrite Hs. }
  split.
  { unfold comparable_scores in *. now rewrite Hn. }
  intros subject Hin. rewrite Hs in Hin.
  destruct (Hk subject Hin) as (weak' & w & E0 & E1 & E2).
  assert (weak' = weak) as -> by congruence.
  split; eapply get_Some_keys; eauto.
Qed.

(** X11. Analysis makes generation safe.  Take an object whose
    preferences exist with some study method, whose study duration
    divided by the number of subjects is within the floats, and whose
    classifier gives scores that are numbers.  After
    [analyze_student_data] has returned, every subject has a focus area
    and a weakness: with subjects the object is ready.  On a plan that is
    a dictionary and with the dates in range, [generate_study_plan] then
    returns. *)
Theorem analyze_then_generate st st1 prefs start_date num_days d0 dN :
  analyze_student_data st = (Normal tt, st1) ->
  study_preferences (self st) = Some prefs ->
  study_methods prefs <> [] ->
  in_float_range prefs (self st) ->
  comparable_scores (self st) ->
  study_plan (self st) = VDict d0 ->
  Date.add_days (Z.to_nat num_days) (start_of start_date st1) = Some dN ->
  (subjects (self st) <> [] -> ready (self st1)) /\
  exists st2, generate_study_plan start_date num_days st1 = (Normal tt, st2).
Proof.
  intros Ha Hp Hm Hr Hc Hplan Hd.
  pose proof (@analyze_student_data_spec _ _ Ha)
    as (_ & _ & Hs & _ & Hpl & _).
  split; [intros Hne; eapply analyze_student_data_ready; eauto|].
  destruct (list_eq_dec string_dec (subjects (self st1)) []) as [Hs1|Hs1].
  - eexists. unfold generate_study_plan, bind, get_self. rewrite Hs1. reflexivity.
  - destruct (@plan_days_total (Z.to_nat num_days) (start_of start_date st1) st1 d0 dN)
      as (entries & st2 & E & _); trivial.
    + eapply analyze_student_data_ready; eauto. congruence.
    + congruence.
    + exists st2. rewrite generate_study_plan_run; [exact E | exact Hs1].
Qed.

Lemma analyze_then_generate_witness :
  exists st2,
    generate_study_plan None 7
      (snd (analyze_student_data
              (with_self (set_areas_to_focus [] (Sample.alice Sample.broken))
                 (Sample.st Sample.broken)))) = (Normal tt, st2).
Proof.
  destruct (@analyze_then_generate
              (with_self (set_areas_to_focus [] (Sample.alice Sample.broken))
                 (Sample.st Sample.broken))
              (snd (analyze_student_data
                      (with_self (set_areas_to_focus [] (Sample.alice Sample.broken))
                         (Sample.st Sample.broken))))
              Sample.prefs None 7 [] (Date.mkdate 2024 1 8))
    as (_ & st2 & E); try reflexivity.
  - discriminate.
  - intros task label score H. discriminate H.
  - exists st2. exact E.
Defined.

(** ** Files *)


Section Files.

Variable float_repr : Q -> string.
Variable float_of_string : string -> Q.



(** X13. An empty file, or one of white space only, is not a missing
    file: [load_study_plan] raises [JSONDecodeError] on it, prints
    nothing and leaves the study plan as it was. *)
Theorem load_blank_file_raises st filename text :
  Dict.get filename (files (world st)) = Some text ->
  skip_ws text = "" ->
  load_study_plan float_of_string filename st = (Raise JSONDecodeError, st).
Proof.
  intros Hf Hb.
  unfold load_study_plan, try_except, bind, read_file, lift, loads.
  rewrite Hf, Hb. reflexivity.
Qed.


(** X15. The file determines the plan: two plans that can be stored and
    are written as the same text are equal. *)
Theorem dumps_injective v1 v2 :
  storable float_repr float_of_string v1 ->
  storable float_repr float_of_string v2 ->
  dumps float_repr v1 = dumps float_repr v2 -> v1 = v2.
Proof.
  intros H1 H2 E.
  pose proof (loads_dumps float_repr float_of_string _ H1) as L1.
  pose proof (loads_dumps float_repr float_of_string _ H2) as L2.
  rewrite E in L1. congruence.
Qed.

End Files.


Lemma load_blank_file_raises_witness :
  load_study_plan Sample.float_of_string "plan.json"
    (mkstate (Sample.alice Sample.positive)
       (set_files [("plan.json", " ")] Sample.earth)) =
  (Raise JSONDecodeError,
   mkstate (Sample.alice Sample.positive)
     (set_files [("plan.json", " ")] Sample.earth)).
Proof.
  apply (@load_blank_file_raises Sample.float_of_string
           (mkstate (Sample.alice Sample.positive)
              (set_files [("plan.json", " ")] Sample.earth))
           "plan.json" " "); reflexivity.
Defined.

Lemma dumps_injective_witness :
  VDict [("a", VInt 1)] = VDict [("a", VInt 1)].
Proof.
  apply (@dumps_injective Sample.float_repr Sample.float_of_string
           (VDict [("a", VInt 1)]) (VDict [("a", VInt 1)])).
  - constructor; [repeat constructor; simpl; tauto | repeat constructor].
  - constructor; [repeat constructor; simpl; tauto | repeat constructor].
  - reflexivity.
Defined.

(** ** Reading the profile *)

Lemma bindP_input_cons {B} prompt (k : string -> P B) st line rest :
  bindP (input prompt) k (mkprocess st (line :: rest)) =
  k line (mkprocess (printed prompt st) rest).
Proof. reflexivity. Qed.

Lemma bindP_input_nil {B} prompt (k : string -> P B) st :
  bindP (input prompt) k (mkprocess st []) =
  (Raised EOFError, mkprocess (printed prompt st) []).
Proof. reflexivity. Qed.

Lemma bindP_modify {B} f (k : unit -> P B) st rest :
  bindP (modify_selfP f) k (mkprocess st rest) =
  k tt (mkprocess (mkstate (f (self st)) (world st)) rest).
Proof. reflexivity. Qed.

Lemma bindP_get {B} (k : StudBud -> P B) st rest :
  bindP get_selfP k (mkprocess st rest) = k (self st) (mkprocess st rest).
Proof. reflexivity. Qed.

Lemma bindP_print {B} line (k : unit -> P B) st rest :
  bindP (run (print line)) k (mkprocess st rest) =
  k tt (mkprocess (printed line st) rest).
Proof. reflexivity. Qed.

Lemma bindP_ret {A B} (a : A) (k : A -> P B) p : bindP (retP a) k p = k a p.
Proof. reflexivity. Qed.

Lemma bindP_returned {A B} (m : P A) (k : A -> P B) p a p' :
  m p = (Returned a, p') -> bindP m k p = k a p'.
Proof. intros H. unfold bindP. now rewrite H. Qed.

Lemma bindP_raised {A B} (m : P A) (k : A -> P B) p e p' :
  m p = (Raised e, p') -> bindP m k p = (Raised e, p').
Proof. intros H. unfold bindP. now rewrite H. Qed.

Lemma split_nonempty sep s : Str.split sep s <> [].
Proof.
  destruct s as [|c s]; cbn [Str.split]; [discriminate|].
  destruct (Ascii.eqb c sep); [discriminate|].
  destruct (Str.split sep s); discriminate.
Qed.

Lemma split_length sep s : 1 <= List.length (Str.split sep s).
Proof.
  pose proof (split_nonempty sep s). destruct (Str.split sep s); [congruence|].
  simpl. lia.
Qed.

Lemma bindP_attribute {A B} name (field : StudBud -> option A)
    (k : A -> P B) st rest a :
  field (self st) = Some a ->
  bindP (run (attribute name field)) k (mkprocess st rest) =
  k a (mkprocess st rest).
Proof.
  intros H. unfold bindP, run. cbn [proc_state stdin].
  rewrite attribute_run, H. reflexivity.
Qed.

(** The loop over the subjects with enough answers: two lines each. *)
Lemma ask_subjects_run todo : forall answers s w rest strong weak,
  strengths s = Some strong -> weaknesses s = Some weak ->
  List.length answers = 2 * List.length todo ->
  ask_subjects todo (mkprocess (mkstate s w) (answers ++ rest)) =
  (Returned tt,
   mkprocess
     (mkstate
        (set_weaknesses
           (Dict.update weak (combine todo (odds answers)))
           (set_strengths
              (Dict.update strong (combine todo (evens answers))) s))
        (set_stdout (stdout w ++ subject_prompts todo) w)) rest).
Proof.
  induction todo as [|subject todo IH]; intros answers s w rest strong weak Hs Hw Hl.
  - destruct answers; [|discriminate]. cbn [ask_subjects retP app].
    unfold subject_prompts. cbn [combine Dict.update fold_left flat_map].
    rewrite app_nil_r. unfold set_weaknesses, set_strengths.
    cbn [student_name study_plan nlp_model subjects goals strengths weaknesses
         study_preferences areas_to_focus].
    rewrite <- Hs, <- Hw. destruct s, w. reflexivity.
  - destruct answers as [|a [|b answers]]; try (simpl in Hl; lia).
    cbn [ask_subjects app]. rewrite bindP_input_cons.
    erewrite bindP_attribute by exact Hs.
    rewrite bindP_modify, bindP_input_cons.
    erewrite bindP_attribute by exact Hw.
    rewrite bindP_modify.
    unfold printed. cbn [self world].
    erewrite IH; [|reflexivity|reflexivity|simpl in Hl |- *; lia].
    unfold subject_prompts. cbn [flat_map evens odds combine].
    rewrite !update_cons.
    cbn [set_weaknesses set_strengths weaknesses strengths student_name
         study_plan nlp_model subjects goals study_preferences areas_to_focus
         set_stdout stdout rng rng_pos today files fst snd app].
    rewrite <- !app_assoc. reflexivity.
Qed.

(** The loop with too few answers left: it runs out of input. *)
Lemma ask_subjects_eof todo : forall l st strong weak,
  strengths (self st) = Some strong -> weaknesses (self st) = Some weak ->
  List.length l < 2 * List.length todo ->
  exists st',
    ask_subjects todo (mkprocess st l) = (Raised EOFError, mkprocess st' []) /\
    study_preferences (self st') = study_preferences (self st) /\
    beside_profile st st'.
Proof.
  induction todo as [|subject todo IH]; intros l st strong weak Hs Hw Hl;
    [simpl in Hl; lia|].
  cbn [ask_subjects].
  destruct l as [|a [|b l]].
  - rewrite bindP_input_nil. eexists. split; [reflexivity|].
    unfold beside_profile. cbn. auto 7.
  - rewrite bindP_input_cons.
    erewrite bindP_attribute by exact Hs.
    rewrite bindP_modify, bindP_input_nil.
    eexists. split; [reflexivity|]. unfold beside_profile. cbn. auto 7.
  - rewrite bindP_input_cons.
    erewrite bindP_attribute by exact Hs.
    rewrite bindP_modify, bindP_input_cons.
    erewrite bindP_attribute by exact Hw.
    rewrite bindP_modify.
    match goal with |- context [ask_subjects todo (mkprocess ?s l)] =>
      destruct (IH l s (Dict.set subject a strong) (Dict.set subject b weak))
        as (st' & E & H1 & H2) end.
    { reflexivity. }
    { reflexivity. }
    { simpl in Hl |- *. lia. }
    exists st'. split; [exact E|]. split; [exact H1|].
    unfold beside_profile in *. cbn in H2. exact H2.
Qed.

Lemma of_pairs_combine_keys {V} (todo : list string) (values : list V) x :
  List.length todo <= List.length values -> In x todo ->
  In x (Dict.keys (Dict.of_pairs (combine todo values))).
Proof.
  intros Hle Hx. unfold Dict.of_pairs. apply in_keys_update. right.
  unfold Dict.keys.
  assert (E : map fst (combine todo values) = todo).
  { clear x Hx. revert values Hle.
    induction todo as [|t todo IH]; intros [|v values] Hle; simpl in *;
      try reflexivity; try lia.
    f_equal. apply IH. lia. }
  now rewrite E.
Qed.

Lemma evens_odds_length (l : list string) n :
  List.length l = 2 * n ->
  List.length (evens l) = n /\ List.length (odds l) = n.
Proof.
  revert l. induction n as [|n IH]; intros l Hl.
  - destruct l; [split; reflexivity | discriminate].
  - destruct l as [|a [|b l]]; try (simpl in Hl; lia).
    cbn [evens odds List.length]. destruct (IH l); [simpl in Hl; lia|].
    split; congruence.
Qed.

Lemma strip_split_nonempty line : map Str.strip (Str.split "," line) <> [].
Proof. intros E. apply map_eq_nil in E. exact (split_nonempty _ _ E). Qed.

Section GatheringFacts.

Variable int_of_text : string -> option Z.

Lemma gather_student_info_run s w line goal answers time hours duration
    environment methods rest :
  List.length answers = 2 * List.length (Str.split "," line) ->
  int_of_text hours = Some duration ->
  gather_student_info int_of_text
    (mkprocess (mkstate s w)
       (line :: goal :: answers ++
        time :: hours :: environment :: methods :: rest)) =
  (Returned tt,
   mkprocess
     (mkstate
        (mkStudBud (student_name s) (study_plan s) (nlp_model s)
           (map Str.strip (Str.split "," line)) (Some goal)
           (Some (Dict.of_pairs
                    (combine (map Str.strip (Str.split "," line))
                       (evens answers))))
           (Some (Dict.of_pairs
                    (combine (map Str.strip (Str.split "," line))
                       (odds answers))))
           (Some (mkprefs time duration environment
                    (map Str.strip (Str.split "," methods))))
           (areas_to_focus s))
        (set_stdout
           (stdout w ++
            gather_prompts (student_name s) (map Str.strip (Str.split "," line)))
           w))
     rest).
Proof.
  intros Hl Hi. unfold gather_student_info.
  rewrite bindP_get, bindP_print, bindP_input_cons, !bindP_modify.
  rewrite bindP_input_cons, !bindP_modify, bindP_get.
  unfold printed.
  cbn [self world set_subjects set_goals set_strengths set_weaknesses subjects].
  erewrite bindP_returned
    by (apply ask_subjects_run with (strong := []) (weak := []);
        [reflexivity | reflexivity | rewrite length_map; exact Hl]).
  rewrite !bindP_input_cons, Hi, bindP_ret, !bindP_input_cons, !bindP_modify.
  erewrite !bindP_attribute by reflexivity.
  unfold printed, modify_selfP, run, modify_self, gather_prompts, Dict.of_pairs.
  cbn [self world proc_state stdin set_subjects set_goals set_strengths
       set_weaknesses set_study_preferences set_study_methods student_name
       study_plan nlp_model subjects goals strengths weaknesses
       study_preferences areas_to_focus study_time study_duration
       study_environment study_methods set_stdout stdout rng rng_pos today
       files].
  rewrite <- !app_assoc. reflexivity.
Qed.

(** X16. [gather_student_info] on enough input.  With the first line
    splitting into [n] pieces it reads exactly [6 + 2 n] lines and
    returns.  The subjects are the pieces of the first line, stripped, so
    at least one (possibly the empty name); strengths and weaknesses hold
    the answers read per subject, the later answer winning for a subject
    named twice, so every subject has both; there is at least one study
    method.  The name, the study plan, the classifier and the focus areas
    are as before, and so is the world but for the prompts written. *)
Theorem gather_student_info_reads p line goal answers time hours duration
    environment methods rest :
  stdin p = (line :: goal :: answers ++
             time :: hours :: environment :: methods :: rest)%list ->
  List.length answers = 2 * List.length (Str.split "," line) ->
  int_of_text hours = Some duration ->
  exists st',
    gather_student_info int_of_text p = (Returned tt, mkprocess st' rest) /\
    self st' =
      mkStudBud (student_name (self (proc_state p)))
        (study_plan (self (proc_state p))) (nlp_model (self (proc_state p)))
        (map Str.strip (Str.split "," line)) (Some goal)
        (Some (Dict.of_pairs
                 (combine (map Str.strip (Str.split "," line)) (evens answers))))
        (Some (Dict.of_pairs
                 (combine (map Str.strip (Str.split "," line)) (odds answers))))
        (Some (mkprefs time duration environment
                 (map Str.strip (Str.split "," methods))))
        (areas_to_focus (self (proc_state p))) /\
    world st' =
      set_stdout
        (stdout (world (proc_state p)) ++
         gather_prompts (student_name (self (proc_state p)))
           (map Str.strip (Str.split "," line)))
        (world (proc_state p)) /\
    subjects (self st') <> [] /\
    (exists prefs,
       study_preferences (self st') = Some prefs /\ study_methods prefs <> []) /\
    (exists strong weak,
       strengths (self st') = Some strong /\ weaknesses (self st') = Some weak /\
       forall subject, In subject (subjects (self st')) ->
         In subject (Dict.keys strong) /\ In subject (Dict.keys weak)).
Proof.
  intros Hin Hl Hi. destruct p as [[s w] l]. cbn [stdin proc_state self world] in *.
  subst l. eexists. split; [apply gather_student_info_run; eassumption|].
  cbn [self world subjects study_preferences study_methods strengths weaknesses].
  split; [reflexivity|]. split; [reflexivity|].
  split; [apply strip_split_nonempty|]. split.
  { eexists. split; [reflexivity|]. apply strip_split_nonempty. }
  destruct (@evens_odds_length answers _ Hl) as [He Ho].
  do 2 eexists. split; [reflexivity|]. split; [reflexivity|].
  intros subject Hs.
  split; apply of_pairs_combine_keys; trivial; rewrite length_map; lia.
Qed.

Lemma gather_student_info_cases p o p' :
  gather_student_info int_of_text p = (o, p') ->
  beside_profile (proc_state p) (proc_state p') /\
  ((o = Returned tt /\
    lines_needed (hd "" (stdin p)) <= List.length (stdin p) /\
    stdin p' = skipn (lines_needed (hd "" (stdin p))) (stdin p) /\
    subjects (self (proc_state p')) =
      map Str.strip (Str.split "," (hd "" (stdin p))) /\
    exists hours duration,
      nth_error (stdin p) (lines_needed (hd "" (stdin p)) - 3) = Some hours /\
      int_of_text hours = Some duration) \/
   (o = Raised EOFError /\ stdin p' = [] /\
    List.length (stdin p) < lines_needed (hd "" (stdin p))) \/
   (o = Raised ValueError /\
    (exists hours,
       nth_error (stdin p) (lines_needed (hd "" (stdin p)) - 3) = Some hours /\
       int_of_text hours = None) /\
    subjects (self (proc_state p')) =
      map Str.strip (Str.split "," (hd "" (stdin p))) /\
    study_preferences (self (proc_state p')) =
      study_preferences (self (proc_state p)))).
Proof.
  destruct p as [[s w] l]. cbn [stdin proc_state].
  unfold gather_student_info.
  rewrite bindP_get, bindP_print.
  destruct l as [|line [|goal l2]].
  - rewrite bindP_input_nil. intros [= <- <-]. cbn [stdin proc_state hd].
    split; [unfold beside_profile; cbn; auto 7|].
    right. left. repeat split. unfold lines_needed. simpl. lia.
  - rewrite bindP_input_cons, !bindP_modify, bindP_input_nil.
    intros [= <- <-]. cbn [stdin proc_state hd].
    split; [unfold beside_profile; cbn; auto 7|].
    right. left. repeat split. unfold lines_needed. simpl. lia.
  - rewrite bindP_input_cons, !bindP_modify.
    rewrite bindP_input_cons, !bindP_modify, bindP_get.
    unfold printed.
    cbn [self world set_subjects set_goals set_strengths set_weaknesses
         subjects hd].
    pose proof (split_length "," line) as Hn.
    destruct (Nat.lt_ge_cases (List.length l2)
                (2 * List.length (Str.split "," line))) as [Hlt|Hge].
    + match goal with |- context [bindP (ask_subjects ?t) _ (mkprocess ?st l2)] =>
        destruct (@ask_subjects_eof t l2 st [] []) as (st' & E & Hp & Hb) end.
      { reflexivity. }
      { reflexivity. }
      { now rewrite length_map. }
      erewrite bindP_raised by exact E.
      intros [= <- <-]. cbn [stdin proc_state].
      split; [unfold beside_profile in *; cbn in Hb; exact Hb|].
      right. left. repeat split. unfold lines_needed. simpl. lia.
    + rewrite <- (firstn_skipn (2 * List.length (Str.split "," line)) l2).
      set (answers := firstn (2 * List.length (Str.split "," line)) l2).
      set (l3 := skipn (2 * List.length (Str.split "," line)) l2).
      assert (Ha : List.length answers = 2 * List.length (Str.split "," line)).
      { unfold answers. rewrite length_firstn. lia. }
      erewrite bindP_returned
        by (apply ask_subjects_run with (strong := []) (weak := []);
            [reflexivity | reflexivity | rewrite length_map; exact Ha]).
      assert (Hnth : forall k, nth_error (line :: goal :: answers ++ l3)
                                 (2 + 2 * List.length (Str.split "," line) + k) =
                               nth_error l3 k).
      { intros k. cbn [Nat.add nth_error].
        rewrite nth_error_app2 by lia. f_equal. lia. }
      assert (Hskip : forall k, skipn (2 + 2 * List.length (Str.split "," line) + k)
                                  (line :: goal :: answers ++ l3) = skipn k l3).
      { intros k. cbn [Nat.add skipn].
        rewrite skipn_app, skipn_all2 by lia.
        cbn [app]. f_equal. lia. }
      assert (Hlen : List.length (line :: goal :: answers ++ l3) =
                     2 + 2 * List.length (Str.split "," line) + List.length l3).
      { cbn [List.length]. rewrite length_app. lia. }
      unfold lines_needed. rewrite Hlen.
      replace (6 + 2 * List.length (Str.split "," line) - 3)
        with (2 + 2 * List.length (Str.split "," line) + 1) by lia.
      replace (6 + 2 * List.length (Str.split "," line))
        with (2 + 2 * List.length (Str.split "," line) + 4) by lia.
      rewrite Hnth, Hskip.
      clearbody answers l3. clear Hnth Hskip Hlen.
      destruct l3 as [|time [|hours l4]].
      * rewrite bindP_input_nil. intros [= <- <-]. cbn [stdin proc_state].
        split; [unfold beside_profile; cbn; auto 7|].
        right. left. repeat split. simpl. lia.
      * rewrite bindP_input_cons, bindP_input_nil. intros [= <- <-].
        cbn [stdin proc_state].
        split; [unfold beside_profile; cbn; auto 7|].
        right. left. repeat split. simpl. lia.
      * rewrite !bindP_input_cons. cbn [nth_error].
        destruct (int_of_text hours) as [duration|] eqn:Hi.
        2:{ intros [= <- <-]. cbn [stdin proc_state].
            split; [unfold beside_profile; cbn; auto 7|].
            right. right. split; [reflexivity|].
            split; [exists hours; auto|]. split; reflexivity. }
        rewrite bindP_ret.
        destruct l4 as [|environment [|methods rest]].
        -- rewrite bindP_input_nil. intros [= <- <-]. cbn [stdin proc_state].
           split; [unfold beside_profile; cbn; auto 7|].
           right. left. repeat split. simpl. lia.
        -- rewrite bindP_input_cons, bindP_input_nil. intros [= <- <-].
           cbn [stdin proc_state].
           split; [unfold beside_profile; cbn; auto 7|].
           right. left. repeat split. simpl. lia.
        -- rewrite !bindP_input_cons, !bindP_modify.
           erewrite !bindP_attribute by reflexivity.
           intros [= <- <-].
           cbn [stdin proc_state].
           split; [unfold beside_profile; cbn; auto 7|].
           left. split; [reflexivity|]. split; [simpl; lia|].
           split; [reflexivity|]. split; [reflexivity|].
           exists hours, duration. auto.
Qed.


(** X17. The outcomes of [gather_student_info]: it returns, or raises
    [EOFError] or [ValueError], nothing else.  It returns exactly when
    the input holds the [6 + 2 n] lines it needs and the line for the
    hours is an integer; it raises [EOFError] when the input ends before
    that, with all of it consumed; it raises [ValueError] at the line for
    the hours, and then the study preferences are still the old ones
    although subjects, goals, strengths and weaknesses are already
    replaced.  In no case does it touch the name, the study plan, the
    classifier, the focus areas or the files. *)
Theorem gather_student_info_outcomes p o p' :
  gather_student_info int_of_text p = (o, p') ->
  beside_profile (proc_state p) (proc_state p') /\
  ((o = Returned tt /\
    lines_needed (hd "" (stdin p)) <= List.length (stdin p) /\
    stdin p' = skipn (lines_needed (hd "" (stdin p))) (stdin p) /\
    exists hours duration,
      nth_error (stdin p) (lines_needed (hd "" (stdin p)) - 3) = Some hours /\
      int_of_text hours = Some duration) \/
   (o = Raised EOFError /\ stdin p' = [] /\
    List.length (stdin p) < lines_needed (hd "" (stdin p))) \/
   (o = Raised ValueError /\
    (exists hours,
       nth_error (stdin p) (lines_needed (hd "" (stdin p)) - 3) = Some hours /\
       int_of_text hours = None) /\
    subjects (self (proc_state p')) =
      map Str.strip (Str.split "," (hd "" (stdin p))) /\
    study_preferences (self (proc_state p')) =
      study_preferences (self (proc_state p)))).
Proof.
  intros H. apply gather_student_info_cases in H as [Hb H].
  split; [exact Hb|].
  destruct H as [(Ho & Hl & Hs & _ & Hh)|[H|H]]; auto.
Qed.

End GatheringFacts.

Lemma gather_student_info_reads_witness :
  exists st',
    gather_student_info Session.int_of_text Session.start =
      (Returned tt, mkprocess st' []) /\
    subjects (self st') = ["Math"; "History"] /\
    weaknesses (self st') = Some [("Math", "Calculus"); ("History", "Essays")].
Proof.
  destruct (@gather_student_info_reads Session.int_of_text Session.start
              "Math, History" "Get an A in Math"
              ["Algebra"; "Calculus"; "Dates"; "Essays"]
              "Morning" "1" 1%Z "Library" "Flashcards" [])
    as (st' & E & Hs & _); try reflexivity.
  exists st'. split; [exact E|]. rewrite Hs. split; reflexivity.
Defined.

Lemma gather_student_info_outcomes_witness :
  fst (gather_student_info Session.int_of_text
         (mkprocess (mkstate Sample.nobody Sample.earth)
            ["Math"; "Pass"; "Algebra"; "Calculus"; "Morning"; "two"])) =
  Raised ValueError.
Proof.
  destruct (gather_student_info Session.int_of_text
              (mkprocess (mkstate Sample.nobody Sample.earth)
                 ["Math"; "Pass"; "Algebra"; "Calculus"; "Morning"; "two"]))
    as [o p'] eqn:E.
  destruct (gather_student_info_outcomes _ _ E)
    as (_ & [(-> & _)|[(-> & _)|(-> & _)]]).
  - exfalso. vm_compute in E. discriminate E.
  - exfalso. vm_compute in E. discriminate E.
  - reflexivity.
Defined.

(** ** Showing the plan *)

Lemma add_lines_nil p : add_lines [] p = p.
Proof.
  destruct p as [[s [o g n t f]] l]. unfold add_lines. cbn.
  now rewrite app_nil_r.
Qed.

Lemma add_lines_app l1 l2 p : add_lines l2 (add_lines l1 p) = add_lines (l1 ++ l2) p.
Proof. unfold add_lines. cbn. now rewrite app_assoc. Qed.

Lemma bindP_print_lines {B} line (k : unit -> P B) p :
  bindP (run (print line)) k p = k tt (add_lines [line] p).
Proof. reflexivity. Qed.

Lemma subscript_cases v key :
  (exists x, plan_get key v = Some x /\ subscript v key = retP x) \/
  (exists e, subscript v key = raiseP e /\ display_error e).
Proof.
  unfold display_error.
  destruct v; try (right; eexists; split; [reflexivity|]; auto).
  cbn [subscript plan_get]. destruct (Dict.get key d) as [x|].
  - left. eauto.
  - right. eexists. split; [reflexivity|]. eauto.
Qed.

Lemma iterate_cases v :
  (exists l, iterate v = retP l) \/ iterate v = raiseP TypeError.
Proof. destruct v; cbn; eauto. Qed.

Section DisplayingFacts.

Variable float_repr : Q -> string.
Variable container_repr : value -> string.

Lemma display_blocks_prints blocks : forall p o p',
  display_blocks float_repr container_repr blocks p = (o, p') ->
  (exists lines, p' = add_lines lines p) /\
  (o = Returned tt \/ exists e, o = Raised e /\ display_error e).
Proof.
  induction blocks as [|block rest IH]; intros p o p'.
  - intros [= <- <-]. split; [exists []; now rewrite add_lines_nil | now left].
  - cbn [display_blocks].
    destruct (subscript_cases block "subject") as [(x1 & _ & ->)|(e & -> & He)].
    2:{ intros [= <- <-]. split; [exists []; now rewrite add_lines_nil|].
        right. eauto. }
    rewrite bindP_ret, bindP_print_lines.
    destruct (subscript_cases block "time") as [(x2 & _ & ->)|(e & -> & He)].
    2:{ intros [= <- <-]. split; [eexists; reflexivity|]. right. eauto. }
    rewrite bindP_ret, bindP_print_lines, add_lines_app.
    destruct (subscript_cases block "task") as [(x3 & _ & ->)|(e & -> & He)].
    2:{ intros [= <- <-]. split; [eexists; reflexivity|]. right. eauto. }
    rewrite bindP_ret, bindP_print_lines, add_lines_app.
    destruct (subscript_cases block "priority") as [(x4 & _ & ->)|(e & -> & He)].
    2:{ intros [= <- <-]. split; [eexists; reflexivity|]. right. eauto. }
    rewrite bindP_ret, !bindP_print_lines, !add_lines_app.
    intros H. apply IH in H as [(lines & ->) Ho]. rewrite add_lines_app.
    split; [eexists; reflexivity | exact Ho].
Qed.

Lemma display_days_prints items : forall p o p',
  display_days float_repr container_repr items p = (o, p') ->
  (exists lines, p' = add_lines lines p) /\
  (o = Returned tt \/ exists e, o = Raised e /\ display_error e).
Proof.
  induction items as [|[date daily_plan] rest IH]; intros p o p'.
  - intros [= <- <-]. split; [exists []; now rewrite add_lines_nil | now left].
  - cbn [display_days]. rewrite bindP_print_lines.
    destruct (subscript_cases daily_plan "environment")
      as [(x1 & _ & ->)|(e & -> & He)].
    2:{ intros [= <- <-]. split; [eexists; reflexivity|]. right. eauto. }
    rewrite bindP_ret, bindP_print_lines, add_lines_app.
    destruct (subscript_cases daily_plan "preferred_time")
      as [(x2 & _ & ->)|(e & -> & He)].
    2:{ intros [= <- <-]. split; [eexists; reflexivity|]. right. eauto. }
    rewrite bindP_ret, bindP_print_lines, add_lines_app.
    destruct (subscript_cases daily_plan "study_blocks")
      as [(x3 & _ & ->)|(e & -> & He)].
    2:{ intros [= <- <-]. split; [eexists; reflexivity|]. right. eauto. }
    rewrite bindP_ret.
    destruct (iterate_cases x3) as [(blocks & ->)| ->].
    2:{ intros [= <- <-]. split; [eexists; reflexivity|]. right.
        eexists. split; [reflexivity|]. unfold display_error. auto. }
    rewrite bindP_ret. unfold bindP at 1.
    destruct (display_blocks _ _ blocks _) as [[[]|e] p1] eqn:Eb;
      apply display_blocks_prints in Eb as [(l1 & ->) Ho].
    + intros H. apply IH in H as [(l2 & ->) Ho2]. rewrite !add_lines_app.
      split; [eexists; reflexivity | exact Ho2].
    + intros [= <- <-]. rewrite add_lines_app.
      split; [eexists; reflexivity | exact Ho].
Qed.

(** X18. [display_study_plan] only prints.  Whatever the study plan
    holds, the object, the files, the random generator and the input are
    as before and standard output is extended; and the call returns or
    raises [AttributeError], [TypeError] or [KeyError], which happens
    only on a plan that does not have the shape it expects. *)
Theorem display_study_plan_only_prints p o p' :
  display_study_plan float_repr container_repr p = (o, p') ->
  (exists lines, lines <> [] /\ p' = add_lines lines p) /\
  (o = Returned tt \/ exists e, o = Raised e /\ display_error e).
Proof.
  destruct p as [st l]. unfold display_study_plan. rewrite bindP_get.
  destruct (truthy (study_plan (self st))) eqn:Et; cbn [negb].
  - rewrite bindP_print_lines.
    destruct (study_plan (self st)) as [| | | | | |d];
      try (intros [= <- <-];
           split; [eexists; split; [|reflexivity]; discriminate|];
           right; eexists; split; [reflexivity|]; unfold display_error; auto).
    intros H. apply display_days_prints in H as [(lines & ->) Ho].
    rewrite add_lines_app. split; [|exact Ho].
    eexists. split; [|reflexivity]. discriminate.
  - intros [= <- <-]. split; [|now left].
    exists [no_plan_message]. split; [discriminate | reflexivity].
Qed.

Lemma display_blocks_shaped blocks : forall p,
  Forall block_shaped blocks ->
  display_blocks float_repr container_repr blocks p =
  (Returned tt, add_lines (flat_map (block_lines float_repr) blocks) p).
Proof.
  induction blocks as [|block rest IH]; intros p F.
  - cbn. now rewrite add_lines_nil.
  - inversion F as [|? ? (subject & time & task & priority & -> & _) F']; subst.
    cbn [display_blocks].
    change (subscript (study_block subject time task priority) "subject")
      with (@retP value (VStr subject)).
    change (subscript (study_block subject time task priority) "time")
      with (@retP value (VFloat time)).
    change (subscript (study_block subject time task priority) "task")
      with (@retP value (VStr task)).
    change (subscript (study_block subject time task priority) "priority")
      with (@retP value (VStr priority)).
    repeat first [rewrite bindP_ret | rewrite bindP_print_lines].
    rewrite IH by assumption. rewrite !add_lines_app. reflexivity.
Qed.

Lemma display_days_shaped items : forall p,
  Forall (fun kv => day_shaped (fst kv) (snd kv)) items ->
  display_days float_repr container_repr items p =
  (Returned tt,
   add_lines (flat_map (fun kv => day_lines float_repr (fst kv) (snd kv)) items) p).
Proof.
  induction items as [|[date daily_plan] rest IH]; intros p F.
  - cbn. now rewrite add_lines_nil.
  - inversion F as [|? ? (blocks & environment & preferred & E & Fb) F']; subst.
    cbn [fst snd] in E. subst daily_plan.
    cbn [display_days]. rewrite bindP_print_lines.
    match goal with |- context [subscript ?v "environment"] =>
      change (subscript v "environment") with (@retP value (VStr environment));
      change (subscript v "preferred_time") with (@retP value (VStr preferred));
      change (subscript v "study_blocks") with (@retP value (VList blocks))
    end.
    repeat first [rewrite bindP_ret | rewrite bindP_print_lines].
    cbn [iterate]. rewrite bindP_ret.
    erewrite bindP_returned by (apply display_blocks_shaped; exact Fb).
    rewrite IH by assumption. rewrite !add_lines_app. reflexivity.
Qed.

Lemma block_lines_length b :
  block_shaped b -> List.length (block_lines float_repr b) = 5.
Proof. intros (subject & time & task & priority & -> & _). reflexivity. Qed.

Lemma day_lines_length key day :
  day_shaped key day ->
  List.length (day_lines float_repr key day) = 3 + 5 * List.length (plan_blocks day).
Proof.
  intros (blocks & environment & preferred & -> & F).
  change (List.length (day_lines float_repr key _))
    with (3 + List.length (flat_map (block_lines float_repr) blocks)).
  change (plan_blocks _) with blocks. f_equal.
  induction F as [|b l Hb F IH]; [reflexivity|].
  cbn [flat_map List.length]. rewrite length_app, IH, (block_lines_length Hb). lia.
Qed.

Lemma display_study_plan_run p :
  plan_shaped (study_plan (self (proc_state p))) ->
  display_study_plan float_repr container_repr p =
  (Returned tt,
   add_lines (plan_lines float_repr (student_name (self (proc_state p)))
                (study_plan (self (proc_state p)))) p).
Proof.
  destruct p as [st l]. cbn [proc_state]. intros (d & Hp & F).
  unfold display_study_plan. rewrite bindP_get, Hp.
  destruct d as [|kv d]; [reflexivity|].
  cbn [truthy negb]. rewrite bindP_print_lines.
  rewrite display_days_shaped by exact F. rewrite add_lines_app. reflexivity.
Qed.

(** X19. On a plan of the shape that [generate_study_plan] builds,
    [display_study_plan] returns: for an empty plan it prints the one
    line saying so; otherwise the title, three lines per day and five per
    block, in the order of the plan.  What it prints depends only on the
    name and the plan. *)
Theorem display_study_plan_shaped p :
  plan_shaped (study_plan (self (proc_state p))) ->
  display_study_plan float_repr container_repr p =
  (Returned tt,
   add_lines (plan_lines float_repr (student_name (self (proc_state p)))
                (study_plan (self (proc_state p)))) p) /\
  List.length (plan_lines float_repr (student_name (self (proc_state p)))
                 (study_plan (self (proc_state p)))) =
  if truthy (study_plan (self (proc_state p)))
  then 1 + 3 * List.length (plan_keys (study_plan (self (proc_state p)))) +
       5 * count_blocks (study_plan (self (proc_state p)))
  else 1.
Proof.
  intros H. split; [now apply display_study_plan_run|].
  destruct H as (d & -> & F).
  destruct d as [|kv d]; [reflexivity|].
  cbn [truthy plan_lines plan_keys count_blocks List.length].
  generalize (kv :: d) F. clear. intros items F.
  induction F as [|[key day] items Hd F IH]; [reflexivity|].
  cbn [flat_map Dict.keys map list_sum List.length fst snd] in *.
  rewrite length_app, (day_lines_length Hd). unfold Dict.keys in IH.
  cbn [list_sum fold_right]. change (fold_right Nat.add 0) with list_sum. lia.
Qed.

(** X20. [display_study_plan] on a plan without days.  Whatever counts
    as false, the empty dictionary of a new object but also [None], an
    empty list or string or a zero loaded from a file, gives the message
    that no plan was generated; a loaded value that counts as true and is
    not a dictionary gives the title and then [AttributeError]. *)
Theorem display_study_plan_without_days p :
  is_dict (study_plan (self (proc_state p))) &&
    truthy (study_plan (self (proc_state p))) = false ->
  display_study_plan float_repr container_repr p =
  if truthy (study_plan (self (proc_state p)))
  then (Raised (AttributeError "items"),
        add_lines [plan_title (student_name (self (proc_state p)))] p)
  else (Returned tt, add_lines [no_plan_message] p).
Proof.
  destruct p as [st l]. cbn [proc_state]. intros H.
  unfold display_study_plan. rewrite bindP_get.
  destruct (truthy (study_plan (self st))) eqn:Et; cbn [negb]; [|reflexivity].
  rewrite bindP_print_lines.
  destruct (study_plan (self st)); try reflexivity. discriminate H.
Qed.

End DisplayingFacts.

Lemma display_study_plan_only_prints_witness :
  exists lines,
    snd (display_study_plan Sample.float_repr Session.container_repr
           (mkprocess (with_self (set_study_plan (VList [VInt 1])
                                    (Sample.alice Sample.positive))
                         (Sample.st Sample.positive)) [])) =
    add_lines lines
      (mkprocess (with_self (set_study_plan (VList [VInt 1])
                               (Sample.alice Sample.positive))
                    (Sample.st Sample.positive)) []).
Proof.
  destruct (@display_study_plan_only_prints Sample.float_repr
              Session.container_repr
              (mkprocess (with_self (set_study_plan (VList [VInt 1])
                                       (Sample.alice Sample.positive))
                            (Sample.st Sample.positive)) [])
              (fst (display_study_plan Sample.float_repr Session.container_repr
                      (mkprocess (with_self (set_study_plan (VList [VInt 1])
                                               (Sample.alice Sample.positive))
                                    (Sample.st Sample.positive)) [])))
              (snd (display_study_plan Sample.float_repr Session.container_repr
                      (mkprocess (with_self (set_study_plan (VList [VInt 1])
                                               (Sample.alice Sample.positive))
                                    (Sample.st Sample.positive)) []))))
    as [(lines & _ & E) _].
  - apply surjective_pairing.
  - exists lines. exact E.
Defined.

Lemma display_study_plan_shaped_witness :
  List.length
    (stdout (world (proc_state (snd
       (display_study_plan Sample.float_repr Session.container_repr
          (mkprocess (snd (generate_study_plan None 2 (Sample.st Sample.positive)))
             [])))))) = 27.
Proof.
  destruct (@display_study_plan_shaped Sample.float_repr Session.container_repr
              (mkprocess (snd (generate_study_plan None 2
                                 (Sample.st Sample.positive))) []))
    as [E Hn].
  - apply (@plan_days_shaped 2 (Date.mkdate 2024 1 1) (Sample.st Sample.positive)
             (fst (generate_study_plan None 2 (Sample.st Sample.positive)))).
    + apply surjective_pairing.
    + exists []. split; [reflexivity | constructor].
  - rewrite E. cbn [snd add_lines proc_state world set_stdout stdout].
    rewrite length_app. cbn [proc_state] in Hn. rewrite Hn. reflexivity.
Defined.

Lemma display_study_plan_without_days_witness :
  display_study_plan Sample.float_repr Session.container_repr
    (mkprocess (with_self (set_study_plan (VList [VInt 1])
                             (Sample.alice Sample.positive))
                  (Sample.st Sample.positive)) []) =
  (Raised (AttributeError "items"),
   add_lines [plan_title "Alice"]
     (mkprocess (with_self (set_study_plan (VList [VInt 1])
                              (Sample.alice Sample.positive))
                   (Sample.st Sample.positive)) [])).
Proof.
  apply (@display_study_plan_without_days Sample.float_repr
           Session.container_repr
           (mkprocess (with_self (set_study_plan (VList [VInt 1])
                                    (Sample.alice Sample.positive))
                         (Sample.st Sample.positive)) [])).
  reflexivity.
Defined.

(** ** What plan generation prints *)

Lemma prioritize_task_prints subject task st r st' :
  prioritize_task subject task st = (r, st') ->
  exists lines,
    stdout (world st') = (stdout (world st) ++ lines)%list /\
    Forall (error_line_of (nlp_model (self st))) lines.
Proof.
  intros H. apply prioritize_task_world in H as [_ ->].
  eexists. split; [reflexivity|].
  destruct (nlp_model (self st) task) as [| m |] eqn:E; repeat constructor.
  now exists task, m.
Qed.

Lemma random_choice_stdout seq st r st' :
  random_choice seq st = (r, st') -> stdout (world st') = stdout (world st).
Proof.
  unfold random_choice. destruct seq; intros [= <- <-]; reflexivity.
Qed.

Lemma build_blocks_prints t todo : forall acc st r st',
  build_blocks t todo acc st = (r, st') ->
  exists lines,
    stdout (world st') = (stdout (world st) ++ lines)%list /\
    Forall (error_line_of (nlp_model (self st))) lines.
Proof.
  induction todo as [|subject rest IH]; intros acc st r st'.
  - intros [= <- <-]. exists []. now rewrite app_nil_r.
  - rewrite build_blocks_step.
    destruct (areas_to_focus (self st)) as [areas|].
    2:{ intros [= <- <-]. exists []. now rewrite app_nil_r. }
    destruct (Dict.get subject areas) as [focus|].
    2:{ intros [= <- <-]. exists []. now rewrite app_nil_r. }
    destruct (study_preferences (self st)) as [prefs|].
    2:{ intros [= <- <-]. exists []. now rewrite app_nil_r. }
    destruct (random_choice _ st) as [[method|e] st1] eqn:Er;
      pose proof (random_choice_same _ _ Er) as [S1 _];
      apply random_choice_stdout in Er.
    2:{ intros [= <- <-]. exists []. now rewrite app_nil_r. }
    destruct (prioritize_task _ _ st1) as [[priority|e] st2] eqn:Ep;
      pose proof (prioritize_task_same _ _ _ Ep) as [_ [S2 _]];
      apply prioritize_task_prints in Ep as (l1 & E1 & F1);
      rewrite S1 in F1.
    + intros H. apply IH in H as (l2 & E2 & F2). rewrite S2, S1 in F2.
      exists (l1 ++ l2)%list. split; [|now apply Forall_app].
      now rewrite E2, E1, Er, app_assoc.
    + intros [= <- <-]. exists l1. split; [congruence | assumption].
Qed.

Lemma generate_daily_plan_prints d st r st' :
  generate_daily_plan d st = (r, st') ->
  exists lines,
    stdout (world st') = (stdout (world st) ++ lines)%list /\
    Forall (error_line_of (nlp_model (self st))) lines.
Proof.
  rewrite generate_daily_plan_eq.
  destruct (study_preferences (self st)).
  2:{ intros [= <- <-]. exists []. now rewrite app_nil_r. }
  destruct (Z.eqb _ 0).
  { intros [= <- <-]. exists []. now rewrite app_nil_r. }
  destruct (Float.overflows _ _).
  { intros [= <- <-]. exists []. now rewrite app_nil_r. }
  destruct (build_blocks _ _ _ st) as [[blocks|e] st1] eqn:Eb;
    apply build_blocks_prints in Eb; [|intros [= <- <-]; exact Eb].
  destruct (study_preferences (self st1)); intros [= <- <-]; exact Eb.
Qed.

Lemma plan_days_prints n : forall d st r st',
  plan_days n d st = (r, st') ->
  exists lines,
    stdout (world st') = (stdout (world st) ++ lines)%list /\
    Forall (error_line_of (nlp_model (self st))) lines.
Proof.
  induction n as [|n IH]; intros d st r st'.
  - intros [= <- <-]. exists []. now rewrite app_nil_r.
  - cbn [plan_days]. unfold bind at 1.
    destruct (generate_daily_plan d st) as [[plan|e] st1] eqn:Eg;
      pose proof (generate_daily_plan_same _ _ Eg) as [S1 _];
      apply generate_daily_plan_prints in Eg as (l1 & E1 & F1).
    2:{ intros [= <- <-]. eauto. }
    unfold bind at 1.
    pose proof (setitem_study_plan_run (Date.strftime_Ymd d) plan st1) as Hset.
    destruct (study_plan (self st1));
      try (rewrite Hset; intros [= <- <-]; eauto).
    rewrite Hset. cbv beta iota. unfold bind at 1, lift.
    destruct (Date.add_one_day d) as [d1|e].
    + intros H. apply IH in H as (l2 & E2 & F2).
      cbn [world self set_study_plan nlp_model] in E2, F2. rewrite S1 in F2.
      exists (l1 ++ l2)%list. split; [|now apply Forall_app].
      now rewrite E2, E1, app_assoc.
    + intros [= <- <-]. cbn [world]. eauto.
Qed.

(** X21. All that [generate_study_plan] prints: the message about
    missing subjects when there are none, and otherwise one line per
    failure of the classifier, so nothing when the classifier always
    answers.  It never prints the plan. *)
Theorem generate_study_plan_prints start_date num_days st r st' :
  generate_study_plan start_date num_days st = (r, st') ->
  exists lines,
    stdout (world st') = (stdout (world st) ++ lines)%list /\
    (subjects (self st) = [] -> lines = [no_subjects_message]) /\
    (subjects (self st) <> [] ->
     Forall (error_line_of (nlp_model (self st))) lines /\
     ((forall task message, nlp_model (self st) task <> ClassifierRaised message) ->
      lines = [])).
Proof.
  unfold generate_study_plan, bind, get_self.
  destruct (subjects (self st)) as [|subject rest].
  - intros [= <- <-]. exists [no_subjects_message].
    split; [reflexivity|]. split; [reflexivity | congruence].
  - rewrite start_date_run. intros H.
    apply plan_days_prints in H as (lines & E & F).
    exists lines. split; [exact E|]. split; [discriminate|].
    intros _. split; [exact F|]. intros Hn.
    destruct F as [|line l (task & m & Hc & _) _]; [reflexivity|].
    exfalso. exact (Hn _ _ Hc).
Qed.

Lemma generate_study_plan_prints_witness :
  stdout (world (snd (generate_study_plan None 3 (Sample.st Sample.positive)))) = [].
Proof.
  destruct (@generate_study_plan_prints None 3 (Sample.st Sample.positive)
              (fst (generate_study_plan None 3 (Sample.st Sample.positive)))
              (snd (generate_study_plan None 3 (Sample.st Sample.positive))))
    as (lines & E & _ & H).
  - apply surjective_pairing.
  - rewrite E. destruct H as [_ H]; [discriminate|].
    rewrite H; [reflexivity|]. discriminate.
Defined.

(** ** The example session *)

Lemma bindP_run_normal {A B} (m : M A) (k : A -> P B) st l a st' :
  m st = (Normal a, st') ->
  bindP (run m) k (mkprocess st l) = k a (mkprocess st' l).
Proof. intros H. unfold bindP, run. cbn [proc_state stdin]. now rewrite H. Qed.

Lemma load_study_plan_run fos filename st text plan :
  Dict.get filename (files (world st)) = Some text ->
  loads fos text = Normal plan ->
  load_study_plan fos filename st =
  (Normal tt,
   printed (loaded_message filename)
     (with_self (set_study_plan plan (self st)) st)).
Proof.
  intros Hf Hl. unfold load_study_plan, try_except, bind, read_file, lift.
  rewrite Hf, Hl. reflexivity.
Qed.

Section MainFacts.

Variable int_of_text : string -> option Z.
Variable float_repr : Q -> string.
Variable float_of_string : string -> Q.
Variable container_repr : value -> string.
Variable model : string -> classification.

(** X22. The example session runs to its end.  Take the answers that
    [gather_student_info] needs on standard input, with a number of hours
    that, divided by the number of subjects, is within the floats; a
    classifier whose scores are numbers; five days from today on the
    calendar; and a time per subject that [float.__repr__] writes as a
    number token that [float()] reads back.  Then the program returns;
    the new object holds a plan of five days in the shape above; the file
    holds its encoding; the object made afterwards loads an equal plan,
    and the second display prints line for line what the first printed.
    In between, plan generation printed only lines about failures of the
    classifier. *)
Theorem main_runs p line goal answers time hours duration environment
    methods rest dN :
  stdin p = (line :: goal :: answers ++
             time :: hours :: environment :: methods :: rest)%list ->
  List.length answers = 2 * List.length (Str.split "," line) ->
  int_of_text hours = Some duration ->
  Float.overflows duration
    (Z.of_nat (List.length (Str.split "," line))) = false ->
  (forall task label score,
     model task = Answered label score ->
     is_NEGATIVE label = true -> numeric score = true) ->
  Date.valid (today (world (proc_state p))) ->
  Date.add_days 5 (today (world (proc_state p))) = Some dN ->
  storable float_repr float_of_string
    (VFloat (py_max half
               (Float.div duration
                  (Z.of_nat (List.length (Str.split "," line)))))) ->
  exists plan errors p',
    main int_of_text float_repr float_of_string container_repr model p =
      (Returned tt, p') /\
    stdin p' = rest /\
    study_plan (self (proc_state p')) = plan /\
    plan_shaped plan /\
    List.length (plan_keys plan) = 5 /\
    Dict.get "alice_study_plan.json" (files (world (proc_state p'))) =
      Some (dumps float_repr plan) /\
    Forall (error_line_of model) errors /\
    stdout (world (proc_state p')) =
      (stdout (world (proc_state p)) ++
       gather_prompts "Alice" (map Str.strip (Str.split "," line)) ++
       [analyzing_message] ++ errors ++
       plan_lines float_repr "Alice" plan ++
       [saved_message "alice_study_plan.json";
        loaded_message "alice_study_plan.json"] ++
       plan_lines float_repr "Alice" plan)%list.
Proof.
  intros Hin Hl Hi Hrange Hscores Hv Hd Hf. destruct p as [[s0 w0] l].
  cbn [stdin proc_state self world] in *. subst l.
  unfold main, construct. rewrite bindP_modify. cbn [self world].
  erewrite bindP_returned by (apply gather_student_info_run; eassumption).
  destruct (@evens_odds_length answers _ Hl) as [He Ho].
  match goal with |- context [run analyze_student_data] =>
    match goal with |- context [mkprocess ?st rest] => set (st2 := st) end
  end.
  assert (Hk2 : forall subject, In subject (subjects (self st2)) ->
                  In subject (Dict.keys (known_weaknesses (self st2)))).
  { intros subject Hs.
    cbn [st2 self subjects weaknesses known_weaknesses init] in *.
    apply of_pairs_combine_keys; trivial. rewrite length_map. lia. }
  erewrite bindP_run_normal by (apply analyze_student_data_run; exact Hk2).
  set (st3 := printed analyzing_message _).
  assert (Hs3 : subjects (self st3) <> []) by apply strip_split_nonempty.
  assert (Hr3 : ready (self st3)).
  { do 3 eexists.
    split; [reflexivity|]. split; [reflexivity|]. split; [reflexivity|].
    split; [apply strip_split_nonempty|]. split; [|split].
    - unfold in_float_range.
      cbn [st3 st2 printed with_self self set_areas_to_focus subjects
           study_duration].
      rewrite length_map. exact Hrange.
    - exact Hscores.
    - intros subject Hs. split; [|now apply Hk2].
      unfold focus_of, Dict.of_pairs. apply in_keys_update. right.
      rewrite weak_pairs_all_keys by exact Hk2. exact Hs. }
  destruct (@plan_days_total 5 (today w0) st3 [] dN Hs3 Hr3 eq_refl Hd)
    as (entries & st4 & E & Hself & F).
  assert (Eg : generate_study_plan None 5 st3 = (Normal tt, st4)).
  { rewrite generate_study_plan_run by exact Hs3. exact E. }
  erewrite bindP_run_normal by exact Eg.
  pose proof (plan_days_frame _ _ _ E) as [Hfiles _].
  pose proof (plan_days_prints _ _ _ E) as (errors & Hout & Ferr).
  assert (Hsh : plan_shaped (study_plan (self st4))).
  { apply (plan_days_shaped _ _ _ E). exists []. split; [reflexivity|constructor]. }
  assert (Hst : storable float_repr float_of_string (study_plan (self st4))).
  { apply (@plan_days_storable float_repr float_of_string 5 (today w0) st3
             (Normal tt) st4); [| |exact E].
    - intros prefs [= <-].
      change (time_per_subject_of _ _)
        with (py_max half
                (Float.div duration
                   (Z.of_nat (List.length
                                (map Str.strip (Str.split "," line)))))).
      rewrite length_map. exact Hf.
    - constructor; constructor. }
  assert (Hname : student_name (self st4) = "Alice") by (rewrite Hself; reflexivity).
  erewrite bindP_returned by (apply display_study_plan_run; exact Hsh).
  cbn [proc_state self]. rewrite Hname.
  unfold add_lines at 1. cbn [proc_state stdin self world].
  erewrite bindP_run_normal by reflexivity.
  rewrite bindP_modify.
  cbn [self world set_files set_stdout files stdout rng rng_pos today].
  erewrite bindP_run_normal.
  2:{ apply load_study_plan_run with (text := dumps float_repr (study_plan (self st4))).
      - cbn [world files]. apply get_set_eq.
      - apply loads_dumps. exact Hst. }
  rewrite display_study_plan_run by exact Hsh.
  exists (study_plan (self st4)), errors. eexists. split; [reflexivity|].
  cbn [add_lines proc_state stdin self world printed with_self set_study_plan
       study_plan student_name init set_stdout stdout files].
  split; [reflexivity|]. split; [reflexivity|]. split; [exact Hsh|].
  split; [|split; [apply get_set_eq|split]].
  - rewrite Hself. cbn [study_plan set_study_plan plan_keys].
    assert (Hkeys : Dict.keys entries =
                    map Date.strftime_Ymd (Date.days_from 5 (today w0))).
    { clear - F. induction F as [|di kv ds l' [Hk _] F' IH]; [reflexivity|].
      cbn [map Dict.keys] in *. unfold Dict.keys in IH. now rewrite Hk, IH. }
    rewrite update_fresh.
    + cbn [app]. unfold Dict.keys. rewrite length_map, <- (Forall2_length F).
      eapply DateRangeFacts.days_from_length; eauto.
    + rewrite Hkeys. now apply DateRangeFacts.days_from_keys_NoDup.
    + intros k _ [].
  - exact Ferr.
  - rewrite Hout.
    cbn [st3 st2 printed with_self world self set_stdout stdout].
    unfold saved_message. rewrite <- !app_assoc. reflexivity.
Qed.

End MainFacts.

Lemma main_runs_witness :
  (exists p',
     main Session.int_of_text Sample.float_repr Sample.float_of_string
       Session.container_repr Sample.positive Session.start = (Returned tt, p') /\
     stdin p' = [] /\
     List.length (stdout (world (proc_state p'))) = 146) /\
  (exists p',
     main Session.int_of_text Sample.float_repr Sample.float_of_string
       Session.container_repr Sample.positive
       (mkprocess (mkstate Sample.nobody Sample.earth) Session.long_answers) =
     (Returned tt, p') /\
     stdin p' = []).
Proof.
  split.
  - destruct (@main_runs Session.int_of_text Sample.float_repr
                Sample.float_of_string Session.container_repr Sample.positive
                Session.start "Math, History" "Get an A in Math"
                ["Algebra"; "Calculus"; "Dates"; "Essays"]
                "Morning" "1" 1%Z "Library" "Flashcards" [] (Date.mkdate 2024 1 6))
      as (plan & errors & p' & E & Hin & _ & _ & _ & _ & _ & Hout);
      try reflexivity.
    + intros task label score H. discriminate H.
    + unfold Date.valid, Date.MINYEAR, Date.MAXYEAR. simpl.
      change (Date.days_in_month 2024 1) with 31%Z. lia.
    + constructor; vm_compute; reflexivity.
    + exists p'. split; [exact E|]. split; [exact Hin|].
      vm_compute in E. injection E as <-. reflexivity.
  - destruct (@main_runs Session.int_of_text Sample.float_repr
                Sample.float_of_string Session.container_repr Sample.positive
                (mkprocess (mkstate Sample.nobody Sample.earth)
                   Session.long_answers)
                "Math, History, Art" "Pass"
                ["Algebra"; "Calculus"; "Dates"; "Essays"; "Colour"; "Perspective"]
                "Evening" "2" 2%Z "Desk" "Flashcards, Practice problems" []
                (Date.mkdate 2024 1 6))
      as (plan & errors & p' & E & Hin & _);
      try reflexivity.
    + intros task label score H. discriminate H.
    + unfold Date.valid, Date.MINYEAR, Date.MAXYEAR. simpl.
      change (Date.days_in_month 2024 1) with 31%Z. lia.
    + constructor; vm_compute; reflexivity.
    + exists p'. split; [exact E | exact Hin].
Defined.

(** ** The names of the subjects *)

Module StrFacts.

Import Str.

Lemma rstrip_cons c s :
  rstrip (String c s) =
  match rstrip s with
  | EmptyString => if is_space c then EmptyString else String c EmptyString
  | String c' r => String c (String c' r)
  end.
Proof. reflexivity. Qed.

Lemma lstrip_rstrip s : rstrip (lstrip s) = lstrip (rstrip s).
Proof.
  induction s as [|c s IH]; [reflexivity|].
  cbn [lstrip]. rewrite rstrip_cons.
  destruct (is_space c) eqn:Ec.
  - rewrite IH. destruct (rstrip s) as [|c' r]; [reflexivity|].
    cbn [lstrip]. now rewrite Ec.
  - rewrite rstrip_cons. destruct (rstrip s) as [|c' r]; rewrite ?Ec;
      cbn [lstrip]; now rewrite ?Ec.
Qed.

Lemma lstrip_idem s : lstrip (lstrip s) = lstrip s.
Proof.
  induction s as [|c s IH]; [reflexivity|].
  cbn [lstrip]. destruct (is_space c) eqn:Ec; [exact IH|].
  cbn [lstrip]. now rewrite Ec.
Qed.

Lemma rstrip_idem s : rstrip (rstrip s) = rstrip s.
Proof.
  induction s as [|c s IH]; [reflexivity|].
  rewrite rstrip_cons. destruct (rstrip s) as [|c' r] eqn:Er.
  - destruct (is_space c) eqn:Ec; [reflexivity|].
    cbn. now rewrite Ec.
  - rewrite rstrip_cons, IH. reflexivity.
Qed.

Lemma strip_stripped s : lstrip (strip s) = strip s /\ rstrip (strip s) = strip s.
Proof.
  unfold strip. split; [apply lstrip_idem|].
  now rewrite lstrip_rstrip, rstrip_idem.
Qed.

Lemma count_lstrip c s : count_char c (lstrip s) <= count_char c s.
Proof.
  induction s as [|c' s IH]; [reflexivity|].
  cbn [lstrip]. destruct (is_space c'); [cbn [count_char]; lia | reflexivity].
Qed.

Lemma count_rstrip c s : count_char c (rstrip s) <= count_char c s.
Proof.
  induction s as [|c' s IH]; [reflexivity|].
  rewrite rstrip_cons. destruct (rstrip s) as [|c'' r].
  - destruct (is_space c'); cbn [count_char] in *; lia.
  - cbn [count_char] in *. lia.
Qed.

Lemma count_strip c s : count_char c (strip s) <= count_char c s.
Proof.
  unfold strip. etransitivity; [apply count_lstrip | apply count_rstrip].
Qed.

Lemma split_pieces sep s :
  Forall (fun piece => count_char sep piece = 0) (split sep s) /\
  List.length (split sep s) = 1 + count_char sep s.
Proof.
  induction s as [|c s [IHf IHl]]; [split; [repeat constructor | reflexivity]|].
  cbn [split count_char]. destruct (Ascii.eqb c sep) eqn:Ec.
  - split; [constructor; [reflexivity | exact IHf]|].
    cbn [List.length]. rewrite IHl. reflexivity.
  - destruct (split sep s) as [|piece pieces]; [discriminate IHl|].
    inversion IHf as [|? ? Hp Hps]; subst. split.
    + constructor; [|exact Hps]. cbn [count_char]. now rewrite Ec, Hp.
    + cbn [List.length] in *. lia.
Qed.

End StrFacts.

Section SubjectNames.

Variable int_of_text : string -> option Z.

(** X23. The subjects after [gather_student_info]: one more than there
    are commas on the line typed in; no name holds a comma, and none
    begins or ends with white space (a name can be empty). *)
Theorem gather_student_info_clean_subjects p p' :
  gather_student_info int_of_text p = (Returned tt, p') ->
  List.length (subjects (self (proc_state p'))) =
    1 + count_char "," (hd "" (stdin p)) /\
  forall subject, In subject (subjects (self (proc_state p'))) ->
    Str.lstrip subject = subject /\ Str.rstrip subject = subject /\
    count_char "," subject = 0.
Proof.
  intros H. apply gather_student_info_cases in H as [_ H].
  destruct H as [(_ & _ & _ & Hs & _)|[(H & _)|(H & _)]]; try discriminate H.
  rewrite Hs. destruct (StrFacts.split_pieces "," (hd "" (stdin p))) as [Hf Hl].
  split; [now rewrite length_map|].
  intros subject Hin. apply in_map_iff in Hin as (piece & <- & Hin).
  destruct (StrFacts.strip_stripped piece) as [H1 H2].
  split; [exact H1|]. split; [exact H2|].
  rewrite Forall_forall in Hf. specialize (Hf _ Hin).
  pose proof (StrFacts.count_strip "," piece). lia.
Qed.

End SubjectNames.

Lemma gather_student_info_clean_subjects_witness :
  List.length
    (subjects (self (proc_state (snd
       (gather_student_info Session.int_of_text Session.start))))) = 2.
Proof.
  destruct (gather_student_info Session.int_of_text Session.start)
    as [o p'] eqn:E.
  assert (Ho : o = Returned tt) by (vm_compute in E; now injection E as <- _).
  subst o.
  destruct (gather_student_info_clean_subjects _ _ E) as [Hl _].
  cbn [snd]. rewrite Hl. reflexivity.
Defined.

(** ** The characters of the file *)

Module PlainFacts.

Lemma all_plain_app a b : all_plain (a ++ b) = all_plain a && all_plain b.
Proof.
  induction a as [|c a IH]; [reflexivity|].
  cbn [append all_plain]. now rewrite IH, andb_assoc.
Qed.

Lemma escape_char_plain c : all_plain (escape_char c) = true.
Proof. destruct c as [[] [] [] [] [] [] [] []]; reflexivity. Qed.

Lemma encode_string_plain s : all_plain (encode_string s) = true.
Proof.
  unfold encode_string. cbn [all_plain].
  rewrite all_plain_app. cbn.
  induction s as [|c s IH]; [reflexivity|].
  cbn [escape]. rewrite all_plain_app, escape_char_plain. exact IH.
Qed.

Lemma newline_indent_plain level : all_plain (newline_indent level) = true.
Proof.
  unfold newline_indent. cbn [all_plain]. cbn [plain]. 
  induction (4 * level)%nat as [|n IH]; [reflexivity|exact IH].
Qed.

Lemma digit_plain c : is_digit c = true -> plain c = true.
Proof.
  unfold is_digit, plain. intros H. apply andb_true_iff in H as [H1 H2].
  apply Nat.leb_le in H1, H2. apply orb_true_iff. left.
  apply andb_true_iff. split; apply Nat.leb_le; lia.
Qed.

Lemma span_digits_plain s : forall ds r,
  span_digits s = (ds, r) -> all_plain ds = true.
Proof.
  induction s as [|c s IH]; intros ds r.
  - intros [= <- <-]. reflexivity.
  - cbn [span_digits]. destruct (is_digit c) eqn:Ec.
    + destruct (span_digits s) as [ds' r'] eqn:E. intros [= <- <-].
      cbn [all_plain]. now rewrite (digit_plain _ Ec), (IH _ _ eq_refl).
    + intros [= <- <-]. reflexivity.
Qed.

Lemma scan_natural_plain s n r :
  scan_natural s = Some (n, r) -> s = n ++ r /\ all_plain n = true.
Proof.
  unfold scan_natural. destruct s as [|c s]; [discriminate|].
  destruct (Ascii.eqb_spec c "0") as [->|_].
  - intros [= <- <-]. split; reflexivity.
  - destruct (is_digit c) eqn:Ec; [|discriminate].
    destruct (span_digits s) as [ds rest] eqn:E. intros [= <- <-].
    cbn [append all_plain].
    rewrite (digit_plain _ Ec), (span_digits_plain _ E).
    split; [|reflexivity]. f_equal. exact (span_digits_concat _ _ _ E).
Qed.

Lemma scan_integer_plain s n r :
  scan_integer s = Some (n, r) -> s = n ++ r /\ all_plain n = true.
Proof.
  unfold scan_integer. destruct s as [|c s]; [discriminate|].
  destruct (Ascii.eqb_spec c "-") as [->|_].
  - destruct (scan_natural s) as [[ds rest]|] eqn:E; [|discriminate].
    intros [= <- <-]. apply scan_natural_plain in E as [-> E].
    cbn [append all_plain]. now rewrite E.
  - apply scan_natural_plain.
Qed.

Lemma scan_frac_plain s f r :
  scan_frac s = (f, r) -> s = f ++ r /\ all_plain f = true.
Proof.
  unfold scan_frac. destruct s as [|c s]; [intros [= <- <-]; now split|].
  destruct (Ascii.eqb_spec c ".") as [->|_]; [|intros [= <- <-]; now split].
  destruct (span_digits s) as [[|d ds] rest] eqn:E; intros [= <- <-];
    [now split|].
  cbn [append]. split; [f_equal; exact (span_digits_concat _ _ _ E)|].
  change (all_plain (String "." (String d ds)))
    with (all_plain (String d ds)).
  exact (span_digits_plain _ E).
Qed.

Lemma scan_exp_plain s e r :
  scan_exp s = (e, r) -> s = e ++ r /\ all_plain e = true.
Proof.
  unfold scan_exp. destruct s as [|c s]; [intros [= <- <-]; now split|].
  destruct (Ascii.eqb c "e" || Ascii.eqb c "E") eqn:Ec;
    [|intros [= <- <-]; now split].
  assert (Hc : plain c = true).
  { apply orb_true_iff in Ec as [Ec|Ec]; apply Ascii.eqb_eq in Ec; now subst c. }
  destruct s as [|sg s]; [intros [= <- <-]; now split|].
  destruct (Ascii.eqb sg "-" || Ascii.eqb sg "+") eqn:Es.
  - assert (Hs : plain sg = true).
    { apply orb_true_iff in Es as [Es|Es]; apply Ascii.eqb_eq in Es; now subst sg. }
    destruct (span_digits s) as [[|d ds] rest] eqn:E; intros [= <- <-];
      [now split|].
    cbn [append]. split; [do 2 f_equal; exact (span_digits_concat _ _ _ E)|].
    cbn [all_plain] in *. rewrite Hc, Hs. exact (span_digits_plain _ E).
  - destruct (span_digits (String sg s)) as [[|d ds] rest] eqn:E;
      intros [= <- <-]; [now split|].
    cbn [append]. split; [f_equal; exact (span_digits_concat _ _ _ E)|].
    cbn [all_plain] in *. rewrite Hc. exact (span_digits_plain _ E).
Qed.

Lemma integer_token_plain t : is_integer_token t = true -> all_plain t = true.
Proof.
  unfold is_integer_token.
  destruct (scan_integer t) as [[i r]|] eqn:E; [|discriminate].
  intros Hr. apply String.eqb_eq in Hr. subst r.
  apply scan_integer_plain in E as [-> E]. now rewrite append_nil_r.
Qed.

Lemma float_token_plain t : is_float_token t = true -> all_plain t = true.
Proof.
  unfold is_float_token.
  destruct (scan_integer t) as [[i r1]|] eqn:Ei; [|discriminate].
  destruct (scan_frac r1) as [f r2] eqn:Ef.
  destruct (scan_exp r2) as [e r3] eqn:Ee.
  intros H. apply andb_true_iff in H as [Hr _].
  apply String.eqb_eq in Hr. subst r3.
  apply scan_integer_plain in Ei as [-> Hi].
  apply scan_frac_plain in Ef as [-> Hf].
  apply scan_exp_plain in Ee as [-> He].
  now rewrite append_nil_r, !all_plain_app, Hi, Hf, He.
Qed.

Section Encoded.

Variable float_repr : Q -> string.
Variable float_of_string : string -> Q.

Lemma iterencode_plain v :
  storable float_repr float_of_string v ->
  forall level, all_plain (iterencode float_repr level v) = true.
Proof.
  induction v as [| b | z | q | s | l IH | d IH] using value_nested_ind;
    intros Hs level.
  - reflexivity.
  - destruct b; reflexivity.
  - cbn [iterencode]. apply integer_token_plain, int_repr_token.
  - cbn [iterencode]. apply float_token_plain.
    now inversion Hs.
  - cbn [iterencode]. apply encode_string_plain.
  - inversion Hs as [| | | | |? Hl|]; subst.
    destruct l as [|x xs]; [reflexivity|].
    rewrite iterencode_list, !all_plain_app, !newline_indent_plain.
    inversion IH as [|? ? Hx Hxs]; subst. inversion Hl as [|? ? Sx Sxs]; subst.
    rewrite (Hx Sx). cbn [all_plain andb]. rewrite andb_true_r.
    clear Hx Sx Hs Hl IH.
    induction Hxs as [|y ys Hy Hys IHl]; [reflexivity|].
    inversion Sxs as [|? ? Sy Sys]; subst.
    cbn [items_text]. rewrite !all_plain_app, newline_indent_plain, (Hy Sy).
    cbn [all_plain andb]. now apply IHl.
  - inversion Hs as [| | | | | |? Hk Hl]; subst.
    destruct d as [|[k x] kxs]; [reflexivity|].
    rewrite iterencode_dict, !all_plain_app, !newline_indent_plain,
      encode_string_plain.
    inversion IH as [|? ? Hx Hxs]; subst. inversion Hl as [|? ? Sx Sxs]; subst.
    cbn [snd] in *. rewrite (Hx Sx). cbn [all_plain andb]. rewrite andb_true_r.
    clear Hx Sx Hs Hl IH Hk.
    induction Hxs as [|[k' y] ys Hy Hys IHl]; [reflexivity|].
    inversion Sxs as [|? ? Sy Sys]; subst. cbn [snd] in *.
    cbn [members_text].
    rewrite !all_plain_app, newline_indent_plain, encode_string_plain, (Hy Sy).
    cbn [all_plain andb]. now apply IHl.
Qed.

End Encoded.

End PlainFacts.

Section PlainFiles.

Variable float_repr : Q -> string.
Variable float_of_string : string -> Q.

(** X24. The file [save_study_plan] writes is plain text: whatever the
    names and answers in the plan, every character of it is a printable
    ASCII character or a line feed; anything else is written as an
    escape. *)
Theorem save_study_plan_plain_text st filename :
  storable float_repr float_of_string (study_plan (self st)) ->
  exists text,
    Dict.get filename
      (files (world (snd (save_study_plan float_repr filename st)))) =
    Some text /\
    all_plain text = true.
Proof.
  intros Hs. exists (dumps float_repr (study_plan (self st))). split.
  - cbn [save_study_plan bind get_self write_file modify_world print snd world
         files set_files set_stdout].
    apply get_set_eq.
  - unfold dumps. now apply (PlainFacts.iterencode_plain Hs).
Qed.

End PlainFiles.

Lemma save_study_plan_plain_text_witness :
  exists text,
    Dict.get "plan.json"
      (files (world (snd (save_study_plan Sample.float_repr "plan.json"
                            (with_self
                               (set_study_plan
                                  (VDict [(String "233" "t", VStr (String "010" (String "127" "")))])
                                  (Sample.alice Sample.positive))
                               (Sample.st Sample.positive)))))) = Some text /\
    all_plain text = true.
Proof.
  apply (@save_study_plan_plain_text Sample.float_repr Sample.float_of_string
           (with_self
              (set_study_plan (VDict [(String "233" "t", VStr (String "010" (String "127" "")))])
                 (Sample.alice Sample.positive))
              (Sample.st Sample.positive)) "plan.json").
  constructor; [repeat constructor; simpl; tauto | repeat constructor].
Defined.
